(** * st_aggrid.AgGrid: the marshalling layer between a typed table and the grid widget

    A shallow embedding of [src/st_aggrid/__init__.py].  The render call
    [AgGrid] classifies the columns of a table, encodes every cell into a
    JSON-safe scalar, validates its configuration, calls the hosted widget
    once, and retypes the rows the widget sends back.

    Python values are modelled by the observations the program makes on them
    (attribute lookup, [isinstance], [numpy.isnan], [__str__]); exceptions by
    an error type; the one object the call mutates (the caller's [gridOptions]
    mapping) and the boundary calls by an explicit world that is threaded
    through the call.  Functions of pandas, numpy, simplejson and streamlit
    that the program calls are modelled by their documented behaviour; what
    they compute on text (number, date and duration grammars, [float.__repr__],
    Unicode upper-casing) and the messages of their exceptions are taken from
    an environment record.  A Python [str] is held as its UTF-8 text. *)

From Stdlib Require Import ZArith String Ascii List Bool Lia.
From Stdlib Require Import Floats.SpecFloat.
From stdpp Require Import base option list gmap strings pretty.

Set Warnings "-register-all,-clear-no-such-hyp".

Open Scope string_scope.
Open Scope Z_scope.

(** ** Exceptions and results *)

Inductive exn : Type :=
| ValueError (msg : string)
| TypeError (msg : string)
| KeyError (msg : string)
| AssertionError (msg : string)
| JSONDecodeError (msg : string)
| MarshallComponentException (msg : string).

Inductive result (A : Type) : Type :=
| Ok (a : A)
| Raise (e : exn).
Arguments Ok {A} a.
Arguments Raise {A} e.

Definition result_bind {A B} (m : result A) (k : A -> result B) : result B :=
  match m with
  | Ok a => k a
  | Raise e => Raise e
  end.

#[global] Instance result_mret : MRet result := fun _ a => Ok a.
#[global] Instance result_mbind : MBind result := fun _ _ k m => result_bind m k.

Definition is_ok {A} (r : result A) : bool :=
  match r with Ok _ => true | Raise _ => false end.

(** [mapM f l]: apply [f] to the elements from left to right; the first
    exception stops the traversal. *)
Fixpoint mapM {A B} (f : A -> result B) (l : list A) : result (list B) :=
  match l with
  | [] => Ok []
  | x :: l' =>
      match f x with
      | Ok y => match mapM f l' with
                | Ok ys => Ok (y :: ys)
                | Raise e => Raise e
                end
      | Raise e => Raise e
      end
  end.

(** ** Python values held by table cells *)

(** What [getattr(value, "isoformat", None)] finds on an object that has the
    attribute: a bound method (truthy and callable; [returns] is the text the
    call yields, as [datetime.isoformat], [Timestamp.isoformat] and
    [Timedelta.isoformat] do) or a plain data attribute. *)
Inductive attribute : Type :=
| Method (returns : string)
| Data (truthy : bool).

(** Any object that is not one of the built-in scalars below: a pandas
    [Timestamp], [Timedelta] or [NaT], a [decimal.Decimal], a list, ...
    [obj_is_Number] says whether its class is registered with
    [numbers.Number] (as [Decimal] and [Fraction] are). *)
Record pyobject : Type := {
  obj_type : string;
  obj_str : string;
  obj_isoformat : option attribute;
  obj_is_Number : bool
}.

Inductive pyval : Type :=
| PyNone
| PyBool (b : bool)
| PyInt (z : Z)
| PyFloat (f : spec_float)
| PyComplex (re im : spec_float)
| PyStr (s : string)
| PyObj (o : pyobject).

Definition NaN : pyval := PyFloat S754_nan.

(** [pandas.NaT]: its [isoformat()] and [str()] are both ['NaT']. *)
Definition NaT : pyval :=
  PyObj {| obj_type := "NaTType"; obj_str := "NaT";
           obj_isoformat := Some (Method "NaT"); obj_is_Number := false |}.

Definition float_is_nan (f : spec_float) : bool :=
  match f with S754_nan => true | _ => false end.

Definition float_is_inf (f : spec_float) : bool :=
  match f with S754_infinity _ => true | _ => false end.

Definition float_is_finite (f : spec_float) : bool :=
  negb (float_is_nan f || float_is_inf f).

(** [isinstance(value, numbers.Number)]: [bool], [int], [float] and [complex]
    belong to the numeric tower; other objects only when registered. *)
Definition is_Number (v : pyval) : bool :=
  match v with
  | PyBool _ | PyInt _ | PyFloat _ | PyComplex _ _ => true
  | PyObj o => obj_is_Number o
  | PyNone | PyStr _ => false
  end.

(** numpy turns a Python integer into a 64-bit array element when it fits
    [int64] or [uint64]; a larger one becomes an [object] element. *)
Definition fits_int64_or_uint64 (z : Z) : bool :=
  (- 2 ^ 63 <=? z) && (z <? 2 ^ 64).

Definition no_ufunc_loop (name : string) : exn :=
  TypeError ("ufunc '" ++ name ++ "' not supported for the input types, and the inputs could not be safely coerced to any supported types according to the casting rule ''safe''").

(** [numpy.isnan] and [numpy.isinf] exist for booleans, machine integers,
    floats and complex numbers.  For anything numpy stores as [object]
    ([Decimal], [Fraction], integers beyond 64 bits, [None], text) the ufunc
    has no loop and raises [TypeError]. *)
Definition np_isnan (v : pyval) : result bool :=
  match v with
  | PyBool _ => Ok false
  | PyInt z => if fits_int64_or_uint64 z then Ok false else Raise (no_ufunc_loop "isnan")
  | PyFloat f => Ok (float_is_nan f)
  | PyComplex re im => Ok (float_is_nan re || float_is_nan im)
  | PyNone | PyStr _ | PyObj _ => Raise (no_ufunc_loop "isnan")
  end.

Definition np_isinf (v : pyval) : result bool :=
  match v with
  | PyBool _ => Ok false
  | PyInt z => if fits_int64_or_uint64 z then Ok false else Raise (no_ufunc_loop "isinf")
  | PyFloat f => Ok (float_is_inf f)
  | PyComplex re im => Ok (float_is_inf re || float_is_inf im)
  | PyNone | PyStr _ | PyObj _ => Raise (no_ufunc_loop "isinf")
  end.

(** ** Column types *)

(** The element types a column can declare, by numpy family. *)
Inductive np_dtype : Type :=
| dt_bool
| dt_int (bits : N)
| dt_uint (bits : N)
| dt_float (bits : N)
| dt_complex (bits : N)
| dt_timedelta64
| dt_datetime64
| dt_object
| dt_bytes
| dt_str
| dt_void.

(** [dtype.kind]: numpy's one-character code of the family. *)
Definition kind (t : np_dtype) : string :=
  match t with
  | dt_bool => "b"
  | dt_int _ => "i"
  | dt_uint _ => "u"
  | dt_float _ => "f"
  | dt_complex _ => "c"
  | dt_timedelta64 => "m"
  | dt_datetime64 => "M"
  | dt_object => "O"
  | dt_bytes => "S"
  | dt_str => "U"
  | dt_void => "V"
  end.

(** ** Tables *)

Record Series : Type := { dtype : np_dtype; values : list pyval }.

(** A table: the length of its index and its columns in order.  The data
    model's invariant (column names unique, every column as long as the
    index) is [wf_frame]; no function below relies on it silently. *)
Record DataFrame : Type := { nrows : nat; cols : list (string * Series) }.

Definition columns (df : DataFrame) : list string := (cols df).*1.

Definition wf_frame (df : DataFrame) : Prop :=
  NoDup (columns df) /\
  Forall (fun c => length (values c.2) = nrows df) (cols df).

(** [DataFrame.empty]: true when any axis has length zero. *)
Definition empty (df : DataFrame) : bool :=
  (nrows df =? 0)%nat || (length (cols df) =? 0)%nat.

(** ** Numbers as pandas unifies them *)

Definition int64_range (z : Z) : bool := (- 2 ^ 63 <=? z) && (z <? 2 ^ 63).

Definition uint64_range (z : Z) : bool := (0 <=? z) && (z <? 2 ^ 64).

(** The double nearest to a positive integer, ties to even, in the
    canonical form of [SpecFloat] for binary64; infinite beyond the range. *)
Definition float_of_pos (s : bool) (p : positive) : spec_float :=
  let sh := Z.log2 (Zpos p) + 1 - 53 in
  if sh <=? 0 then S754_finite s (Z.to_pos (Z.shiftl (Zpos p) (- sh))) sh
  else
    let q := Z.shiftr (Zpos p) sh in
    let r := Z.land (Zpos p) (Z.ones sh) in
    let half := Z.shiftl 1 (sh - 1) in
    let q' := if (half <? r) || ((r =? half) && Z.odd q) then q + 1 else q in
    let e := if q' =? 2 ^ 53 then sh + 1 else sh in
    let m := if q' =? 2 ^ 53 then 2 ^ 52 else q' in
    if 971 <? e then S754_infinity s else S754_finite s (Z.to_pos m) e.

(** The conversion of an integer to [float64]. *)
Definition float_of_Z (z : Z) : spec_float :=
  match z with
  | Z0 => S754_zero false
  | Zpos p => float_of_pos false p
  | Zneg p => float_of_pos true p
  end.

Definition is_None (v : pyval) : bool := match v with PyNone => true | _ => false end.
Definition is_bool (v : pyval) : bool := match v with PyBool _ => true | _ => false end.
Definition is_int (v : pyval) : bool := match v with PyInt _ => true | _ => false end.
Definition is_float (v : pyval) : bool := match v with PyFloat _ => true | _ => false end.
Definition is_complex (v : pyval) : bool := match v with PyComplex _ _ => true | _ => false end.
Definition is_text_or_object (v : pyval) : bool :=
  match v with PyStr _ | PyObj _ => true | _ => false end.

(** An integer that [int64] does not hold. *)
Definition is_wide (v : pyval) : bool :=
  match v with PyInt z => negb (int64_range z) | _ => false end.

Definition is_uint64 (v : pyval) : bool :=
  match v with PyInt z => uint64_range z | _ => false end.

(** A cell of a column that becomes an integer, a float or a complex
    column: booleans count as 0 and 1, a missing value is NaN. *)
Definition to_int (v : pyval) : pyval :=
  match v with
  | PyBool b => PyInt (if b then 1 else 0)
  | _ => v
  end.

Definition to_float (v : pyval) : pyval :=
  match v with
  | PyNone => NaN
  | PyBool b => PyFloat (float_of_Z (if b then 1 else 0))
  | PyInt z => PyFloat (float_of_Z z)
  | _ => v
  end.

Definition to_complex (v : pyval) : pyval :=
  match v with
  | PyNone => PyComplex S754_nan (S754_zero false)
  | PyBool b => PyComplex (float_of_Z (if b then 1 else 0)) (S754_zero false)
  | PyInt z => PyComplex (float_of_Z z) (S754_zero false)
  | PyFloat f => PyComplex f (S754_zero false)
  | _ => v
  end.

(** A numeric column raised to its widest kind: complex when a complex
    number is present, float otherwise. *)
Definition to_widest (col : list pyval) : list pyval :=
  if existsb is_complex col then map to_complex col else map to_float col.

(** The dtype of a column as pandas has unified it. *)
Definition infer_dtype (l : list pyval) : np_dtype :=
  match l with
  | [] => dt_object
  | _ =>
      if forallb is_bool l then dt_bool
      else if forallb (fun v => match v with PyInt z => int64_range z | _ => false end) l
           then dt_int 64
      else if forallb is_uint64 l then dt_uint 64
      else if forallb is_float l then dt_float 64
      else if forallb is_complex l then dt_complex 128
      else dt_object
  end.

(** A row record, as [to_dict(orient="records")] produces and as the
    widget's [rowData] holds: column name to cell, in column order. *)
Definition record : Type := list (string * pyval).

Definition record_get (c : string) (r : record) : option pyval :=
  snd <$> List.find (fun kv => String.eqb kv.1 c) r.

(** ** Grid options and the enumerations of [st_aggrid.shared] *)

(** A grid-options document: nested mappings and lists whose leaves are
    plain values or [JsCode] markers carrying executable text. *)
Inductive go_value : Type :=
| GoJsCode (js_code : string)
| GoAtom (v : pyval)
| GoList (items : list go_value)
| GoDict (entries : list (string * go_value)).

(** Modelled from the spec: [walk_gridOptions] is defined in
    [st_aggrid/shared.py], which is not among the sources.  The spec says
    that with the unsafe-code flag set "such markers are unwrapped to raw
    executable text before transmission"; the walk applies [func] at every
    leaf of the nested document.  The call site (lines 175-178) discards
    what the walk returns and transmits the same [gridOptions] object, so
    the walk works in place: [AgGrid] below stores its result back into the
    object that was walked. *)
Fixpoint walk_gridOptions (func : go_value -> go_value) (go : go_value) : go_value :=
  match go with
  | GoDict entries => GoDict (map (fun kv => (kv.1, walk_gridOptions func kv.2)) entries)
  | GoList items => GoList (map (walk_gridOptions func) items)
  | GoJsCode _ | GoAtom _ => func go
  end.

(** [lambda v: v.js_code if isinstance(v, JsCode) else v] (line 177). *)
Definition unwrap_JsCode (v : go_value) : go_value :=
  match v with
  | GoJsCode code => GoAtom (PyStr code)
  | _ => v
  end.

(** Modelled from the spec: the enumeration [DataReturnMode] is declared in
    [st_aggrid/shared.py], which is not among the sources; its members are
    the ones the docstring of [AgGrid] lists (lines 86-92). *)
Inductive DataReturnMode : Type :=
| AS_INPUT
| FILTERED
| FILTERED_AND_SORTED.

(** Modelled from the spec: the flag enumeration [GridUpdateMode] is declared
    in [st_aggrid/shared.py], which is not among the sources; its members
    are the ones the docstring of [AgGrid] lists (lines 68-84), closed under
    the bitwise OR the docstring allows. *)
Inductive GridUpdateMode : Type :=
| NO_UPDATE
| MANUAL
| VALUE_CHANGED
| SELECTION_CHANGED
| FILTERING_CHANGED
| SORTING_CHANGED
| MODEL_CHANGED
| GridUpdateMode_or (a b : GridUpdateMode).

Definition DataReturnMode_members : list (string * DataReturnMode) :=
  [("AS_INPUT", AS_INPUT); ("FILTERED", FILTERED);
   ("FILTERED_AND_SORTED", FILTERED_AND_SORTED)].

Definition GridUpdateMode_members : list (string * GridUpdateMode) :=
  [("NO_UPDATE", NO_UPDATE); ("MANUAL", MANUAL); ("VALUE_CHANGED", VALUE_CHANGED);
   ("SELECTION_CHANGED", SELECTION_CHANGED); ("FILTERING_CHANGED", FILTERING_CHANGED);
   ("SORTING_CHANGED", SORTING_CHANGED); ("MODEL_CHANGED", MODEL_CHANGED)].

(** [Enum[name]]: the member of that name, [KeyError] when there is none. *)
Definition enum_getitem {E} (members : list (string * E)) (name : string) : result E :=
  match List.find (fun kv => String.eqb kv.1 name) members with
  | Some kv => Ok kv.2
  | None => Raise (KeyError name)
  end.

(** [str.upper] on the ASCII letters. *)
Definition upper_ascii (c : ascii) : ascii :=
  let n := nat_of_ascii c in
  if ((97 <=? n) && (n <=? 122))%nat then ascii_of_nat (n - 32) else c.

Fixpoint ascii_upper (s : string) : string :=
  match s with
  | EmptyString => EmptyString
  | String c s' => String (upper_ascii c) (ascii_upper s')
  end.

(** A text of ASCII characters only: no byte of its UTF-8 form is 128 or
    more. *)
Fixpoint is_ascii (s : string) : bool :=
  match s with
  | EmptyString => true
  | String c s' => (nat_of_ascii c <? 128)%nat && is_ascii s'
  end.

(** An argument that should be a mode: a string, a member of the
    enumeration [E], or any other object ([other_str] is its [str()]). *)
Inductive mode_arg (E : Type) : Type :=
| ModeStr (s : string)
| ModeEnum (e : E)
| ModeOther (other_str : string).
Arguments ModeStr {E} s.
Arguments ModeEnum {E} e.
Arguments ModeOther {E} other_str.

(** The [theme] argument: a string or any other object. *)
Inductive theme_arg : Type :=
| ThemeStr (s : string)
| ThemeOther (other_str : string).

Definition theme_str (t : theme_arg) : string :=
  match t with ThemeStr s => s | ThemeOther s => s end.

(** ** JSON documents *)

(** The text [simplejson.dumps] writes, by its tokens: a number token holds
    the float it prints, so a [JFloat] of a NaN or an infinity stands for a
    raw [NaN] or [Infinity] token, which standard JSON does not have. *)
Inductive json : Type :=
| JNull
| JBool (b : bool)
| JInt (z : Z)
| JFloat (f : spec_float)
| JStr (s : string)
| JArr (items : list json)
| JObj (members : list (string * json)).

Fixpoint json_standard (j : json) : bool :=
  match j with
  | JFloat f => float_is_finite f
  | JArr items => forallb json_standard items
  | JObj members => forallb (fun kv => json_standard kv.2) members
  | JNull | JBool _ | JInt _ | JStr _ => true
  end.

(** ** The boundary *)

(** The keyword arguments of the component call (lines 205-221). *)
Record Payload : Type := {
  p_gridOptions : go_value;
  p_row_data : json;
  p_height : Z;
  p_width : option Z;
  p_fit_columns_on_grid_load : bool;
  p_update_mode : GridUpdateMode;
  p_data_return_mode : DataReturnMode;
  p_frame_dtypes : gmap string string;
  p_allow_unsafe_jscode : bool;
  p_enable_enterprise_modules : bool;
  p_license_key : option string;
  p_reload_data : bool;
  p_theme : string;
  p_key : option string
}.

(** The widget's answer once the user has interacted. *)
Record Response : Type := {
  rowData : list record;
  originalDtypes : gmap string string;
  selectedRows : list record
}.

(** What the component call returns: [None] (the [default]) before any
    interaction, the response as a mapping, or the response as JSON text. *)
Inductive component_value : Type :=
| CV_None
| CV_Dict (r : Response)
| CV_Str (text : string).

(** ** The environment: collaborators outside this file *)

Inductive wide_result : Type := wide_input | wide_ints | wide_floats.

Record Env : Type := {
  (** [float.__repr__] of a finite float *)
  float_repr : spec_float -> string;
  (** [complex.__str__] *)
  complex_str : spec_float -> spec_float -> string;
  (** what [format()] prints for a member of [DataReturnMode] *)
  format_DataReturnMode : DataReturnMode -> string;
  (** [str.upper] of a text that is not all ASCII *)
  unicode_upper : string -> string;
  (** pandas' numeric reading of a text cell, [None] when it is no number *)
  parse_numeric : string -> option pyval;
  (** pandas' numeric reading of a cell that is neither a scalar nor
      [None] (a list, a mapping, a [Decimal]), [None] when it has none *)
  numeric_of_object : pyobject -> option pyval;
  (** the exception [pd.to_numeric] raises for a cell it cannot read, by
      position in the column *)
  to_numeric_error : nat -> pyval -> exn;
  (** pandas' date/time reading of one cell, [None] when it fails *)
  parse_datetime : pyval -> option pyval;
  (** the exception [pd.to_datetime] raises for a cell it cannot read *)
  to_datetime_error : nat -> pyval -> exn;
  (** [lib.maybe_convert_objects] on a column of numbers and [None]s that
      holds an integer beyond [int64] beside other values: [true] when the
      column becomes a float (or complex) column, [false] when it is left as
      objects *)
  convert_objects_wide : list pyval -> bool;
  (** [lib.maybe_convert_numeric] on such a column of numbers: the input
      column given back, an integer column, or a float column *)
  convert_numeric_wide : list pyval -> wide_result;
  (** the text of the [KeyError] that [.loc] raises for these missing labels *)
  not_in_index : list string -> string;
  (** [pd.Timedelta] of one scalar, [None] when it fails *)
  parse_timedelta : pyval -> option pyval;
  (** [GridOptionsBuilder.from_dataframe(dataframe, **kwargs).build()] *)
  from_dataframe_build : DataFrame -> list (string * pyval) -> go_value;
  (** the hosted widget behind [_component_func] *)
  _component_func : Payload -> result component_value;
  (** [simplejson.loads] of a string-wrapped response *)
  simplejson_loads : string -> result Response
}.

(** ** Columns built from Python objects *)

(** [lib.maybe_convert_objects], which pandas applies to every column it
    builds from Python objects ([DataFrame.applymap], [pd.DataFrame] of
    records): a column holding text or any other object stays as it is, and
    so does a column holding a boolean; integers beside a float or a missing
    value become floats, the missing value NaN; a column of [None]s stays. *)
Definition maybe_convert_objects (env : Env) (col : list pyval) : list pyval :=
  if existsb is_text_or_object col then col
  else if existsb is_bool col then col
  else if existsb is_wide col then
    if forallb is_uint64 col then col
    else if convert_objects_wide env col then to_widest col else col
  else if existsb is_complex col then map to_complex col
  else if existsb is_float col || (existsb is_None col && existsb is_int col)
       then map to_float col
  else col.

Definition Series_of (env : Env) (l : list pyval) : Series :=
  let vs := maybe_convert_objects env l in
  {| dtype := infer_dtype vs; values := vs |}.

(** ** The render call's arguments, result and world *)

(** The parameters of [AgGrid] (lines 29-46), [gridOptions] apart: that one
    is a reference to a mapping the caller owns, held in the world below. *)
Record Args : Type := {
  dataframe : DataFrame;
  height : Z;
  width : option Z;
  fit_columns_on_grid_load : bool;
  update_mode : mode_arg GridUpdateMode;
  data_return_mode : mode_arg DataReturnMode;
  allow_unsafe_jscode : bool;
  enable_enterprise_modules : bool;
  license_key : option string;
  try_to_convert_back_to_original_types : bool;
  conversion_errors : string;
  reload_data : bool;
  theme : theme_arg;
  key : option string;
  default_column_parameters : list (string * pyval)
}.

(** The dictionary [AgGrid] returns. *)
Record AgGrid_response : Type := {
  data : DataFrame;
  selected_rows : list record
}.

(** What a call can change outside its own frame: the mapping passed as
    [gridOptions] ([None] when the caller passed none), the calls made to
    the hosted widget (latest first), and the warnings issued. *)
Record World : Type := {
  caller_gridOptions : option go_value;
  boundary_calls : list Payload;
  warnings : list string
}.

Definition Py (A : Type) : Type := World -> result A * World.

Definition Py_ret {A} (a : A) : Py A := fun w => (Ok a, w).

Definition Py_bind {A B} (m : Py A) (k : A -> Py B) : Py B :=
  fun w => match m w with
           | (Ok a, w') => k a w'
           | (Raise e, w') => (Raise e, w')
           end.

#[global] Instance Py_mret : MRet Py := fun _ a => Py_ret a.
#[global] Instance Py_mbind : MBind Py := fun _ _ k m => Py_bind m k.

(** A computation that touches nothing of the world. *)
Definition lift {A} (r : result A) : Py A := fun w => (r, w).

Definition warnings_warn (msg : string) : Py unit :=
  fun w => (Ok tt, {| caller_gridOptions := caller_gridOptions w;
                      boundary_calls := boundary_calls w;
                      warnings := msg :: warnings w |}).

Definition get_gridOptions : Py (option go_value) :=
  fun w => (Ok (caller_gridOptions w), w).

(** Store into the caller's mapping (an in-place update of that object). *)
Definition store_gridOptions (g : go_value) : Py unit :=
  fun w => (Ok tt, {| caller_gridOptions := Some g;
                      boundary_calls := boundary_calls w;
                      warnings := warnings w |}).

Definition log_call (p : Payload) : Py unit :=
  fun w => (Ok tt, {| caller_gridOptions := caller_gridOptions w;
                      boundary_calls := p :: boundary_calls w;
                      warnings := warnings w |}).

(** [try: body except: handler] with a bare [except]. *)
Definition try_except {A} (body : result A) (handler : exn -> result A) : result A :=
  match body with
  | Ok x => Ok x
  | Raise e => handler e
  end.

(** [dict(pairs)]: a later pair overwrites an earlier one of the same key. *)
Definition dict {V} (pairs : list (string * V)) : gmap string V :=
  list_to_map (reverse pairs).

(** Line 150: the kind code of every column's declared dtype. *)
Definition frame_dtypes (df : DataFrame) : gmap string string :=
  dict (zip (columns df) (map (fun c => kind (dtype c.2)) (cols df))).

Definition _available_themes : list string :=
  ["streamlit"; "light"; "dark"; "blue"; "fresh"; "material"].

(** [str(_available_themes)] *)
Definition _available_themes_str : string :=
  "['streamlit', 'light', 'dark', 'blue', 'fresh', 'material']".

(** Lines 180-184. *)
Definition check_theme (t : theme_arg) : result string :=
  match t with
  | ThemeStr s =>
      if bool_decide (s ∈ _available_themes) then Ok s
      else Raise (ValueError (s ++ " is not valid. Available options: " ++ _available_themes_str))
  | ThemeOther s =>
      Raise (ValueError (s ++ " is not valid. Available options: " ++ _available_themes_str))
  end.

(** ** Encoding (lines 157-173) *)

Definition getattr_isoformat (v : pyval) : option attribute :=
  match v with
  | PyObj o => obj_isoformat o
  | _ => None
  end.

Definition attr_truthy (a : option attribute) : bool :=
  match a with
  | Some (Method _) => true
  | Some (Data t) => t
  | None => false
  end.

Definition callable (a : option attribute) : bool :=
  match a with
  | Some (Method _) => true
  | _ => false
  end.

(** [pandas.DataFrame.applymap]: [func] on every cell, column after column;
    a new table is built from the results, the argument is not changed. *)
Definition applymap (env : Env) (func : pyval -> result pyval) (df : DataFrame)
    : result DataFrame :=
  match mapM (fun c => match mapM func (values c.2) with
                       | Ok vs => Ok (c.1, Series_of env vs)
                       | Raise e => Raise e
                       end) (cols df) with
  | Ok cs => Ok {| nrows := nrows df; cols := cs |}
  | Raise e => Raise e
  end.

(** [d[k] = v] on an insertion-ordered [dict]: a key already present keeps
    its place and takes the new value. *)
Fixpoint dict_set {V} (k : string) (v : V) (d : list (string * V)) : list (string * V) :=
  match d with
  | [] => [(k, v)]
  | (k', v') :: d' =>
      if String.eqb k' k then (k', v) :: d' else (k', v') :: dict_set k v d'
  end.

(** [dict(pairs)] with its items in order. *)
Definition dict_items {V} (pairs : list (string * V)) : list (string * V) :=
  fold_left (fun d kv => dict_set kv.1 kv.2 d) pairs [].

(** [DataFrame.to_dict(orient="records")]: [dict(zip(columns, row))] for
    every row of [itertuples]; a table without columns has no rows to
    iterate. *)
Definition row_at (df : DataFrame) (i : nat) : record :=
  dict_items (map (fun c => (c.1, nth i (values c.2) NaN)) (cols df)).

Definition to_dict_records (df : DataFrame) : list record :=
  match cols df with
  | [] => []
  | _ => map (row_at df) (seq 0 (nrows df))
  end.

(** [simplejson.dumps(..., ignore_nan=True)] on one scalar: a float that is
    NaN or infinite is written as [null].  Complex numbers and arbitrary
    objects are not JSON serializable. *)
Definition dumps_scalar (v : pyval) : result json :=
  match v with
  | PyNone => Ok JNull
  | PyBool b => Ok (JBool b)
  | PyInt z => Ok (JInt z)
  | PyFloat f => Ok (if float_is_finite f then JFloat f else JNull)
  | PyStr s => Ok (JStr s)
  | PyComplex _ _ => Raise (TypeError "Object of type complex is not JSON serializable")
  | PyObj o => Raise (TypeError ("Object of type " ++ obj_type o ++ " is not JSON serializable"))
  end.

Definition dumps_record (r : record) : result json :=
  match mapM (fun kv => match dumps_scalar kv.2 with
                        | Ok j => Ok (kv.1, j)
                        | Raise e => Raise e
                        end) r with
  | Ok members => Ok (JObj members)
  | Raise e => Raise e
  end.

Definition simplejson_dumps (rows : list record) : result json :=
  match mapM dumps_record rows with
  | Ok items => Ok (JArr items)
  | Raise e => Raise e
  end.

(** ** Decoding helpers (lines 232-277) *)

(** The keys of a list in order of first appearance. *)
Fixpoint unique_first (l : list string) : list string :=
  match l with
  | [] => []
  | x :: l' => x :: filter (fun y => y <> x) (unique_first l')
  end.

(** [pd.DataFrame(list_of_records)]: one column per key observed in the
    rows; a row that lacks a key gets NaN there; every column is then
    unified by [maybe_convert_objects]. *)
Definition DataFrame_of_records (env : Env) (rows : list record) : DataFrame :=
  {| nrows := length rows;
     cols := map (fun c => (c, Series_of env (map (fun r => default NaN (record_get c r)) rows)))
                 (unique_first (concat (map (map fst) rows))) |}.

(** The [errors=] keyword pandas' converters share. *)
Inductive policy : Type := policy_raise | policy_coerce | policy_ignore.

Definition policy_of (errors : string) : option policy :=
  if String.eqb errors "raise" then Some policy_raise
  else if String.eqb errors "coerce" then Some policy_coerce
  else if String.eqb errors "ignore" then Some policy_ignore
  else None.

(** The first cell of a column that [cell] does not read, with its
    position. *)
Fixpoint first_failure (cell : pyval -> option pyval) (i : nat) (col : list pyval)
    : option (nat * pyval) :=
  match col with
  | [] => None
  | v :: col' =>
      match cell v with
      | Some _ => first_failure cell (S i) col'
      | None => Some (i, v)
      end
  end.

(** A converter applied to a whole column under [errors]: when every cell
    converts, the converted column; otherwise ['raise'] raises the error of
    the first cell that fails, ['coerce'] puts [null] where a cell failed,
    ['ignore'] returns the input column.  [bad_policy] is what the
    converter raises for any other [errors]. *)
Definition convert_column (errors : string) (bad_policy : exn) (null : pyval)
    (error : nat -> pyval -> exn) (cell : pyval -> option pyval) (col : list pyval)
    : result (list pyval) :=
  match policy_of errors with
  | None => Raise bad_policy
  | Some p =>
      match first_failure cell 0 col with
      | None => Ok (map (fun v => default null (cell v)) col)
      | Some (i, v) =>
          match p with
          | policy_raise => Raise (error i v)
          | policy_coerce => Ok (map (fun v => default null (cell v)) col)
          | policy_ignore => Ok col
          end
      end
  end.

(** [lib.maybe_convert_numeric]'s choice of the result array for a column
    of converted cells: complex, else float, else integer (booleans
    counting as 0 and 1), else boolean.  A column that still holds text or
    an object is the input that ['ignore'] gave back, and stays. *)
Definition promote (env : Env) (input col : list pyval) : list pyval :=
  if existsb is_text_or_object col then col
  else if existsb is_wide col then
    if forallb is_uint64 col then col
    else match convert_numeric_wide env col with
         | wide_input => input
         | wide_ints => map to_int col
         | wide_floats => to_widest col
         end
  else if existsb is_complex col then map to_complex col
  else if existsb is_float col then map to_float col
  else if existsb is_int col then map to_int col
  else col.

(** [frame.loc[:, labels] = frame.loc[:, labels].apply(func)]: [func] gets
    each selected column as a whole; a label that is no column of the frame
    raises [KeyError].  The cells are replaced; the dtype recorded for the
    column is left as it was built (what [.loc] assignment does to it
    depends on the pandas version).  Which of several failing columns
    reports its error is decided by the order of the labels; here the
    columns are taken in the order of the frame. *)
Definition loc_apply (env : Env) (labels : gmap string string)
    (func : list pyval -> result (list pyval)) (frame : DataFrame) : result DataFrame :=
  if bool_decide (dom labels ⊆ list_to_set (columns frame))
  then
    match mapM (fun c =>
                  if bool_decide (is_Some (labels !! c.1))
                  then match func (values c.2) with
                       | Ok vs => Ok (c.1, {| dtype := dtype c.2; values := vs |})
                       | Raise e => Raise e
                       end
                  else Ok c) (cols frame) with
    | Ok cs => Ok {| nrows := nrows frame; cols := cs |}
    | Raise e => Raise e
    end
  else Raise (KeyError (not_in_index env
                          (filter (fun k => k ∉ columns frame) (elements (dom labels))))).

(** [{k: v for k, v in original_types.items() if v in tags}] *)
Definition select_tags (tags : list string) (original_types : gmap string string)
    : gmap string string :=
  filter (fun kv => kv.2 ∈ tags) original_types.

(** What a Python callable can be handed here: a column or one cell. *)
Inductive pyarg : Type :=
| ASeries (col : list pyval)
| AScalar (v : pyval).

(** The texts of lines 141-143 and 226-228. *)
Definition deprecation : string :=
  "DEPRECATION Warning: width parameter is deprecated and will be removed on next version.".

Definition marshall_hint : string :=
  ". If you're using custom JsCode objects on gridOptions, ensure that allow_unsafe_jscode is True.".

(** ** The render call *)

Section Render.

Context (env : Env).

(** [value.__str__()] *)
Definition py_str (v : pyval) : string :=
  match v with
  | PyNone => "None"
  | PyBool b => if b then "True" else "False"
  | PyInt z => pretty z
  | PyFloat S754_nan => "nan"
  | PyFloat (S754_infinity false) => "inf"
  | PyFloat (S754_infinity true) => "-inf"
  | PyFloat f => float_repr env f
  | PyComplex re im => complex_str env re im
  | PyStr s => s
  | PyObj o => obj_str o
  end.

(** Lines 157-169. *)
Definition cast_to_serializable (value : pyval) : result pyval :=
  let isoformat := getattr_isoformat value in
  if attr_truthy isoformat && callable isoformat then
    match isoformat with
    | Some (Method returns) => Ok (PyStr returns)
    | _ => Ok (PyStr (py_str value))
    end
  else if is_Number value then
    match np_isnan value with
    | Raise e => Raise e
    | Ok true => Ok (PyStr (py_str value))
    | Ok false =>
        match np_isinf value with
        | Raise e => Raise e
        | Ok true => Ok (PyStr (py_str value))
        | Ok false => Ok value
        end
    end
  else Ok (PyStr (py_str value)).

(** Lines 171-173: the encoded rows and their JSON text. *)
Definition encode_rows (df : DataFrame) : result json :=
  match applymap env cast_to_serializable df with
  | Ok json_frame => simplejson_dumps (to_dict_records json_frame)
  | Raise e => Raise e
  end.

(** [str.upper]: the ASCII mapping on an ASCII text, Unicode's upper-casing
    (which can change the length of a text) on any other. *)
Definition upper (s : string) : string :=
  if is_ascii s then ascii_upper s else unicode_upper env s.

(** Lines 186-193. *)
Definition resolve_data_return_mode (arg : mode_arg DataReturnMode) : result DataReturnMode :=
  try_except
    match arg with
    | ModeOther s => Raise (ValueError (s ++ " is not valid."))
    | ModeStr s => enum_getitem DataReturnMode_members (upper s)
    | ModeEnum e => Ok e
    end
    (fun _ =>
       let shown := match arg with
                    | ModeStr s => s
                    | ModeOther s => s
                    | ModeEnum e => format_DataReturnMode env e
                    end in
       Raise (ValueError (shown ++ " is not valid."))).

(** Lines 195-202: the handler formats [data_return_mode], by then the
    member resolved above. *)
Definition resolve_update_mode (data_return_mode : DataReturnMode)
    (arg : mode_arg GridUpdateMode) : result GridUpdateMode :=
  try_except
    match arg with
    | ModeOther s => Raise (ValueError (s ++ " is not valid."))
    | ModeStr s => enum_getitem GridUpdateMode_members (upper s)
    | ModeEnum e => Ok e
    end
    (fun _ => Raise (ValueError (format_DataReturnMode env data_return_mode ++ " is not valid."))).

(** [pd.to_numeric] on one cell: numbers stand, [None] is NaN, text goes
    through pandas' number grammar, which yields an integer or a float;
    what any other object converts to is the environment's. *)
Definition numeric_cell (v : pyval) : option pyval :=
  match v with
  | PyNone => Some NaN
  | PyBool _ | PyInt _ | PyFloat _ | PyComplex _ _ => Some v
  | PyStr s =>
      match parse_numeric env s with
      | Some (PyInt z) => Some (PyInt z)
      | Some (PyFloat f) => Some (PyFloat f)
      | _ => None
      end
  | PyObj o =>
      match numeric_of_object env o with
      | Some (PyInt z) => Some (PyInt z)
      | Some (PyFloat f) => Some (PyFloat f)
      | _ => None
      end
  end.

(** [pd.to_numeric(column, errors=errors)]: the policy check comes first,
    then the cells are converted and the column unified. *)
Definition to_numeric (errors : string) (col : list pyval) : result (list pyval) :=
  match convert_column errors (ValueError "invalid error value specified") NaN
          (to_numeric_error env) numeric_cell col with
  | Ok vs => Ok (promote env col vs)
  | Raise e => Raise e
  end.

(** [pd.to_datetime(column, errors=errors)]; an [errors] it does not know
    fails an assertion. *)
Definition to_datetime (errors : string) (col : list pyval) : result (list pyval) :=
  convert_column errors (AssertionError "") NaT (to_datetime_error env)
    (parse_datetime env) col.

(** [.astype(str)] *)
Definition astype_str (col : list pyval) : result (list pyval) :=
  Ok (map (fun v => PyStr (py_str v)) col).

(** [pd.Timedelta(value)]: a scalar is parsed; any other kind of value,
    a [Series] among them, raises [ValueError]. *)
Definition pd_Timedelta (value : pyarg) : result pyarg :=
  match value with
  | AScalar v =>
      match parse_timedelta env v with
      | Some t => Ok (AScalar t)
      | None => Raise (ValueError "unit abbreviation w/o a number")
      end
  | ASeries _ =>
      Raise (ValueError
        "Value must be Timedelta, string, integer, float, timedelta or convertible, not Series")
  end.

(** Lines 266-270. *)
Definition cast_to_timedelta (s : pyarg) : pyarg :=
  match pd_Timedelta s with
  | Ok t => t
  | Raise _ => s
  end.

(** [DataFrame.apply(cast_to_timedelta)] hands each column over as a
    [Series]; a scalar result would be spread over the column. *)
Definition apply_cast_to_timedelta (col : list pyval) : result (list pyval) :=
  match cast_to_timedelta (ASeries col) with
  | ASeries vs => Ok vs
  | AScalar v => Ok (replicate (length col) v)
  end.

(** One group of lines 241-274: select the labels, and convert the
    selected columns when there are any. *)
Definition retype_group (tags : list string) (func : list pyval -> result (list pyval))
    (original_types : gmap string string) (frame : DataFrame) : result DataFrame :=
  let selected := select_tags tags original_types in
  if bool_decide (selected = ∅) then Ok frame
  else loc_apply env selected func frame.

(** Lines 241-274. *)
Definition retype (errors : string) (original_types : gmap string string)
    (frame : DataFrame) : result DataFrame :=
  frame ← retype_group ["i"; "u"; "f"] (to_numeric errors) original_types frame;
  frame ← retype_group ["O"; "S"; "U"] astype_str original_types frame;
  frame ← retype_group ["M"] (to_datetime errors) original_types frame;
  retype_group ["m"] apply_cast_to_timedelta original_types frame.

(** Lines 235-277, on a response already parsed. *)
Definition decode_response (a : Args) (component_value : Response) : result AgGrid_response :=
  let frame := DataFrame_of_records env (rowData component_value) in
  let original_types := originalDtypes component_value in
  frame ← (if negb (empty frame) then
             if try_to_convert_back_to_original_types a
             then retype (conversion_errors a) original_types frame
             else Ok frame
           else Ok frame);
  Ok {| data := frame; selected_rows := selectedRows component_value |}.

(** Lines 145-147 and 232-279: a falsy component value ([None], the empty
    string) leaves the initial response. *)
Definition decode (a : Args) (component_value : component_value) : result AgGrid_response :=
  let response := {| data := dataframe a; selected_rows := [] |} in
  match component_value with
  | CV_None => Ok response
  | CV_Str "" => Ok response
  | CV_Str text =>
      r ← simplejson_loads env text;
      decode_response a r
  | CV_Dict r => decode_response a r
  end.

Definition width_truthy (w : option Z) : bool :=
  match w with
  | Some z => negb (z =? 0)
  | None => false
  end.

(** Lines 140-202: everything before the boundary call. *)
Definition prepare (a : Args) : Py Payload :=
  (if width_truthy (width a)
   then warnings_warn deprecation
   else mret tt);;
  let frame_dtypes := frame_dtypes (dataframe a) in
  caller ← get_gridOptions;
  let gridOptions :=
    match caller with
    | None => from_dataframe_build env (dataframe a) (default_column_parameters a)
    | Some g => g
    end in
  row_data ← lift (encode_rows (dataframe a));
  gridOptions ←
    (if allow_unsafe_jscode a then
       let walked := walk_gridOptions unwrap_JsCode gridOptions in
       match caller with
       | Some _ => store_gridOptions walked;; mret walked
       | None => mret walked
       end
     else mret gridOptions);
  theme ← lift (check_theme (theme a));
  data_return_mode ← lift (resolve_data_return_mode (data_return_mode a));
  update_mode ← lift (resolve_update_mode data_return_mode (update_mode a));
  mret {| p_gridOptions := gridOptions;
          p_row_data := row_data;
          p_height := height a;
          p_width := width a;
          p_fit_columns_on_grid_load := fit_columns_on_grid_load a;
          p_update_mode := update_mode;
          p_data_return_mode := data_return_mode;
          p_frame_dtypes := frame_dtypes;
          p_allow_unsafe_jscode := allow_unsafe_jscode a;
          p_enable_enterprise_modules := enable_enterprise_modules a;
          p_license_key := license_key a;
          p_reload_data := reload_data a;
          p_theme := theme;
          p_key := key a |}.

(** Lines 204-230: the one boundary call, with the transport's rejection
    re-raised under a longer message. *)
Definition call_component (p : Payload) : Py component_value :=
  log_call p;;
  lift match _component_func env p with
       | Ok v => Ok v
       | Raise (MarshallComponentException msg) =>
           Raise (MarshallComponentException (msg ++ marshall_hint))
       | Raise e => Raise e
       end.

Definition AgGrid (a : Args) : Py AgGrid_response :=
  payload ← prepare a;
  component_value ← call_component payload;
  lift (decode a component_value).

End Render.

(** ** The identity response *)

(** [simplejson.loads] on one scalar token. *)
Definition loads_scalar (j : json) : pyval :=
  match j with
  | JNull => PyNone
  | JBool b => PyBool b
  | JInt z => PyInt z
  | JFloat f => PyFloat f
  | JStr s => PyStr s
  | JArr _ =>
      PyObj {| obj_type := "list"; obj_str := "[...]";
               obj_isoformat := None; obj_is_Number := false |}
  | JObj _ =>
      PyObj {| obj_type := "dict"; obj_str := "{...}";
               obj_isoformat := None; obj_is_Number := false |}
  end.

Definition records_of_json (j : json) : list record :=
  match j with
  | JArr items =>
      map (fun item => match item with
                       | JObj members => map (fun kv => (kv.1, loads_scalar kv.2)) members
                       | _ => []
                       end) items
  | _ => []
  end.

(** A widget that sends back what it was sent: the same rows, the type
    tags echoed, nothing selected. *)
Definition echo_widget (p : Payload) : result component_value :=
  Ok (CV_Dict {| rowData := records_of_json (p_row_data p);
                 originalDtypes := p_frame_dtypes p;
                 selectedRows := [] |}).

(** ** Vocabulary of the specification *)

(** The six tags the specification names: signed-int, unsigned-int, float,
    object/text, datetime, duration. *)
Definition six_tags : list string := ["i"; "u"; "f"; "O"; "M"; "m"].

(** All kind codes numpy has. *)
Definition numpy_kinds : list string :=
  ["b"; "i"; "u"; "f"; "c"; "m"; "M"; "O"; "S"; "U"; "V"].

(** [tagged ot tags name]: the echoed tag of column [name] is one of [tags]. *)
Definition tagged (original_types : gmap string string) (tags : list string)
    (name : string) : bool :=
  match original_types !! name with
  | Some t => bool_decide (t ∈ tags)
  | None => false
  end.

(** What the error policy promises for one column: under ['raise'] a
    returned column is fully parsed; under ['coerce'] each failing cell is
    nulled; under ['ignore'] a column with a failing cell comes back as it
    was. *)
Definition converted (p : policy) (cell : pyval -> option pyval) (null : pyval)
    (col col' : list pyval) : Prop :=
  match p with
  | policy_raise => Forall2 (fun v v' => cell v = Some v') col col'
  | policy_coerce =>
      Forall2 (fun v v' => match cell v with
                           | Some x => v' = x
                           | None => v' = null
                           end) col col'
  | policy_ignore =>
      Forall2 (fun v v' => cell v = Some v') col col' \/
      (Exists (fun v => cell v = None) col /\ col' = col)
  end.

(** Two characters that are equal, or the same ASCII letter in its two
    cases. *)
Definition same_letter (c d : ascii) : bool :=
  let a := nat_of_ascii c in
  let b := nat_of_ascii d in
  ((a =? b) || ((65 <=? a) && (a <=? 90) && (b =? a + 32))
            || ((65 <=? b) && (b <=? 90) && (a =? b + 32)))%nat.

(** Equality of two texts ignoring the case of ASCII letters. *)
Fixpoint eq_nocase (s t : string) : bool :=
  match s, t with
  | EmptyString, EmptyString => true
  | String c s', String d t' => same_letter c d && eq_nocase s' t'
  | _, _ => false
  end.

(** A lower-case ASCII letter. *)
Definition is_lower (c : ascii) : bool :=
  ((97 <=? nat_of_ascii c) && (nat_of_ascii c <=? 122))%nat.

(** A text without lower-case ASCII letters, as the names of the members
    are. *)
Fixpoint capital (s : string) : bool :=
  match s with
  | EmptyString => true
  | String c s' => negb (is_lower c) && capital s'
  end.

(** The 256 characters. *)
Definition all_ascii : list ascii := map ascii_of_nat (seq 0 256).

(** How a mode argument resolves, in the specification's words: a member
    given as such stands; a string names the member whose name it equals
    ignoring case; nothing else resolves. *)
Definition resolves_to {E} (members : list (string * E)) (arg : mode_arg E) (m : E) : Prop :=
  match arg with
  | ModeEnum e => e = m
  | ModeStr s => exists name, (name, m) ∈ members /\ eq_nocase s name = true
  | ModeOther _ => False
  end.

(** How lines 186-202 look a mode argument up: a member stands; a string
    is upper-cased by [str.upper] and must then be the name of a member. *)
Definition names_member {E} (env : Env) (members : list (string * E)) (arg : mode_arg E)
    (m : E) : Prop :=
  match arg with
  | ModeEnum e => e = m
  | ModeStr s =>
      List.find (fun kv => String.eqb kv.1 (upper env s)) members = Some (upper env s, m)
  | ModeOther _ => False
  end.

(** A mode argument that is not a text with a non-ASCII character. *)
Definition ascii_arg {E} (arg : mode_arg E) : bool :=
  match arg with
  | ModeStr s => is_ascii s
  | ModeEnum _ | ModeOther _ => true
  end.

Definition mode_shown {E} (arg : mode_arg E) : string :=
  match arg with
  | ModeStr s => s
  | ModeOther s => s
  | ModeEnum _ => ""
  end.

(** [contains needle hay]: [needle] occurs in [hay]. *)
Fixpoint contains (needle hay : string) : bool :=
  String.prefix needle hay ||
  match hay with
  | EmptyString => false
  | String _ hay' => contains needle hay'
  end.

(** Cell contents of a table without its recorded dtypes. *)
Definition frame_values (df : DataFrame) : nat * list (string * list pyval) :=
  (nrows df, map (fun c => (c.1, values c.2)) (cols df)).

(** A grid-options document without [JsCode] markers. *)
Fixpoint no_JsCode (go : go_value) : bool :=
  match go with
  | GoJsCode _ => false
  | GoAtom _ => true
  | GoList items => forallb no_JsCode items
  | GoDict entries => forallb (fun kv => no_JsCode kv.2) entries
  end.

(** A column whose cells are what its dtype declares, for the kinds the
    round trip is stated about: machine integers, finite floats, booleans,
    text, and date/time objects whose [isoformat()] pandas reads back. *)
Definition cell_typed (env : Env) (k : string) (v : pyval) : Prop :=
  if bool_decide (k = "i") then
    exists z, v = PyInt z /\ int64_range z = true
  else if bool_decide (k = "u") then
    exists z, v = PyInt z /\ uint64_range z = true
  else if bool_decide (k = "f") then
    exists f, v = PyFloat f /\ float_is_finite f = true
  else if bool_decide (k = "b") then
    exists b, v = PyBool b
  else if bool_decide (k ∈ ["O"; "S"; "U"]) then
    exists s, v = PyStr s
  else if bool_decide (k = "M") then
    exists o iso, v = PyObj o /\ obj_isoformat o = Some (Method iso) /\
                  parse_datetime env (PyStr iso) = Some v
  else False.

Definition column_typed (env : Env) (c : string * Series) : Prop :=
  Forall (cell_typed env (kind (dtype c.2))) (values c.2).

Definition is_str (v : pyval) : bool := match v with PyStr _ => true | _ => false end.

Definition is_int64 (v : pyval) : bool :=
  match v with PyInt z => int64_range z | _ => false end.

(** A column of cells of one kind: texts, booleans, 64-bit integers
    (signed or unsigned) or floats. *)
Definition uniform (col : list pyval) : bool :=
  forallb is_str col || forallb is_bool col || forallb is_int64 col
  || forallb is_uint64 col || forallb is_float col.

(** ** The call, phase by phase *)

(** The world after line 143. *)
Definition after_warning (a : Args) (w : World) : World :=
  if width_truthy (width a) then (warnings_warn deprecation w).2 else w.

(** The world after line 178: with the unsafe-code flag set, the caller's
    mapping has been walked. *)
Definition after_walk (a : Args) (w : World) : World :=
  if allow_unsafe_jscode a then
    match caller_gridOptions w with
    | Some g => (store_gridOptions (walk_gridOptions unwrap_JsCode g) w).2
    | None => w
    end
  else w.

(** The grid options that are transmitted. *)
Definition sent_gridOptions (env : Env) (a : Args) (w : World) : go_value :=
  let g := match caller_gridOptions w with
           | None => from_dataframe_build env (dataframe a) (default_column_parameters a)
           | Some g => g
           end in
  if allow_unsafe_jscode a then walk_gridOptions unwrap_JsCode g else g.

Definition payload_of (env : Env) (a : Args) (w : World) (row_data : json)
    (theme : string) (drm : DataReturnMode) (um : GridUpdateMode) : Payload :=
  {| p_gridOptions := sent_gridOptions env a w;
     p_row_data := row_data;
     p_height := height a;
     p_width := width a;
     p_fit_columns_on_grid_load := fit_columns_on_grid_load a;
     p_update_mode := um;
     p_data_return_mode := drm;
     p_frame_dtypes := frame_dtypes (dataframe a);
     p_allow_unsafe_jscode := allow_unsafe_jscode a;
     p_enable_enterprise_modules := enable_enterprise_modules a;
     p_license_key := license_key a;
     p_reload_data := reload_data a;
     p_theme := theme;
     p_key := key a |}.

(** The boundary answers payload [p] with response [r], as a mapping or as
    JSON text that parses to it. *)
Definition answers (env : Env) (p : Payload) (r : Response) : Prop :=
  _component_func env p = Ok (CV_Dict r) \/
  exists text, text <> "" /\ _component_func env p = Ok (CV_Str text) /\
               simplejson_loads env text = Ok r.

Definition theme_valid (t : theme_arg) : bool :=
  match t with
  | ThemeStr s => bool_decide (s ∈ _available_themes)
  | ThemeOther _ => false
  end.

(** ** Retyping, column by column *)

(** What one group of lines 241-274 does to one column: a column whose
    echoed tag is in [tags] gets [func] applied as a whole, any other column
    stays. *)
Definition group_step (tags : list string) (func : list pyval -> result (list pyval))
    (ot : gmap string string) (c c' : string * Series) : Prop :=
  if tagged ot tags c.1
  then exists vs, func (values c.2) = Ok vs /\ c' = (c.1, {| dtype := dtype c.2; values := vs |})
  else c' = c.

(** What the decoder promises for a column [c] of the rebuilt table and
    the column [c'] it returns under policy [p]: numeric-tagged and
    datetime-tagged columns are converted under the policy, the numeric
    ones then unified by pandas (integers beside a NaN become floats);
    text-tagged columns are forced to their string form, and a column with
    none of these tags is returned as it is. *)
Definition retyped (env : Env) (p : policy) (ot : gmap string string)
    (c c' : string * Series) : Prop :=
  c'.1 = c.1 /\
  (tagged ot ["i"; "u"; "f"] c.1 = true ->
     exists cells, converted p (numeric_cell env) NaN (values c.2) cells /\
                   values c'.2 = promote env (values c.2) cells) /\
  (tagged ot ["O"; "S"; "U"] c.1 = true ->
     values c'.2 = map (fun v => PyStr (py_str env v)) (values c.2)) /\
  (tagged ot ["M"] c.1 = true ->
     converted p (parse_datetime env) NaT (values c.2) (values c'.2)) /\
  (tagged ot ["i"; "u"; "f"; "O"; "S"; "U"; "M"] c.1 = false -> c' = c).

(** A numeric-tagged or datetime-tagged column with a cell that does not
    parse. *)
Definition fails_to_parse (env : Env) (ot : gmap string string) (c : string * Series) : Prop :=
  (tagged ot ["i"; "u"; "f"] c.1 = true /\
   Exists (fun v => numeric_cell env v = None) (values c.2)) \/
  (tagged ot ["M"] c.1 = true /\
   Exists (fun v => parse_datetime env v = None) (values c.2)).

(** [e] is the error pandas reports for the first cell of the
    numeric-tagged or datetime-tagged column [c] that does not parse. *)
Definition parse_error_of (env : Env) (ot : gmap string string) (c : string * Series)
    (e : exn) : Prop :=
  (tagged ot ["i"; "u"; "f"] c.1 = true /\
   exists i v, first_failure (numeric_cell env) 0 (values c.2) = Some (i, v) /\
               e = to_numeric_error env i v) \/
  (tagged ot ["M"] c.1 = true /\
   exists i v, first_failure (parse_datetime env) 0 (values c.2) = Some (i, v) /\
               e = to_datetime_error env i v).

(** ** The round trip, cell by cell *)

(** The conversion the decoder applies to a column of kind [k] takes the
    wire value [r] back to the cell [v]. *)
Definition taken_back (env : Env) (k : string) (r v : pyval) : Prop :=
  (k ∈ ["i"; "u"; "f"] -> numeric_cell env r = Some v) /\
  (k ∈ ["O"; "S"; "U"] -> PyStr (py_str env r) = v) /\
  (k = "M" -> parse_datetime env r = Some v) /\
  (k ∉ ["i"; "u"; "f"; "O"; "S"; "U"; "M"] -> r = v).

(** A value that survives [simplejson.dumps] followed by [simplejson.loads]. *)
Definition json_safe (r : pyval) : Prop :=
  exists j, dumps_scalar r = Ok j /\ loads_scalar j = r.

(** How a column of the encoded table relates to the original column. *)
Definition encoded_column (env : Env) (c cj : string * Series) : Prop :=
  cj.1 = c.1 /\
  Forall2 (fun v r => json_safe r /\ taken_back env (kind (dtype c.2)) r v)
          (values c.2) (values cj.2).

(** ** Shapes of the payload and of the decoded table *)

(** A JSON document that holds no [null] token. *)
Fixpoint no_null (j : json) : bool :=
  match j with
  | JNull => false
  | JArr items => forallb no_null items
  | JObj members => forallb (fun kv => no_null kv.2) members
  | JBool _ | JInt _ | JFloat _ | JStr _ => true
  end.

(** The cells lines 157-173 can put on the wire: anything with an
    [isoformat] method; otherwise every value that is no [Number]; of the
    numbers, booleans, floats, integers numpy holds in 64 bits, and complex
    numbers with a NaN or infinite part (sent as text).  Left out are the
    numbers numpy has no test for and the complex numbers with finite
    parts. *)
Definition sendable (v : pyval) : bool :=
  callable (getattr_isoformat v) ||
  match v with
  | PyInt z => fits_int64_or_uint64 z
  | PyComplex re im => negb (float_is_finite re && float_is_finite im)
  | PyObj o => negb (obj_is_Number o)
  | PyNone | PyBool _ | PyFloat _ | PyStr _ => true
  end.

(** Every column is as long as the index. *)
Definition full_columns (df : DataFrame) : Prop :=
  Forall (fun c => length (values c.2) = nrows df) (cols df).

(** A column with its name and its number of cells kept. *)
Definition same_shape (c c' : string * Series) : Prop :=
  c'.1 = c.1 /\ length (values c'.2) = length (values c.2).

(** ** Sample values, tables and environments for the examples *)

Module Samples.

Definition Timestamp (iso : string) : pyval :=
  PyObj {| obj_type := "Timestamp"; obj_str := iso;
           obj_isoformat := Some (Method iso); obj_is_Number := false |}.

Definition Timedelta (iso shown : string) : pyval :=
  PyObj {| obj_type := "Timedelta"; obj_str := shown;
           obj_isoformat := Some (Method iso); obj_is_Number := false |}.

(** [decimal.Decimal(text)]: registered as a [Number], no [isoformat]. *)
Definition Decimal (text : string) : pyval :=
  PyObj {| obj_type := "Decimal"; obj_str := text;
           obj_isoformat := None; obj_is_Number := true |}.

Definition digit (c : ascii) : option Z :=
  let n := nat_of_ascii c in
  if ((48 <=? n) && (n <=? 57))%nat then Some (Z.of_nat (n - 48)) else None.

Fixpoint digits (acc : Z) (s : string) : option Z :=
  match s with
  | EmptyString => Some acc
  | String c s' =>
      match digit c with
      | Some d => digits (10 * acc + d) s'
      | None => None
      end
  end.

Definition dquote : string := String (ascii_of_nat 34) EmptyString.

(** A fragment of Unicode's upper-casing: the ligature U+FB01 (UTF-8 bytes
    239, 172, 129) becomes [FI], ASCII letters their capitals, anything
    else stays. *)
Fixpoint upper_fragment (s : string) : string :=
  match s with
  | EmptyString => EmptyString
  | String a t =>
      match t with
      | String b (String c r) =>
          if ((nat_of_ascii a =? 239) && (nat_of_ascii b =? 172)
              && (nat_of_ascii c =? 129))%nat
          then String "F" (String "I" (upper_fragment r))
          else String (upper_ascii a) (upper_fragment t)
      | _ => String (upper_ascii a) (upper_fragment t)
      end
  end.

(** An environment that reads unsigned decimal integers, ["nan"] and the
    empty text as numbers, 19-character texts as timestamps, and ["1 days"]
    as a duration; an enumeration member is shown as its value; the widget
    is a parameter. *)
Definition env (widget : Payload -> result component_value) : Env :=
  {| float_repr := fun _ => "<float>";
     complex_str := fun _ _ => "<complex>";
     format_DataReturnMode := fun m =>
       match m with
       | AS_INPUT => "0"
       | FILTERED => "1"
       | FILTERED_AND_SORTED => "2"
       end;
     unicode_upper := upper_fragment;
     parse_numeric := fun s =>
       match s with
       | EmptyString => Some NaN
       | _ => if String.eqb s "nan" then Some NaN else PyInt <$> digits 0 s
       end;
     numeric_of_object := fun _ => None;
     to_numeric_error := fun i v =>
       match v with
       | PyStr s => ValueError ("Unable to parse string " ++ dquote ++ s ++ dquote
                                ++ " at position " ++ pretty i)
       | _ => TypeError ("Invalid object type at position " ++ pretty i)
       end;
     parse_datetime := fun v =>
       match v with
       | PyStr s => if (String.length s =? 19)%nat then Some (Timestamp s) else None
       | _ => None
       end;
     to_datetime_error := fun i v =>
       match v with
       | PyStr s => ValueError ("Unknown string format: " ++ s)
       | _ => TypeError "not convertible to datetime"
       end;
     convert_objects_wide := fun _ => false;
     convert_numeric_wide := fun _ => wide_floats;
     not_in_index := fun labels => "not in index";
     parse_timedelta := fun v =>
       match v with
       | PyStr s => if String.eqb s "1 days"
                    then Some (Timedelta "P1DT0H0M0S" "1 days 00:00:00") else None
       | _ => None
       end;
     from_dataframe_build := fun df _ =>
       GoDict [("columnDefs",
                GoList (map (fun c => GoDict [("field", GoAtom (PyStr c))]) (columns df)))];
     _component_func := widget;
     simplejson_loads := fun _ => Raise (JSONDecodeError "Expecting value") |}.

Definition silent_widget (p : Payload) : result component_value := Ok CV_None.

(** A transport that rejects every payload. *)
Definition rejecting_widget (p : Payload) : result component_value :=
  Raise (MarshallComponentException "Could not convert component args to JSON").

(** The defaults of the signature (lines 29-46). *)
Definition args (df : DataFrame) : Args :=
  {| dataframe := df;
     height := 400;
     width := None;
     fit_columns_on_grid_load := false;
     update_mode := ModeStr "value_changed";
     data_return_mode := ModeStr "as_input";
     allow_unsafe_jscode := false;
     enable_enterprise_modules := false;
     license_key := None;
     try_to_convert_back_to_original_types := true;
     conversion_errors := "coerce";
     reload_data := false;
     theme := ThemeStr "light";
     key := None;
     default_column_parameters := [] |}.

Definition with_theme (t : theme_arg) (a : Args) : Args :=
  {| dataframe := dataframe a; height := height a; width := width a;
     fit_columns_on_grid_load := fit_columns_on_grid_load a;
     update_mode := update_mode a; data_return_mode := data_return_mode a;
     allow_unsafe_jscode := allow_unsafe_jscode a;
     enable_enterprise_modules := enable_enterprise_modules a;
     license_key := license_key a;
     try_to_convert_back_to_original_types := try_to_convert_back_to_original_types a;
     conversion_errors := conversion_errors a; reload_data := reload_data a;
     theme := t; key := key a;
     default_column_parameters := default_column_parameters a |}.

Definition with_modes (um : mode_arg GridUpdateMode) (drm : mode_arg DataReturnMode)
    (a : Args) : Args :=
  {| dataframe := dataframe a; height := height a; width := width a;
     fit_columns_on_grid_load := fit_columns_on_grid_load a;
     update_mode := um; data_return_mode := drm;
     allow_unsafe_jscode := allow_unsafe_jscode a;
     enable_enterprise_modules := enable_enterprise_modules a;
     license_key := license_key a;
     try_to_convert_back_to_original_types := try_to_convert_back_to_original_types a;
     conversion_errors := conversion_errors a; reload_data := reload_data a;
     theme := theme a; key := key a;
     default_column_parameters := default_column_parameters a |}.

Definition with_unsafe_jscode (a : Args) : Args :=
  {| dataframe := dataframe a; height := height a; width := width a;
     fit_columns_on_grid_load := fit_columns_on_grid_load a;
     update_mode := update_mode a; data_return_mode := data_return_mode a;
     allow_unsafe_jscode := true;
     enable_enterprise_modules := enable_enterprise_modules a;
     license_key := license_key a;
     try_to_convert_back_to_original_types := try_to_convert_back_to_original_types a;
     conversion_errors := conversion_errors a; reload_data := reload_data a;
     theme := theme a; key := key a;
     default_column_parameters := default_column_parameters a |}.

Definition with_errors (errors : string) (a : Args) : Args :=
  {| dataframe := dataframe a; height := height a; width := width a;
     fit_columns_on_grid_load := fit_columns_on_grid_load a;
     update_mode := update_mode a; data_return_mode := data_return_mode a;
     allow_unsafe_jscode := allow_unsafe_jscode a;
     enable_enterprise_modules := enable_enterprise_modules a;
     license_key := license_key a;
     try_to_convert_back_to_original_types := try_to_convert_back_to_original_types a;
     conversion_errors := errors; reload_data := reload_data a;
     theme := theme a; key := key a;
     default_column_parameters := default_column_parameters a |}.

(** No [gridOptions] passed, nothing called or warned yet. *)
Definition fresh : World :=
  {| caller_gridOptions := None; boundary_calls := []; warnings := [] |}.

Definition holding (g : go_value) : World :=
  {| caller_gridOptions := Some g; boundary_calls := []; warnings := [] |}.

(** The table of the specification's scenario. *)
Definition scenario : DataFrame :=
  {| nrows := 2;
     cols := [("id", {| dtype := dt_int 64; values := [PyInt 1; PyInt 2] |});
              ("name", {| dtype := dt_object; values := [PyStr "a"; PyStr "b"] |});
              ("t", {| dtype := dt_datetime64;
                       values := [Timestamp "2020-01-01T00:00:00";
                                  Timestamp "2021-01-01T00:00:00"] |})] |}.

(** A signed-int column and no rows. *)
Definition no_rows : DataFrame :=
  {| nrows := 0; cols := [("id", {| dtype := dt_int 64; values := [] |})] |}.

(** An object column holding a [Decimal]. *)
Definition prices : DataFrame :=
  {| nrows := 1;
     cols := [("price", {| dtype := dt_object; values := [Decimal "1.5"] |})] |}.

(** A boolean column. *)
Definition flags : DataFrame :=
  {| nrows := 2;
     cols := [("flag", {| dtype := dt_bool; values := [PyBool true; PyBool false] |})] |}.

(** A duration column. *)
Definition spans : DataFrame :=
  {| nrows := 1;
     cols := [("d", {| dtype := dt_timedelta64;
                       values := [Timedelta "P1DT0H0M0S" "1 days 00:00:00"] |})] |}.

(** Grid options holding one executable-code marker. *)
Definition options_with_code : go_value :=
  GoDict [("rowSelection", GoAtom (PyStr "single"));
          ("onCellClicked", GoJsCode "function(e) { console.log(e); }")].

(** An index of two and no columns. *)
Definition no_columns : DataFrame := {| nrows := 2; cols := [] |}.

(** An object column that holds an integer beside a text. *)
Definition mixed_text : DataFrame :=
  {| nrows := 2;
     cols := [("v", {| dtype := dt_object; values := [PyInt 5; PyStr "b"] |})] |}.

(** A 32-bit integer column. *)
Definition narrow : DataFrame :=
  {| nrows := 1; cols := [("n", {| dtype := dt_int 32; values := [PyInt 7] |})] |}.

(** A complex column holding [1j]. *)
Definition phases : DataFrame :=
  {| nrows := 1;
     cols := [("z", {| dtype := dt_complex 128;
                       values := [PyComplex (S754_zero false) (float_of_Z 1)] |})] |}.

(** The ligature U+FB01 followed by [ltered], in UTF-8. *)
Definition ligature_filtered : string :=
  String (ascii_of_nat 239) (String (ascii_of_nat 172) (String (ascii_of_nat 129) "ltered")).

(** A response whose tags name a column that its rows do not have. *)
Definition stray_tag_response : Response :=
  {| rowData := [[("n", PyStr "12")]];
     originalDtypes := {[ "n" := "i"; "gone" := "i" ]};
     selectedRows := [] |}.

(** A response whose duration column has one malformed cell. *)
Definition durations_response : Response :=
  {| rowData := [[("d", PyStr "1 days")]; [("d", PyStr "bogus")]];
     originalDtypes := {[ "d" := "m" ]};
     selectedRows := [] |}.

(** A response without rows, its tags naming a numeric column. *)
Definition empty_response : Response :=
  {| rowData := []; originalDtypes := {[ "id" := "i" ]}; selectedRows := [] |}.

(** A response with a numeric-tagged column that holds a cell that is no
    number, and a text-tagged column that holds a number. *)
Definition mixed_response : Response :=
  {| rowData := [[("n", PyStr "12"); ("s", PyInt 5)]; [("n", PyStr "x"); ("s", PyStr "b")]];
     originalDtypes := {[ "n" := "i"; "s" := "O" ]};
     selectedRows := [] |}.

(** The call with other [**default_column_parameters]. *)
Definition with_kwargs (kwargs : list (string * pyval)) (a : Args) : Args :=
  {| dataframe := dataframe a; height := height a; width := width a;
     fit_columns_on_grid_load := fit_columns_on_grid_load a;
     update_mode := update_mode a; data_return_mode := data_return_mode a;
     allow_unsafe_jscode := allow_unsafe_jscode a;
     enable_enterprise_modules := enable_enterprise_modules a;
     license_key := license_key a;
     try_to_convert_back_to_original_types := try_to_convert_back_to_original_types a;
     conversion_errors := conversion_errors a; reload_data := reload_data a;
     theme := theme a; key := key a;
     default_column_parameters := kwargs |}.

(** [try_to_convert_back_to_original_types=False]. *)
Definition without_conversion (a : Args) : Args :=
  {| dataframe := dataframe a; height := height a; width := width a;
     fit_columns_on_grid_load := fit_columns_on_grid_load a;
     update_mode := update_mode a; data_return_mode := data_return_mode a;
     allow_unsafe_jscode := allow_unsafe_jscode a;
     enable_enterprise_modules := enable_enterprise_modules a;
     license_key := license_key a;
     try_to_convert_back_to_original_types := false;
     conversion_errors := conversion_errors a; reload_data := reload_data a;
     theme := theme a; key := key a;
     default_column_parameters := default_column_parameters a |}.

(** A widget that answers every payload with the response [r]. *)
Definition answering (r : Response) (p : Payload) : result component_value :=
  Ok (CV_Dict r).

(** Two columns under one name. *)
Definition twice_named : DataFrame :=
  {| nrows := 1;
     cols := [("x", {| dtype := dt_int 64; values := [PyInt 1] |});
              ("x", {| dtype := dt_object; values := [PyStr "a"] |})] |}.

End Samples.

(** ** Proof automation *)

(** Case analysis on the three validations of lines 180-202, first failure
    first. *)
Ltac validation_cases env a :=
  destruct (check_theme (theme a)); cbn [snd];
  [ destruct (resolve_data_return_mode env (data_return_mode a)) as [?drm|]; cbn [snd];
    [ destruct (resolve_update_mode env _ (update_mode a)); cbn [snd] | ] | ].

(** * Properties *)

(** ** The call, flattened *)

(** [prepare] as one case analysis: the encoding of the table comes first,
    then the walk over the grid options, the theme, and the two modes. *)
Lemma prepare_eq env a w :
  prepare env a w =
  match encode_rows env (dataframe a) with
  | Raise e => (Raise e, after_warning a w)
  | Ok row_data =>
      let w2 := after_walk a (after_warning a w) in
      match check_theme (theme a) with
      | Raise e => (Raise e, w2)
      | Ok th =>
          match resolve_data_return_mode env (data_return_mode a) with
          | Raise e => (Raise e, w2)
          | Ok drm =>
              match resolve_update_mode env drm (update_mode a) with
              | Raise e => (Raise e, w2)
              | Ok um => (Ok (payload_of env a w row_data th drm um), w2)
              end
          end
      end
  end.
Proof.
  unfold prepare, after_warning, after_walk, payload_of, sent_gridOptions.
  unfold mbind, mret, Py_mbind, Py_mret, Py_bind, Py_ret, lift, get_gridOptions.
  destruct (width_truthy (width a)); cbn [warnings_warn snd fst caller_gridOptions];
    destruct (encode_rows env (dataframe a)) as [row_data|e]; try reflexivity;
    destruct (allow_unsafe_jscode a); destruct (caller_gridOptions w) as [g|];
    cbn [store_gridOptions warnings_warn snd fst caller_gridOptions boundary_calls warnings];
    destruct (check_theme (theme a)); try reflexivity;
    destruct (resolve_data_return_mode env (data_return_mode a)) as [drm|]; try reflexivity;
    destruct (resolve_update_mode env drm (update_mode a)); reflexivity.
Qed.

Lemma AgGrid_eq env a w :
  AgGrid env a w =
  match prepare env a w with
  | (Raise e, w1) => (Raise e, w1)
  | (Ok p, w1) =>
      let w2 := (log_call p w1).2 in
      match _component_func env p with
      | Ok v => (decode env a v, w2)
      | Raise (MarshallComponentException msg) =>
          (Raise (MarshallComponentException (msg ++ marshall_hint)), w2)
      | Raise e => (Raise e, w2)
      end
  end.
Proof.
  unfold AgGrid, call_component, mbind, Py_mbind, Py_bind, lift.
  destruct (prepare env a w) as [[p|e] w1]; [|reflexivity].
  cbn [log_call snd].
  destruct (_component_func env p) as [v|[]]; reflexivity.
Qed.

(** Nothing before line 205 calls the boundary. *)
Lemma after_warning_calls a w : boundary_calls (after_warning a w) = boundary_calls w.
Proof. unfold after_warning. destruct (width_truthy _); reflexivity. Qed.

Lemma after_walk_calls a w : boundary_calls (after_walk a w) = boundary_calls w.
Proof.
  unfold after_walk. destruct (allow_unsafe_jscode a); [|reflexivity].
  destruct (caller_gridOptions w); reflexivity.
Qed.

Lemma prepare_calls env a w : boundary_calls (prepare env a w).2 = boundary_calls w.
Proof.
  rewrite prepare_eq.
  destruct (encode_rows env (dataframe a)); cbn [snd]; [validation_cases env a|];
    rewrite ?after_walk_calls; apply after_warning_calls.
Qed.

Lemma AgGrid_raise_in_prepare env a w e :
  (prepare env a w).1 = Raise e ->
  (AgGrid env a w).1 = Raise e /\ boundary_calls (AgGrid env a w).2 = boundary_calls w.
Proof.
  intros H. rewrite AgGrid_eq. pose proof (prepare_calls env a w) as Hc.
  destruct (prepare env a w) as [[p|e'] w1]; cbn in *; [discriminate|].
  split; congruence.
Qed.

(** ** The boundary call *)

(** X1.  A call makes at most one boundary call: exactly one, with the
    prepared payload, when everything before line 205 succeeds, and none
    otherwise. *)
Theorem boundary_called_at_most_once env a w :
  boundary_calls (AgGrid env a w).2 =
  match (prepare env a w).1 with
  | Ok p => p :: boundary_calls w
  | Raise _ => boundary_calls w
  end.
Proof.
  rewrite AgGrid_eq. pose proof (prepare_calls env a w) as Hc.
  destruct (prepare env a w) as [[p|e] w1]; cbn in *; [|exact Hc].
  rewrite <- Hc. destruct (_component_func env p) as [v|[]]; reflexivity.
Qed.

(** X2.  When the transport rejects the payload with a
    [MarshallComponentException], the call re-raises it with the hint about
    [allow_unsafe_jscode] appended to its message. *)
Theorem marshall_rejection_gets_hint env a w p w1 msg :
  prepare env a w = (Ok p, w1) ->
  _component_func env p = Raise (MarshallComponentException msg) ->
  (AgGrid env a w).1 =
    Raise (MarshallComponentException
      (msg ++ ". If you're using custom JsCode objects on gridOptions, ensure that allow_unsafe_jscode is True.")).
Proof.
  intros Hp Hc. rewrite AgGrid_eq, Hp. cbn zeta. rewrite Hc. reflexivity.
Qed.

(** The scenario table against a transport that rejects it. *)
Lemma marshall_rejection_gets_hint_witness :
  (AgGrid (Samples.env Samples.rejecting_widget) (Samples.args Samples.scenario)
     (Samples.holding Samples.options_with_code)).1 =
    Raise (MarshallComponentException
      "Could not convert component args to JSON. If you're using custom JsCode objects on gridOptions, ensure that allow_unsafe_jscode is True.").
Proof.
  refine (marshall_rejection_gets_hint (Samples.env Samples.rejecting_widget)
            (Samples.args Samples.scenario) (Samples.holding Samples.options_with_code)
            _ (Samples.holding Samples.options_with_code)
            "Could not convert component args to JSON" _ _).
  - vm_compute. reflexivity.
  - reflexivity.
Defined.

(** ** No response yet *)

(** C3.  In every call that reaches the boundary (with payload [p]) and in
    which the boundary returns [None], the "no value yet" signal, the call
    returns the input table itself as [data] and an empty list of selected
    rows; the world is the one the boundary call left. *)
Theorem no_response_returns_input env a w p w1 :
  prepare env a w = (Ok p, w1) ->
  _component_func env p = Ok CV_None ->
  AgGrid env a w =
    (Ok {| data := dataframe a; selected_rows := [] |}, (log_call p w1).2).
Proof.
  intros Hp Hc. rewrite AgGrid_eq, Hp. cbn zeta. rewrite Hc. reflexivity.
Qed.

(** The scenario table rendered against a widget that has nothing to say. *)
Lemma no_response_returns_input_witness :
  AgGrid (Samples.env Samples.silent_widget) (Samples.args Samples.scenario) Samples.fresh =
    (Ok {| data := Samples.scenario; selected_rows := [] |},
     {| caller_gridOptions := None;
        boundary_calls := [payload_of (Samples.env Samples.silent_widget) (Samples.args Samples.scenario) Samples.fresh
            (JArr [JObj [("id", JInt 1); ("name", JStr "a"); ("t", JStr "2020-01-01T00:00:00")];
                   JObj [("id", JInt 2); ("name", JStr "b"); ("t", JStr "2021-01-01T00:00:00")]])
            "light" AS_INPUT VALUE_CHANGED];
        warnings := [] |}).
Proof.
  apply (no_response_returns_input (Samples.env Samples.silent_widget)
           (Samples.args Samples.scenario) Samples.fresh _ Samples.fresh).
  - vm_compute. reflexivity.
  - reflexivity.
Defined.

(** ** An empty result table *)

Lemma AgGrid_answered env a w p w1 r :
  prepare env a w = (Ok p, w1) ->
  answers env p r ->
  AgGrid env a w = (decode_response env a r, (log_call p w1).2).
Proof.
  intros Hp Ha. rewrite AgGrid_eq, Hp. cbn zeta.
  destruct Ha as [Hc|(text & Hne & Hc & Hl)]; rewrite Hc; [reflexivity|].
  unfold decode. destruct text as [|c text]; [congruence|].
  unfold mbind, result_mbind, result_bind. rewrite Hl. reflexivity.
Qed.

Lemma decode_response_empty env a r :
  empty (DataFrame_of_records env (rowData r)) = true ->
  decode_response env a r =
    Ok {| data := DataFrame_of_records env (rowData r); selected_rows := selectedRows r |}.
Proof. intros He. unfold decode_response. rewrite He. reflexivity. Qed.

(** C10.  When the table rebuilt from the response's rows is empty, the
    call returns that table as [data] and the response's selection, for
    every setting of the convert-types flag and every error-policy string
    (valid or not) and whatever the echoed tags are: no conversion runs. *)
Theorem empty_result_skips_retyping env a w p w1 r :
  prepare env a w = (Ok p, w1) ->
  answers env p r ->
  empty (DataFrame_of_records env (rowData r)) = true ->
  AgGrid env a w =
    (Ok {| data := DataFrame_of_records env (rowData r); selected_rows := selectedRows r |},
     (log_call p w1).2).
Proof.
  intros Hp Ha He. rewrite (AgGrid_answered env a w p w1 r Hp Ha).
  now rewrite decode_response_empty.
Qed.

(** An empty row list under policy ['raise'] and tags naming a numeric column. *)
Lemma empty_result_skips_retyping_witness :
  AgGrid (Samples.env (fun _ => Ok (CV_Dict Samples.empty_response)))
         (Samples.with_errors "raise" (Samples.args Samples.scenario)) Samples.fresh
  = (Ok {| data := {| nrows := 0; cols := [] |}; selected_rows := [] |},
     (log_call (payload_of (Samples.env (fun _ => Ok (CV_Dict Samples.empty_response)))
                  (Samples.with_errors "raise" (Samples.args Samples.scenario)) Samples.fresh
                  (JArr [JObj [("id", JInt 1); ("name", JStr "a");
                               ("t", JStr "2020-01-01T00:00:00")];
                         JObj [("id", JInt 2); ("name", JStr "b");
                               ("t", JStr "2021-01-01T00:00:00")]])
                  "light" AS_INPUT VALUE_CHANGED)
                Samples.fresh).2).
Proof.
  apply (empty_result_skips_retyping
           (Samples.env (fun _ => Ok (CV_Dict Samples.empty_response)))
           (Samples.with_errors "raise" (Samples.args Samples.scenario))
           Samples.fresh _ Samples.fresh Samples.empty_response).
  - vm_compute. reflexivity.
  - left. reflexivity.
  - reflexivity.
Defined.

(** ** Theme validation *)

Lemma check_theme_valid t :
  theme_valid t = true -> check_theme t = Ok (theme_str t).
Proof.
  destruct t as [s|s]; cbn; [|discriminate].
  intros ->. reflexivity.
Qed.

Lemma check_theme_invalid t :
  theme_valid t = false ->
  check_theme t =
    Raise (ValueError (theme_str t ++ " is not valid. Available options: " ++ _available_themes_str)).
Proof.
  destruct t as [s|s]; cbn; [|reflexivity].
  intros ->. reflexivity.
Qed.

(** C7 (amended).  A theme that is not a string, or a string outside
    [streamlit, light, dark, blue, fresh, material], makes every call raise
    without any boundary call; whenever the encoding of the table (lines
    171-173) completes, what is raised is the [ValueError] that names the
    invalid value and lists the available themes.  Each of the six listed
    themes passes the check. *)
Theorem theme_validation env a w :
  (theme_valid (theme a) = false ->
   exists e, (AgGrid env a w).1 = Raise e /\
             boundary_calls (AgGrid env a w).2 = boundary_calls w /\
             (is_ok (encode_rows env (dataframe a)) = true ->
              e = ValueError (theme_str (theme a) ++ " is not valid. Available options: "
                                ++ "['streamlit', 'light', 'dark', 'blue', 'fresh', 'material']"))) /\
  Forall (fun s => check_theme (ThemeStr s) = Ok s)
         ["streamlit"; "light"; "dark"; "blue"; "fresh"; "material"].
Proof.
  split.
  - intros Hbad.
    assert (exists e, (prepare env a w).1 = Raise e /\
              (is_ok (encode_rows env (dataframe a)) = true ->
               e = ValueError (theme_str (theme a) ++ " is not valid. Available options: "
                                 ++ _available_themes_str))) as (e & He & Hmsg).
    { rewrite prepare_eq, (check_theme_invalid _ Hbad).
      destruct (encode_rows env (dataframe a)) as [rows|e]; cbn.
      - eexists; split; [reflexivity|]. reflexivity.
      - exists e; split; [reflexivity|]. discriminate. }
    exists e. destruct (AgGrid_raise_in_prepare env a w e He) as [H1 H2].
    repeat split; assumption.
  - repeat constructor.
Qed.

(** The scenario table with [theme="neon"]. *)
Lemma theme_validation_witness :
  exists e,
    (AgGrid (Samples.env Samples.silent_widget)
       (Samples.with_theme (ThemeStr "neon") (Samples.args Samples.scenario)) Samples.fresh).1
      = Raise e /\
    boundary_calls
      (AgGrid (Samples.env Samples.silent_widget)
         (Samples.with_theme (ThemeStr "neon") (Samples.args Samples.scenario)) Samples.fresh).2
      = [] /\
    (is_ok (encode_rows (Samples.env Samples.silent_widget) Samples.scenario) = true ->
     e = ValueError
           "neon is not valid. Available options: ['streamlit', 'light', 'dark', 'blue', 'fresh', 'material']").
Proof.
  apply (proj1 (theme_validation (Samples.env Samples.silent_widget)
                  (Samples.with_theme (ThemeStr "neon") (Samples.args Samples.scenario))
                  Samples.fresh)).
  reflexivity.
Defined.

(** C7 fails as stated where the table does not encode: with a [Decimal]
    cell and [theme="neon"] the call raises the encoder's [TypeError], not
    a [ValueError] naming the theme. *)
Lemma theme_error_preempted_by_encoding :
  theme_valid (ThemeStr "neon") = false /\
  (AgGrid (Samples.env Samples.silent_widget)
     (Samples.with_theme (ThemeStr "neon") (Samples.args Samples.prices)) Samples.fresh).1
  = Raise (TypeError "ufunc 'isnan' not supported for the input types, and the inputs could not be safely coerced to any supported types according to the casting rule ''safe''").
Proof. split; reflexivity. Qed.

(** ** Mode validation *)

Lemma find_by_name {E} (members : list (string * E)) name kv :
  List.find (fun kv => String.eqb kv.1 name) members = Some kv -> kv.1 = name.
Proof.
  intros H. apply List.find_some in H as [_ H]. now apply String.eqb_eq in H.
Qed.

Lemma enum_getitem_Ok {E} (members : list (string * E)) name m :
  enum_getitem members name = Ok m <->
  List.find (fun kv => String.eqb kv.1 name) members = Some (name, m).
Proof.
  unfold enum_getitem.
  destruct (List.find _ members) as [[n e]|] eqn:Hf.
  - apply find_by_name in Hf as Hn. cbn in Hn. subst n. cbn.
    split; intros H; congruence.
  - split; discriminate.
Qed.

Lemma resolve_data_return_mode_Ok env arg m :
  resolve_data_return_mode env arg = Ok m <-> names_member env DataReturnMode_members arg m.
Proof.
  unfold resolve_data_return_mode, try_except, names_member.
  destruct arg as [s|e|s].
  - destruct (enum_getitem DataReturnMode_members (upper env s)) as [m'|err] eqn:Hg.
    + apply enum_getitem_Ok in Hg. split; [intros [= <-]; exact Hg|congruence].
    + split; [discriminate|]. intros Hf. apply enum_getitem_Ok in Hf. congruence.
  - split; congruence.
  - split; [discriminate|tauto].
Qed.

Lemma resolve_update_mode_Ok env drm arg m :
  resolve_update_mode env drm arg = Ok m <-> names_member env GridUpdateMode_members arg m.
Proof.
  unfold resolve_update_mode, try_except, names_member.
  destruct arg as [s|e|s].
  - destruct (enum_getitem GridUpdateMode_members (upper env s)) as [m'|err] eqn:Hg.
    + apply enum_getitem_Ok in Hg. split; [intros [= <-]; exact Hg|congruence].
    + split; [discriminate|]. intros Hf. apply enum_getitem_Ok in Hf. congruence.
  - split; congruence.
  - split; [discriminate|tauto].
Qed.

Lemma resolve_data_return_mode_Raise env arg e :
  resolve_data_return_mode env arg = Raise e ->
  e = ValueError (mode_shown arg ++ " is not valid.").
Proof.
  unfold resolve_data_return_mode, try_except.
  destruct arg as [s|m|s]; cbn.
  - destruct (enum_getitem _ _); congruence.
  - discriminate.
  - congruence.
Qed.

Lemma resolve_update_mode_Raise env drm arg e :
  resolve_update_mode env drm arg = Raise e ->
  e = ValueError (format_DataReturnMode env drm ++ " is not valid.").
Proof.
  unfold resolve_update_mode, try_except.
  destruct arg as [s|m|s]; cbn.
  - destruct (enum_getitem _ _); congruence.
  - discriminate.
  - congruence.
Qed.

Example resolve_lower_case env :
  resolve_update_mode env AS_INPUT (ModeStr "value_changed") = Ok VALUE_CHANGED.
Proof. reflexivity. Qed.

Example resolve_mixed_case env :
  resolve_data_return_mode env (ModeStr "Filtered_And_Sorted") = Ok FILTERED_AND_SORTED.
Proof. reflexivity. Qed.

Example resolve_member env :
  resolve_update_mode env AS_INPUT
    (ModeEnum (GridUpdateMode_or VALUE_CHANGED SELECTION_CHANGED))
  = Ok (GridUpdateMode_or VALUE_CHANGED SELECTION_CHANGED).
Proof. reflexivity. Qed.

(** *** Upper-casing against equality ignoring case *)

Lemma in_all_ascii c : In c all_ascii.
Proof.
  unfold all_ascii. apply in_map_iff. exists (nat_of_ascii c).
  split; [apply ascii_nat_embedding|]. apply in_seq. pose proof (nat_ascii_bounded c). lia.
Qed.

Lemma upper_ascii_same_letter c d :
  is_lower d = false -> Ascii.eqb (upper_ascii c) d = same_letter c d.
Proof.
  assert (forallb (fun c => forallb (fun d =>
            implb (negb (is_lower d))
                  (Bool.eqb (Ascii.eqb (upper_ascii c) d) (same_letter c d)))
            all_ascii) all_ascii = true) as Hall by (vm_compute; reflexivity).
  intros Hd. rewrite forallb_forall in Hall. specialize (Hall c (in_all_ascii c)).
  rewrite forallb_forall in Hall. specialize (Hall d (in_all_ascii d)).
  rewrite Hd in Hall. cbn in Hall. now apply Bool.eqb_prop in Hall.
Qed.

Lemma ascii_upper_eq_nocase s name :
  capital name = true -> ascii_upper s = name <-> eq_nocase s name = true.
Proof.
  revert name. induction s as [|c s IH]; intros [|d name]; cbn; try (split; congruence).
  intros [Hd Hn]%andb_true_iff. apply negb_true_iff in Hd.
  rewrite andb_true_iff, <- (upper_ascii_same_letter c d Hd), <- (IH name Hn).
  rewrite Ascii.eqb_eq. split; [intros [= -> ->]; auto|intros [-> ->]; reflexivity].
Qed.

Lemma find_unique_name {E} (members : list (string * E)) name m :
  NoDup members.*1 ->
  List.find (fun kv => String.eqb kv.1 name) members = Some (name, m) <-> (name, m) ∈ members.
Proof.
  induction members as [|[n e] l IH]; cbn.
  - intros _. split; [discriminate|]. intros H. now apply elem_of_nil in H.
  - intros [Hn Hnd]%NoDup_cons. destruct (String.eqb n name) eqn:Heq.
    + apply String.eqb_eq in Heq. subst n. split.
      * intros [= <-]. left.
      * intros [[= <-]|Hin]%elem_of_cons; [reflexivity|].
        exfalso. apply Hn. apply list_elem_of_fmap. exists (name, m). auto.
    + rewrite (IH Hnd). split; [intros H; now right|].
      intros [[= -> ->]|Hin]%elem_of_cons; [|exact Hin].
      rewrite String.eqb_refl in Heq. discriminate.
Qed.

(** For a text of ASCII characters, to name a member after upper-casing is
    to equal a member's name ignoring case. *)
Lemma names_member_resolves_to {E} env (members : list (string * E)) arg m :
  NoDup members.*1 ->
  Forall (fun name => capital name = true) members.*1 ->
  ascii_arg arg = true ->
  names_member env members arg m <-> resolves_to members arg m.
Proof.
  intros Hnd Hcap Hascii. destruct arg as [s|e|s]; cbn in *; [|reflexivity..].
  unfold upper. rewrite Hascii. rewrite (find_unique_name _ _ _ Hnd). split.
  - intros Hin. exists (ascii_upper s). split; [exact Hin|].
    apply ascii_upper_eq_nocase; [|reflexivity].
    rewrite Forall_forall in Hcap. apply Hcap.
    apply list_elem_of_fmap. exists (ascii_upper s, m). auto.
  - intros (name & Hin & Heq). apply ascii_upper_eq_nocase in Heq; [now subst name|].
    rewrite Forall_forall in Hcap. apply Hcap.
    apply list_elem_of_fmap. exists (name, m). auto.
Qed.

(** C6 (amended).  In every call that gets as far as the mode checks (the
    table encodes, the theme is valid): a mode argument resolves when it is
    a member, or a text whose upper-casing by [str.upper] is a member's
    name - for a text of ASCII characters, exactly when it equals a
    member's name ignoring case; when both modes resolve, the payload
    carries the resolved members; when the data-return mode does not
    resolve, the call raises [ValueError "<value> is not valid."], naming
    the offending value and nothing else, before any boundary call; when the
    update mode does not resolve, the call raises a [ValueError] before any
    boundary call. *)
Theorem mode_validation env a w row_data th :
  encode_rows env (dataframe a) = Ok row_data ->
  check_theme (theme a) = Ok th ->
  (forall drm um,
      names_member env DataReturnMode_members (data_return_mode a) drm ->
      names_member env GridUpdateMode_members (update_mode a) um ->
      prepare env a w =
        (Ok (payload_of env a w row_data th drm um), after_walk a (after_warning a w))) /\
  (ascii_arg (data_return_mode a) = true ->
   forall drm, names_member env DataReturnMode_members (data_return_mode a) drm <->
               resolves_to DataReturnMode_members (data_return_mode a) drm) /\
  (ascii_arg (update_mode a) = true ->
   forall um, names_member env GridUpdateMode_members (update_mode a) um <->
              resolves_to GridUpdateMode_members (update_mode a) um) /\
  ((forall drm, ~ names_member env DataReturnMode_members (data_return_mode a) drm) ->
      (AgGrid env a w).1 =
        Raise (ValueError (mode_shown (data_return_mode a) ++ " is not valid.")) /\
      boundary_calls (AgGrid env a w).2 = boundary_calls w) /\
  ((forall um, ~ names_member env GridUpdateMode_members (update_mode a) um) ->
      exists msg, (AgGrid env a w).1 = Raise (ValueError msg) /\
                  boundary_calls (AgGrid env a w).2 = boundary_calls w).
Proof.
  intros Henc Hth. split; [|split; [|split; [|split]]].
  - intros drm um Hd Hu.
    apply resolve_data_return_mode_Ok in Hd.
    apply resolve_update_mode_Ok with (drm := drm) in Hu.
    rewrite prepare_eq, Henc, Hth. cbn zeta. rewrite Hd, Hu. reflexivity.
  - intros Hascii drm. apply names_member_resolves_to; [compute_done| |exact Hascii].
    repeat constructor.
  - intros Hascii um. apply names_member_resolves_to; [compute_done| |exact Hascii].
    repeat constructor.
  - intros Hno.
    apply AgGrid_raise_in_prepare.
    rewrite prepare_eq, Henc, Hth. cbn zeta.
    destruct (resolve_data_return_mode env (data_return_mode a)) as [drm|e] eqn:Hd.
    + apply resolve_data_return_mode_Ok in Hd. now apply Hno in Hd.
    + apply resolve_data_return_mode_Raise in Hd. now subst e.
  - intros Hno.
    assert (exists msg, (prepare env a w).1 = Raise (ValueError msg)) as [msg Hp].
    { rewrite prepare_eq, Henc, Hth. cbn zeta.
      destruct (resolve_data_return_mode env (data_return_mode a)) as [drm|e] eqn:Hd.
      - destruct (resolve_update_mode env drm (update_mode a)) as [um|e] eqn:Hu.
        + apply resolve_update_mode_Ok in Hu. now apply Hno in Hu.
        + apply resolve_update_mode_Raise in Hu. subst e. eauto.
      - apply resolve_data_return_mode_Raise in Hd. subst e. eauto. }
    exists msg. now apply AgGrid_raise_in_prepare.
Qed.

(** [data_return_mode="bogus"]. *)
Lemma mode_validation_witness :
  (AgGrid (Samples.env Samples.silent_widget)
     (Samples.with_modes (ModeStr "value_changed") (ModeStr "bogus") (Samples.args Samples.scenario))
     Samples.fresh).1 = Raise (ValueError "bogus is not valid.") /\
  boundary_calls
    (AgGrid (Samples.env Samples.silent_widget)
       (Samples.with_modes (ModeStr "value_changed") (ModeStr "bogus") (Samples.args Samples.scenario))
       Samples.fresh).2 = [].
Proof.
  refine (proj1 (proj2 (proj2 (proj2 (mode_validation (Samples.env Samples.silent_widget)
            (Samples.with_modes (ModeStr "value_changed") (ModeStr "bogus")
               (Samples.args Samples.scenario))
            Samples.fresh _ "light" _ _)))) _).
  - vm_compute. reflexivity.
  - reflexivity.
  - intros drm Hf. vm_compute in Hf. discriminate.
Defined.

(** C6 fails as stated twice.  On the error text: the message for
    [data_return_mode="bogus"] names none of the valid values.  On "any
    other value raises": [str.upper] turns the ligature U+FB01 into [FI],
    so a text that starts with it and equals no member's name ignoring case
    resolves to [FILTERED], and the boundary is called. *)
Lemma mode_error_names_no_valid_value :
  ((AgGrid (Samples.env Samples.silent_widget)
      (Samples.with_modes (ModeStr "value_changed") (ModeStr "bogus")
         (Samples.args Samples.scenario))
      Samples.fresh).1 = Raise (ValueError "bogus is not valid.") /\
   forallb (fun name => negb (contains name "bogus is not valid."))
           ["AS_INPUT"; "FILTERED"; "FILTERED_AND_SORTED"] = true) /\
  (forallb (fun name => negb (eq_nocase Samples.ligature_filtered name))
           ["AS_INPUT"; "FILTERED"; "FILTERED_AND_SORTED"] = true /\
   map p_data_return_mode
     (boundary_calls
        (AgGrid (Samples.env Samples.silent_widget)
           (Samples.with_modes (ModeStr "value_changed") (ModeStr Samples.ligature_filtered)
              (Samples.args Samples.scenario))
           Samples.fresh).2) = [FILTERED]).
Proof. repeat split; vm_compute; reflexivity. Qed.

(** Line 202 formats [data_return_mode] where line 197 formats
    [update_mode]: the error for [update_mode="bogus"] shows the
    data-return mode, which an integer enumeration prints as its value. *)
Lemma update_mode_error_names_data_return_mode :
  (AgGrid (Samples.env Samples.silent_widget)
     (Samples.with_modes (ModeStr "bogus") (ModeStr "as_input") (Samples.args Samples.scenario))
     Samples.fresh).1 = Raise (ValueError "0 is not valid.").
Proof. reflexivity. Qed.

(** ** The caller's grid options *)

Lemma after_warning_gridOptions a w :
  caller_gridOptions (after_warning a w) = caller_gridOptions w.
Proof. unfold after_warning. destruct (width_truthy _); reflexivity. Qed.

Lemma after_walk_gridOptions a w :
  caller_gridOptions (after_walk a w) =
  if allow_unsafe_jscode a then walk_gridOptions unwrap_JsCode <$> caller_gridOptions w
  else caller_gridOptions w.
Proof.
  unfold after_walk. destruct (allow_unsafe_jscode a); [|reflexivity].
  destruct (caller_gridOptions w) eqn:E; cbn; [reflexivity|exact E].
Qed.

Lemma prepare_gridOptions env a w :
  caller_gridOptions (prepare env a w).2 =
  if allow_unsafe_jscode a && is_ok (encode_rows env (dataframe a))
  then walk_gridOptions unwrap_JsCode <$> caller_gridOptions w
  else caller_gridOptions w.
Proof.
  rewrite prepare_eq.
  destruct (encode_rows env (dataframe a)) as [rows|e]; cbn [is_ok snd].
  2: { rewrite andb_false_r. apply after_warning_gridOptions. }
  rewrite andb_true_r.
  assert (caller_gridOptions (after_walk a (after_warning a w)) =
          if allow_unsafe_jscode a then walk_gridOptions unwrap_JsCode <$> caller_gridOptions w
          else caller_gridOptions w) as Hw.
  { now rewrite after_walk_gridOptions, after_warning_gridOptions. }
  validation_cases env a; exact Hw.
Qed.

(** C9 (amended).  After every call, however it ends, the caller's
    [gridOptions] mapping is what it was, unless the unsafe-code flag is set
    and the table was encoded: then the mapping has been walked in place,
    every [JsCode] marker in it replaced by its code text. *)
Theorem gridOptions_after_call env a w :
  caller_gridOptions (AgGrid env a w).2 =
  if allow_unsafe_jscode a && is_ok (encode_rows env (dataframe a))
  then walk_gridOptions unwrap_JsCode <$> caller_gridOptions w
  else caller_gridOptions w.
Proof.
  rewrite <- prepare_gridOptions, AgGrid_eq.
  destruct (prepare env a w) as [[p|e] w1]; [|reflexivity].
  cbn zeta. destruct (_component_func env p) as [v|[]]; reflexivity.
Qed.

(** A document without markers is left as it is by the walk. *)
Lemma walk_no_JsCode_list (items : list go_value) :
  Forall (fun g => no_JsCode g = true -> walk_gridOptions unwrap_JsCode g = g) items ->
  forallb no_JsCode items = true ->
  map (walk_gridOptions unwrap_JsCode) items = items.
Proof.
  induction 1 as [|g items Hg _ IH]; cbn; [reflexivity|].
  intros [H1 H2]%andb_true_iff. now rewrite Hg, IH.
Qed.

Lemma walk_no_JsCode (g : go_value) :
  no_JsCode g = true -> walk_gridOptions unwrap_JsCode g = g.
Proof.
  revert g. fix IH 1.
  intros [code|v|items|entries]; cbn.
  - discriminate.
  - reflexivity.
  - intros H. f_equal. apply walk_no_JsCode_list; [|exact H].
    clear H. induction items as [|g items IHitems]; constructor.
    + apply IH.
    + exact IHitems.
  - intros H. f_equal.
    induction entries as [|[k g] entries IHentries]; cbn; [reflexivity|].
    cbn in H. apply andb_true_iff in H as [H1 H2].
    rewrite (IH g H1), IHentries; [reflexivity|exact H2].
Qed.

(** C9 fails as stated with the unsafe-code flag set: the marker in the
    caller's mapping is text after the call. *)
Lemma unsafe_jscode_rewrites_caller_gridOptions :
  caller_gridOptions
    (AgGrid (Samples.env Samples.silent_widget)
       (Samples.with_unsafe_jscode (Samples.args Samples.scenario))
       (Samples.holding Samples.options_with_code)).2
  = Some (GoDict [("rowSelection", GoAtom (PyStr "single"));
                  ("onCellClicked", GoAtom (PyStr "function(e) { console.log(e); }"))]) /\
  caller_gridOptions (Samples.holding Samples.options_with_code)
  = Some (GoDict [("rowSelection", GoAtom (PyStr "single"));
                  ("onCellClicked", GoJsCode "function(e) { console.log(e); }")]).
Proof. split; reflexivity. Qed.

(** ** Traversals *)

Lemma mapM_Ok_Forall2 {A B} (f : A -> result B) l l' :
  mapM f l = Ok l' <-> Forall2 (fun x y => f x = Ok y) l l'.
Proof.
  revert l'. induction l as [|x l IH]; intros l'; cbn.
  - split.
    + intros [= <-]. constructor.
    + intros H. inversion H. reflexivity.
  - destruct (f x) as [y|e] eqn:Hx.
    + destruct (mapM f l) as [ys|e] eqn:Hl.
      * split.
        -- intros [= <-]. constructor; [exact Hx|]. now apply IH.
        -- intros H. inversion H as [|? y' ? ys' Hy Hys]; subst.
           apply IH in Hys. congruence.
      * split; [discriminate|].
        intros H. inversion H as [|? y' ? ys' Hy Hys]; subst.
        apply IH in Hys. discriminate.
    + split; [discriminate|].
      intros H. inversion H; subst. congruence.
Qed.

Lemma mapM_Raise {A B} (f : A -> result B) l e :
  mapM f l = Raise e -> exists x, x ∈ l /\ f x = Raise e.
Proof.
  induction l as [|x l IH]; cbn; [discriminate|].
  destruct (f x) as [y|e'] eqn:Hx.
  - destruct (mapM f l) as [ys|e'] eqn:Hl; [discriminate|].
    intros [= <-]. destruct (IH eq_refl) as (x' & Hin & Hx').
    exists x'. split; [now right|exact Hx'].
  - intros [= <-]. exists x. split; [now left|exact Hx].
Qed.

(** ** Column type tags *)

Lemma map_fmap {A B} (f : A -> B) (l : list A) : map f l = f <$> l.
Proof. reflexivity. Qed.

Lemma zip_columns_kinds df :
  zip (columns df) (map (fun c => kind (dtype c.2)) (cols df)) =
  (fun c => (c.1, kind (dtype c.2))) <$> cols df.
Proof.
  unfold columns. induction (cols df) as [|c l IH]; cbn; [reflexivity|]. now rewrite IH.
Qed.

Lemma kind_numpy t : kind t ∈ numpy_kinds.
Proof. destruct t; cbn; unfold numpy_kinds; set_solver. Qed.

Lemma frame_dtypes_Some df name t :
  frame_dtypes df !! name = Some t ->
  exists s, (name, s) ∈ cols df /\ t = kind (dtype s).
Proof.
  unfold frame_dtypes, dict. rewrite zip_columns_kinds.
  intros H. apply elem_of_list_to_map_2 in H.
  rewrite elem_of_reverse in H.
  apply list_elem_of_fmap in H as ([n s] & [= -> ->] & Hin).
  exists s. split; [exact Hin|reflexivity].
Qed.

Lemma frame_dtypes_lookup df name s :
  NoDup (columns df) -> (name, s) ∈ cols df ->
  frame_dtypes df !! name = Some (kind (dtype s)).
Proof.
  unfold frame_dtypes, dict. rewrite zip_columns_kinds. intros Hnd Hin.
  apply elem_of_list_to_map_1.
  - rewrite fmap_reverse, reverse_Permutation.
    rewrite <- list_fmap_compose.
    unfold columns in Hnd. erewrite list_fmap_ext; [exact Hnd|]. now intros i [].
  - rewrite elem_of_reverse.
    apply list_elem_of_fmap. exists (name, s). split; [reflexivity|exact Hin].
Qed.

Lemma prepare_frame_dtypes env a w p w1 :
  prepare env a w = (Ok p, w1) -> p_frame_dtypes p = frame_dtypes (dataframe a).
Proof.
  rewrite prepare_eq.
  destruct (encode_rows env (dataframe a)); [|discriminate].
  destruct (check_theme (theme a)); [|discriminate].
  destruct (resolve_data_return_mode env (data_return_mode a)) as [drm|]; [|discriminate].
  destruct (resolve_update_mode env drm (update_mode a)); [|discriminate].
  intros [= <- _]. reflexivity.
Qed.

(** C8 (amended).  The tag map is a total function of the input table:
    every tag it holds is the kind code of the dtype of a column of that
    name, hence one of numpy's eleven codes (no degrading to the object
    tag); with unique column names every column gets the code of its own
    dtype; and the tags sent to the widget are those of the table as
    passed in, not of the encoded table. *)
Theorem frame_dtypes_are_kind_codes env a w :
  (forall name t, frame_dtypes (dataframe a) !! name = Some t ->
      t ∈ ["b"; "i"; "u"; "f"; "c"; "m"; "M"; "O"; "S"; "U"; "V"] /\
      exists s, (name, s) ∈ cols (dataframe a) /\ t = kind (dtype s)) /\
  (NoDup (columns (dataframe a)) ->
   forall name s, (name, s) ∈ cols (dataframe a) ->
      frame_dtypes (dataframe a) !! name = Some (kind (dtype s))) /\
  (forall p w1, prepare env a w = (Ok p, w1) ->
      p_frame_dtypes p = frame_dtypes (dataframe a)).
Proof.
  split; [|split].
  - intros name t H. destruct (frame_dtypes_Some _ _ _ H) as (s & Hin & ->).
    split; [apply kind_numpy|eauto].
  - intros Hnd name s. now apply frame_dtypes_lookup.
  - apply prepare_frame_dtypes.
Qed.

(** The boolean column of the sample table. *)
Lemma frame_dtypes_are_kind_codes_witness :
  "b" ∈ ["b"; "i"; "u"; "f"; "c"; "m"; "M"; "O"; "S"; "U"; "V"] /\
  exists s, ("flag", s) ∈ cols Samples.flags /\ "b" = kind (dtype s).
Proof.
  apply (proj1 (frame_dtypes_are_kind_codes (Samples.env Samples.silent_widget)
                  (Samples.args Samples.flags) Samples.fresh) "flag" "b").
  reflexivity.
Defined.

(** C8 fails as stated on a boolean column: its tag is ["b"], which is
    none of the six tags. *)
Lemma bool_column_tag_outside_six :
  frame_dtypes Samples.flags !! "flag" = Some "b" /\ "b" ∉ six_tags.
Proof.
  split; [reflexivity|]. unfold six_tags. compute_done.
Qed.


(** ** The outbound encoder *)

Lemma dumps_scalar_standard v j : dumps_scalar v = Ok j -> json_standard j = true.
Proof.
  destruct v as [|b|z|f|re im|s|o]; cbn; try (intros [= <-]; reflexivity); try discriminate.
  destruct (float_is_finite f) eqn:Hf; intros [= <-]; cbn; [exact Hf|reflexivity].
Qed.

Lemma dumps_record_standard r j : dumps_record r = Ok j -> json_standard j = true.
Proof.
  unfold dumps_record.
  destruct (mapM _ r) as [members|e] eqn:Hm; [|discriminate].
  intros [= <-]. cbn. apply mapM_Ok_Forall2 in Hm.
  induction Hm as [|kv m r' ms Hkv _ IH]; cbn; [reflexivity|].
  rewrite IH, andb_true_r.
  destruct (dumps_scalar kv.2) as [j|] eqn:Hj; [|discriminate].
  injection Hkv as <-. cbn. now apply dumps_scalar_standard in Hj.
Qed.

Lemma simplejson_dumps_standard rows j :
  simplejson_dumps rows = Ok j -> json_standard j = true.
Proof.
  unfold simplejson_dumps.
  destruct (mapM dumps_record rows) as [items|e] eqn:Hm; [|discriminate].
  intros [= <-]. cbn. apply mapM_Ok_Forall2 in Hm.
  induction Hm as [|r item rows' items' Hr _ IH]; cbn; [reflexivity|].
  now rewrite (dumps_record_standard _ _ Hr), IH.
Qed.

Lemma encode_rows_standard env df doc :
  encode_rows env df = Ok doc -> json_standard doc = true.
Proof.
  unfold encode_rows. destruct (applymap _ _ df); [|discriminate].
  apply simplejson_dumps_standard.
Qed.

Lemma cast_isoformat env v text :
  getattr_isoformat v = Some (Method text) ->
  cast_to_serializable env v = Ok (PyStr text).
Proof. unfold cast_to_serializable. intros ->. reflexivity. Qed.

Lemma cast_not_callable env v :
  callable (getattr_isoformat v) = false ->
  cast_to_serializable env v =
    if is_Number v then
      match np_isnan v with
      | Raise e => Raise e
      | Ok true => Ok (PyStr (py_str env v))
      | Ok false =>
          match np_isinf v with
          | Raise e => Raise e
          | Ok true => Ok (PyStr (py_str env v))
          | Ok false => Ok v
          end
      end
    else Ok (PyStr (py_str env v)).
Proof.
  unfold cast_to_serializable. intros ->. rewrite andb_false_r. reflexivity.
Qed.

Lemma np_isinf_defined v b : np_isnan v = Ok b -> exists b', np_isinf v = Ok b'.
Proof.
  destruct v as [|c|z|f|re im|s|o]; cbn; try discriminate; eauto.
  destruct (fits_int64_or_uint64 z); [eauto|discriminate].
Qed.

(** The encoder's policy, branch by branch.  For every cell: a callable
    [isoformat] wins and its text is emitted; otherwise a [Number] is tested
    with numpy - where numpy has no test for it the encoder raises, a NaN
    or an infinity is emitted as its string form, a finite number
    unchanged; anything else is emitted as its string form.  Whenever the
    encoder returns, the result is a string or the unchanged number, which
    is neither NaN nor infinite.  Whenever the rows serialize, the JSON text
    holds no NaN or Infinity token. *)
Lemma cast_to_serializable_policy env v :
  (forall text, getattr_isoformat v = Some (Method text) ->
      cast_to_serializable env v = Ok (PyStr text)) /\
  (callable (getattr_isoformat v) = false -> is_Number v = true ->
      match np_isnan v, np_isinf v with
      | Ok nan, Ok inf =>
          cast_to_serializable env v = Ok (if nan || inf then PyStr (py_str env v) else v)
      | Raise e, _ => cast_to_serializable env v = Raise e
      | Ok _, Raise _ => False
      end) /\
  (callable (getattr_isoformat v) = false -> is_Number v = false ->
      cast_to_serializable env v = Ok (PyStr (py_str env v))) /\
  (forall r, cast_to_serializable env v = Ok r ->
      (exists s, r = PyStr s) \/
      (r = v /\ is_Number v = true /\ np_isnan v = Ok false /\ np_isinf v = Ok false)) /\
  (forall df doc, encode_rows env df = Ok doc -> json_standard doc = true).
Proof.
  split; [|split; [|split; [|split]]].
  - apply cast_isoformat.
  - intros Hc Hn. rewrite (cast_not_callable env v Hc), Hn.
    destruct (np_isnan v) as [nan|e] eqn:Hnan; [|reflexivity].
    destruct (np_isinf_defined v nan Hnan) as [inf ->].
    destruct nan, inf; reflexivity.
  - intros Hc Hn. now rewrite (cast_not_callable env v Hc), Hn.
  - intros r.
    destruct (callable (getattr_isoformat v)) eqn:Hc.
    + destruct (getattr_isoformat v) as [[text|t]|] eqn:Hg; try discriminate.
      rewrite (cast_isoformat env v text Hg). intros [= <-]. eauto.
    + rewrite (cast_not_callable env v Hc).
      destruct (is_Number v) eqn:Hn; [|intros [= <-]; eauto].
      destruct (np_isnan v) as [[]|e]; [intros [= <-]; eauto| |discriminate].
      destruct (np_isinf v) as [[]|e]; [intros [= <-]; eauto| |discriminate].
      intros [= <-]. right. repeat split; reflexivity.
  - apply encode_rows_standard.
Qed.

(** A timestamp cell. *)
Example cast_Timestamp :
  cast_to_serializable (Samples.env Samples.silent_widget)
    (Samples.Timestamp "2020-01-01T00:00:00") = Ok (PyStr "2020-01-01T00:00:00").
Proof. reflexivity. Qed.

(** C2.  The encoder is not total: a [Decimal] cell is a [Number], numpy
    has no [isnan] for it, and [cast_to_serializable] raises instead of
    emitting the cell's string form; the table is not encoded and the call
    raises before the boundary is reached. *)
Theorem cast_to_serializable_raises_on_Decimal :
  is_Number (Samples.Decimal "1.5") = true /\
  cast_to_serializable (Samples.env Samples.silent_widget) (Samples.Decimal "1.5")
    = Raise (no_ufunc_loop "isnan") /\
  encode_rows (Samples.env Samples.silent_widget) Samples.prices
    = Raise (no_ufunc_loop "isnan") /\
  AgGrid (Samples.env Samples.silent_widget) (Samples.args Samples.prices) Samples.fresh
    = (Raise (TypeError "ufunc 'isnan' not supported for the input types, and the inputs could not be safely coerced to any supported types according to the casting rule ''safe''"),
       Samples.fresh).
Proof. repeat split; reflexivity. Qed.

Example cast_nan env : cast_to_serializable env (PyFloat S754_nan) = Ok (PyStr "nan").
Proof. reflexivity. Qed.
Example cast_neg_inf env : cast_to_serializable env (PyFloat (S754_infinity true)) = Ok (PyStr "-inf").
Proof. reflexivity. Qed.
Example cast_int env : cast_to_serializable env (PyInt 7) = Ok (PyInt 7).
Proof. reflexivity. Qed.
Example cast_None env : cast_to_serializable env PyNone = Ok (PyStr "None").
Proof. reflexivity. Qed.
Example cast_complex_then_dumps env :
  cast_to_serializable env (PyComplex (S754_zero false) (S754_finite false 1 0))
    = Ok (PyComplex (S754_zero false) (S754_finite false 1 0)) /\
  dumps_scalar (PyComplex (S754_zero false) (S754_finite false 1 0))
    = Raise (TypeError "Object of type complex is not JSON serializable").
Proof. split; reflexivity. Qed.

(** ** Durations *)

(** [DataFrame.apply] hands [cast_to_timedelta] a whole column, which
    [pd.Timedelta] rejects: the handler returns the column as it is. *)
Lemma cast_to_timedelta_Series env col :
  cast_to_timedelta env (ASeries col) = ASeries col.
Proof. reflexivity. Qed.

Lemma apply_cast_to_timedelta_id env col : apply_cast_to_timedelta env col = Ok col.
Proof. reflexivity. Qed.

(** C4 (the code at its failing input).  A duration-tagged column with the
    cells ["1 days"] and ["bogus"]: [pd.Timedelta] reads ["1 days"] as a
    duration, and yet the decoder returns both cells as text. *)
Theorem duration_cells_are_never_parsed :
  parse_timedelta (Samples.env Samples.silent_widget) (PyStr "1 days")
    = Some (Samples.Timedelta "P1DT0H0M0S" "1 days 00:00:00") /\
  decode_response (Samples.env Samples.silent_widget) (Samples.args Samples.spans)
    Samples.durations_response
    = Ok {| data := {| nrows := 2;
                       cols := [("d", {| dtype := dt_object;
                                         values := [PyStr "1 days"; PyStr "bogus"] |})] |};
            selected_rows := [] |}.
Proof. split; vm_compute; reflexivity. Qed.

(** ** Retyping by group *)

Lemma select_tags_lookup tags (ot : gmap string string) name :
  is_Some (select_tags tags ot !! name) <-> tagged ot tags name = true.
Proof.
  unfold select_tags, tagged. split.
  - intros [t Ht]. apply map_lookup_filter_Some in Ht as [Hl Hin]. cbn in Hin.
    rewrite Hl. now apply bool_decide_eq_true.
  - destruct (ot !! name) as [t|] eqn:Hl; [|discriminate].
    intros Hin%bool_decide_eq_true. exists t.
    apply map_lookup_filter_Some. split; [exact Hl|exact Hin].
Qed.

Lemma select_tags_dom tags (ot : gmap string string) :
  dom (select_tags tags ot) ⊆ dom ot.
Proof. unfold select_tags. apply dom_filter_subseteq. Qed.

Lemma select_tags_empty tags (ot : gmap string string) name :
  select_tags tags ot = ∅ -> tagged ot tags name = false.
Proof.
  intros He. destruct (tagged ot tags name) eqn:Ht; [|reflexivity].
  apply select_tags_lookup in Ht. rewrite He, lookup_empty in Ht.
  now destruct Ht.
Qed.

Lemma group_step_name tags func ot c c' : group_step tags func ot c c' -> c'.1 = c.1.
Proof.
  unfold group_step. destruct (tagged ot tags c.1).
  - now intros (vs & _ & ->).
  - now intros ->.
Qed.

Lemma Forall2_eq_iff {A} (l l' : list A) : Forall2 eq l l' <-> l = l'.
Proof.
  split.
  - induction 1; congruence.
  - intros ->. induction l'; constructor; auto.
Qed.

Lemma Forall2_names {R : string * Series -> string * Series -> Prop} l l' :
  (forall c c', R c c' -> c'.1 = c.1) -> Forall2 R l l' -> l'.*1 = l.*1.
Proof.
  intros HR. induction 1 as [|c c' l l' Hc _ IH]; cbn; [reflexivity|].
  now rewrite (HR _ _ Hc), IH.
Qed.

Lemma retype_group_Ok env tags func ot frame frame' :
  dom ot ⊆ list_to_set (columns frame) ->
  retype_group env tags func ot frame = Ok frame' <->
  nrows frame' = nrows frame /\
  Forall2 (group_step tags func ot) (cols frame) (cols frame').
Proof.
  intros Hdom. unfold retype_group.
  case_bool_decide as Hsel.
  - (* nothing selected *)
    assert (forall l l', Forall2 (group_step tags func ot) l l' <-> l = l') as Hid.
    { intros l l'. rewrite <- Forall2_eq_iff. split; intros H;
        (eapply Forall2_impl; [exact H|]); intros c c'; unfold group_step;
        rewrite (select_tags_empty _ _ _ Hsel); congruence. }
    split.
    + intros [= <-]. split; [reflexivity|]. now apply Hid.
    + intros [Hn Hc]. apply Hid in Hc. destruct frame, frame'; cbn in *. congruence.
  - unfold loc_apply.
    rewrite bool_decide_eq_true_2 by (etrans; [apply select_tags_dom|exact Hdom]).
    match goal with |- context [mapM ?g _] => set (step := g) end.
    assert (forall c c', step c = Ok c' <-> group_step tags func ot c c') as Hstep.
    { intros c c'. unfold step, group_step.
      destruct (tagged ot tags c.1) eqn:Ht.
      - rewrite bool_decide_eq_true_2 by now apply select_tags_lookup.
        destruct (func (values c.2)) as [vs|e]; split.
        + intros [= <-]. eauto.
        + intros (vs' & [= <-] & ->). reflexivity.
        + discriminate.
        + intros (vs' & [=] & _).
      - rewrite bool_decide_eq_false_2.
        + split; congruence.
        + rewrite select_tags_lookup. congruence. }
    destruct (mapM step (cols frame)) as [cs|e] eqn:Hm.
    + apply mapM_Ok_Forall2 in Hm.
      split.
      * intros [= <-]. split; [reflexivity|]. cbn.
        eapply Forall2_impl; [exact Hm|]. intros c c'. apply Hstep.
      * intros [Hn Hc].
        assert (cols frame' = cs) as <-.
        { assert (Forall2 (fun c c' => step c = Ok c') (cols frame) (cols frame')) as Hc'.
          { eapply Forall2_impl; [exact Hc|]. intros c c'. apply Hstep. }
          clear -Hm Hc'. revert Hc'. generalize (cols frame').
          induction Hm as [|c c1 l l1 H1 _ IH]; intros l2 H2; inversion H2; subst; [reflexivity|].
          f_equal; [congruence|]. now apply IH. }
        destruct frame'; cbn in *. congruence.
    + split; [discriminate|].
      intros [_ Hc].
      assert (mapM step (cols frame) = Ok (cols frame')) as Hok.
      { apply mapM_Ok_Forall2. eapply Forall2_impl; [exact Hc|]. intros c c'. apply Hstep. }
      congruence.
Qed.

Lemma retype_group_Raise env tags func ot frame e :
  dom ot ⊆ list_to_set (columns frame) ->
  retype_group env tags func ot frame = Raise e ->
  exists c, c ∈ cols frame /\ tagged ot tags c.1 = true /\ func (values c.2) = Raise e.
Proof.
  intros Hdom. unfold retype_group.
  case_bool_decide as Hsel; [discriminate|].
  unfold loc_apply.
  rewrite bool_decide_eq_true_2 by (etrans; [apply select_tags_dom|exact Hdom]).
  destruct (mapM _ (cols frame)) as [cs|e'] eqn:Hm; [discriminate|].
  intros [= ->]. apply mapM_Raise in Hm as (c & Hin & Hc).
  exists c. split; [exact Hin|].
  case_bool_decide as Hl; [|discriminate].
  split; [now apply select_tags_lookup|].
  destruct (func (values c.2)); congruence.
Qed.

Lemma retype_group_columns env tags func ot frame frame' :
  dom ot ⊆ list_to_set (columns frame) ->
  retype_group env tags func ot frame = Ok frame' ->
  columns frame' = columns frame.
Proof.
  intros Hdom H. apply retype_group_Ok in H as [_ H]; [|exact Hdom].
  unfold columns. eapply Forall2_names; [|exact H]. apply group_step_name.
Qed.

(** ** The error policy on one column *)

Lemma first_failure_None (cell : pyval -> option pyval) i col :
  first_failure cell i col = None <-> Forall (fun v => is_Some (cell v)) col.
Proof.
  revert i. induction col as [|v col IH]; intros i; cbn.
  - split; [constructor|reflexivity].
  - destruct (cell v) as [x|] eqn:Hv.
    + rewrite IH. split; [intros H; constructor; eauto|now inversion 1].
    + split; [discriminate|]. inversion 1 as [|? ? [x Hx]]. congruence.
Qed.

Lemma first_failure_Some (cell : pyval -> option pyval) i col j v :
  first_failure cell i col = Some (j, v) -> cell v = None /\ v ∈ col.
Proof.
  revert i. induction col as [|v0 col IH]; intros i; cbn; [discriminate|].
  destruct (cell v0) eqn:Hv.
  - intros H. destruct (IH _ H) as [Hn Hin]. split; [exact Hn|now right].
  - intros [= <- <-]. split; [exact Hv|left].
Qed.

Lemma first_failure_Exists (cell : pyval -> option pyval) i col :
  Exists (fun v => cell v = None) col <-> exists j v, first_failure cell i col = Some (j, v).
Proof.
  split.
  - intros Hex. destruct (first_failure cell i col) as [[j v]|] eqn:Hf; [eauto|].
    apply first_failure_None in Hf. exfalso.
    apply Exists_exists in Hex as (v & Hin & Hv). rewrite Forall_forall in Hf.
    destruct (Hf v Hin). congruence.
  - intros (j & v & Hf). apply first_failure_Some in Hf as [Hn Hin].
    apply Exists_exists. eauto.
Qed.

Lemma parsed_all (cell : pyval -> option pyval) null col :
  Forall (fun v => is_Some (cell v)) col ->
  Forall2 (fun v v' => cell v = Some v') col (map (fun v => default null (cell v)) col).
Proof.
  induction 1 as [|v col [x Hx] _ IH]; cbn; constructor; [|exact IH].
  now rewrite Hx.
Qed.

Lemma coerced_all (cell : pyval -> option pyval) null col :
  Forall2 (fun v v' => match cell v with Some x => v' = x | None => v' = null end)
          col (map (fun v => default null (cell v)) col).
Proof. induction col as [|v col IH]; cbn; constructor; [|exact IH]. now destruct (cell v). Qed.

Lemma convert_column_Ok errors bad p null error cell col col' :
  policy_of errors = Some p ->
  convert_column errors bad null error cell col = Ok col' ->
  converted p cell null col col'.
Proof.
  unfold convert_column. intros ->.
  destruct (first_failure cell 0 col) as [[i v]|] eqn:Hf.
  - assert (Exists (fun v => cell v = None) col) as Hex
      by (apply (first_failure_Exists cell 0); eauto).
    destruct p; [discriminate| |]; intros [= <-]; cbn.
    + apply coerced_all.
    + right. split; [exact Hex|reflexivity].
  - apply first_failure_None in Hf. intros [= <-].
    pose proof (parsed_all cell null col Hf) as Hp.
    destruct p; cbn; [exact Hp| |left; exact Hp].
    eapply Forall2_impl; [exact Hp|]. cbn. now intros v v' ->.
Qed.

Lemma convert_column_parses errors bad p null error cell col :
  policy_of errors = Some p ->
  Forall (fun v => is_Some (cell v)) col ->
  convert_column errors bad null error cell col
    = Ok (map (fun v => default null (cell v)) col).
Proof.
  unfold convert_column. intros -> Hall.
  apply (first_failure_None cell 0) in Hall. now rewrite Hall.
Qed.

Lemma convert_column_lenient errors bad p null error cell col :
  policy_of errors = Some p -> p <> policy_raise ->
  exists col', convert_column errors bad null error cell col = Ok col'.
Proof.
  unfold convert_column. intros -> Hp.
  destruct (first_failure cell 0 col) as [[i v]|]; [|eauto].
  destruct p; [congruence|eauto|eauto].
Qed.

Lemma convert_column_raise errors bad null error cell col i v :
  policy_of errors = Some policy_raise ->
  first_failure cell 0 col = Some (i, v) ->
  convert_column errors bad null error cell col = Raise (error i v).
Proof. unfold convert_column. now intros -> ->. Qed.

Lemma convert_column_Raise errors bad p null error cell col e :
  policy_of errors = Some p ->
  convert_column errors bad null error cell col = Raise e ->
  p = policy_raise /\
  exists i v, first_failure cell 0 col = Some (i, v) /\ e = error i v.
Proof.
  unfold convert_column. intros ->.
  destruct (first_failure cell 0 col) as [[i v]|]; [|discriminate].
  destruct p; try discriminate. intros [= <-]. eauto.
Qed.

Lemma convert_column_length errors bad null error cell col col' :
  convert_column errors bad null error cell col = Ok col' -> length col' = length col.
Proof.
  unfold convert_column. destruct (policy_of errors) as [p|]; [|discriminate].
  destruct (first_failure cell 0 col) as [[i v]|]; [|intros [= <-]; apply length_map].
  destruct p; [discriminate| |]; intros [= <-]; [apply length_map|reflexivity].
Qed.

Lemma converted_length p cell null col col' :
  converted p cell null col col' -> length col' = length col.
Proof.
  destruct p; cbn.
  - intros H. symmetry. eapply Forall2_length, H.
  - intros H. symmetry. eapply Forall2_length, H.
  - intros [H|[_ ->]]; [|reflexivity]. symmetry. eapply Forall2_length, H.
Qed.

(** *** Unifying a numeric column *)

Lemma to_widest_length col : length (to_widest col) = length col.
Proof. unfold to_widest. destruct (existsb _ _); apply length_map. Qed.

Lemma promote_length env input col :
  length input = length col -> length (promote env input col) = length col.
Proof.
  intros Hlen. unfold promote.
  repeat (match goal with
          | |- context [if ?b then _ else _] => destruct b
          | |- context [match convert_numeric_wide ?e ?c with _ => _ end] =>
              destruct (convert_numeric_wide e c)
          end);
    rewrite ?length_map, ?to_widest_length; auto.
Qed.

Lemma existsb_false_Forall {A} (f g : A -> bool) (l : list A) :
  (forall x, g x = true -> f x = false) -> Forall (fun x => g x = true) l ->
  existsb f l = false.
Proof.
  intros Hfg. induction 1 as [|x l Hx _ IH]; cbn; [reflexivity|].
  now rewrite (Hfg x Hx), IH.
Qed.

Lemma map_id_Forall {A} (f : A -> A) (P : A -> Prop) (l : list A) :
  (forall x, P x -> f x = x) -> Forall P l -> map f l = l.
Proof.
  intros Hf. induction 1 as [|x l Hx _ IH]; cbn; [reflexivity|].
  now rewrite (Hf x Hx), IH.
Qed.

Lemma promote_floats env input col :
  Forall (fun v => is_float v = true) col -> promote env input col = col.
Proof.
  intros Hfl. unfold promote.
  rewrite (existsb_false_Forall is_text_or_object is_float) by (auto; now intros []).
  rewrite (existsb_false_Forall is_wide is_float) by (auto; now intros []).
  rewrite (existsb_false_Forall is_complex is_float) by (auto; now intros []).
  rewrite (existsb_false_Forall is_int is_float) by (auto; now intros []).
  destruct (existsb is_float col); [|reflexivity].
  eapply map_id_Forall; [|exact Hfl]. now intros [].
Qed.

Lemma to_numeric_Ok env errors p col col' :
  policy_of errors = Some p ->
  to_numeric env errors col = Ok col' ->
  exists cells, converted p (numeric_cell env) NaN col cells /\
                col' = promote env col cells.
Proof.
  intros Hp. unfold to_numeric.
  destruct (convert_column _ _ _ _ _ col) as [cells|] eqn:Hc; [|discriminate].
  intros [= <-]. exists cells. split; [|reflexivity].
  eapply convert_column_Ok; eassumption.
Qed.

Lemma to_numeric_Raise env errors p col e :
  policy_of errors = Some p ->
  to_numeric env errors col = Raise e ->
  p = policy_raise /\
  exists i v, first_failure (numeric_cell env) 0 col = Some (i, v) /\
              e = to_numeric_error env i v.
Proof.
  intros Hp. unfold to_numeric.
  destruct (convert_column _ _ _ _ _ col) as [cells|e'] eqn:Hc; [discriminate|].
  intros [= <-]. eapply convert_column_Raise; eassumption.
Qed.

Lemma to_numeric_length env errors col col' :
  to_numeric env errors col = Ok col' -> length col' = length col.
Proof.
  unfold to_numeric.
  destruct (convert_column _ _ _ _ _ col) as [cells|] eqn:Hc; [|discriminate].
  intros [= <-]. apply convert_column_length in Hc.
  rewrite promote_length by congruence. exact Hc.
Qed.

(** A column carries at most one tag, so at most one group selects it. *)
Lemma tagged_exclusive ot name :
  match tagged ot ["i"; "u"; "f"] name, tagged ot ["O"; "S"; "U"] name,
        tagged ot ["M"] name, tagged ot ["m"] name with
  | true, false, false, false
  | false, true, false, false
  | false, false, true, false
  | false, false, false, true
  | false, false, false, false => True
  | _, _, _, _ => False
  end.
Proof.
  unfold tagged. destruct (ot !! name) as [t|]; [|exact I].
  destruct (bool_decide (t ∈ ["i"; "u"; "f"])) eqn:H1.
  - apply bool_decide_eq_true in H1.
    repeat (apply elem_of_cons in H1 as [->|H1]); try exact I.
    now apply elem_of_nil in H1.
  - destruct (bool_decide (t ∈ ["O"; "S"; "U"])) eqn:H2.
    + apply bool_decide_eq_true in H2.
      repeat (apply elem_of_cons in H2 as [->|H2]); try exact I.
      now apply elem_of_nil in H2.
    + destruct (bool_decide (t ∈ ["M"])) eqn:H3.
      * apply bool_decide_eq_true in H3.
        repeat (apply elem_of_cons in H3 as [->|H3]); try exact I.
        now apply elem_of_nil in H3.
      * now destruct (bool_decide (t ∈ ["m"])).
Qed.

Lemma Forall2_compose {A B C} (R1 : A -> B -> Prop) (R2 : B -> C -> Prop) l1 l2 l3 :
  Forall2 R1 l1 l2 -> Forall2 R2 l2 l3 ->
  Forall2 (fun x z => exists y, R1 x y /\ R2 y z) l1 l3.
Proof.
  intros H. revert l3. induction H as [|x y l1 l2 Hxy _ IH]; intros l3 H3;
    inversion H3; subst; constructor; eauto.
Qed.

Lemma Forall2_elem_of_l {A B} (R : A -> B -> Prop) l l' x :
  Forall2 R l l' -> x ∈ l -> exists y, y ∈ l' /\ R x y.
Proof.
  induction 1 as [|a b l l' Hab _ IH]; intros Hin.
  - now apply elem_of_nil in Hin.
  - apply elem_of_cons in Hin as [->|Hin].
    + exists b. split; [left|exact Hab].
    + destruct (IH Hin) as (y & Hy & Hxy). exists y. split; [now right|exact Hxy].
Qed.

Lemma Forall2_elem_of_r {A B} (R : A -> B -> Prop) l l' y :
  Forall2 R l l' -> y ∈ l' -> exists x, x ∈ l /\ R x y.
Proof.
  induction 1 as [|a b l l' Hab _ IH]; intros Hin.
  - now apply elem_of_nil in Hin.
  - apply elem_of_cons in Hin as [->|Hin].
    + exists a. split; [left|exact Hab].
    + destruct (IH Hin) as (x & Hx & Hxy). exists x. split; [now right|exact Hxy].
Qed.

Lemma tagged_union ot name :
  tagged ot ["i"; "u"; "f"; "O"; "S"; "U"; "M"] name =
  tagged ot ["i"; "u"; "f"] name || tagged ot ["O"; "S"; "U"] name || tagged ot ["M"] name.
Proof.
  unfold tagged. destruct (ot !! name) as [t|]; [|reflexivity].
  apply eq_true_iff_eq.
  rewrite !orb_true_iff, !bool_decide_eq_true, !elem_of_cons, !elem_of_nil. tauto.
Qed.

(** ** The four groups in sequence *)

Section Retype.

Context (env : Env) (errors : string) (p : policy) (ot : gmap string string).
Hypothesis Hpol : policy_of errors = Some p.

Local Abbreviation step1 := (group_step ["i"; "u"; "f"] (to_numeric env errors) ot).
Local Abbreviation step2 := (group_step ["O"; "S"; "U"] (astype_str env) ot).
Local Abbreviation step3 := (group_step ["M"] (to_datetime env errors) ot).
Local Abbreviation step4 := (group_step ["m"] (apply_cast_to_timedelta env) ot).

Lemma retype_chain frame frame' :
  dom ot ⊆ list_to_set (columns frame) ->
  retype env errors ot frame = Ok frame' <->
  nrows frame' = nrows frame /\
  exists l1 l2 l3,
    Forall2 step1 (cols frame) l1 /\ Forall2 step2 l1 l2 /\
    Forall2 step3 l2 l3 /\ Forall2 step4 l3 (cols frame').
Proof.
  intros Hdom. unfold retype, mbind, result_mbind, result_bind.
  split.
  - destruct (retype_group _ _ (to_numeric env errors) ot frame) as [f1|] eqn:H1; [|discriminate].
    pose proof (retype_group_columns _ _ _ _ _ _ Hdom H1) as C1.
    apply retype_group_Ok in H1 as [N1 H1]; [|exact Hdom].
    assert (dom ot ⊆ list_to_set (columns f1)) as Hdom1 by now rewrite C1.
    destruct (retype_group _ _ (astype_str env) ot f1) as [f2|] eqn:H2; [|discriminate].
    pose proof (retype_group_columns _ _ _ _ _ _ Hdom1 H2) as C2.
    apply retype_group_Ok in H2 as [N2 H2]; [|exact Hdom1].
    assert (dom ot ⊆ list_to_set (columns f2)) as Hdom2 by now rewrite C2.
    destruct (retype_group _ _ (to_datetime env errors) ot f2) as [f3|] eqn:H3; [|discriminate].
    pose proof (retype_group_columns _ _ _ _ _ _ Hdom2 H3) as C3.
    apply retype_group_Ok in H3 as [N3 H3]; [|exact Hdom2].
    assert (dom ot ⊆ list_to_set (columns f3)) as Hdom3 by now rewrite C3.
    intros H4. apply retype_group_Ok in H4 as [N4 H4]; [|exact Hdom3].
    split; [congruence|]. exists (cols f1), (cols f2), (cols f3). auto.
  - intros (Hn & l1 & l2 & l3 & H1 & H2 & H3 & H4).
    assert (forall (R : string * Series -> string * Series -> Prop) tags func fr l,
              dom ot ⊆ list_to_set (columns fr) ->
              R = group_step tags func ot ->
              Forall2 R (cols fr) l ->
              retype_group env tags func ot fr = Ok {| nrows := nrows fr; cols := l |} /\
              dom ot ⊆ list_to_set (columns {| nrows := nrows fr; cols := l |})) as Hstep.
    { intros R tags func fr l Hd -> HF.
      assert (retype_group env tags func ot fr = Ok {| nrows := nrows fr; cols := l |}) as Hok.
      { apply retype_group_Ok; [exact Hd|]. split; [reflexivity|exact HF]. }
      split; [exact Hok|]. now rewrite (retype_group_columns _ _ _ _ _ _ Hd Hok). }
    destruct (Hstep _ _ _ frame l1 Hdom eq_refl H1) as [-> Hd1].
    destruct (Hstep _ _ _ _ l2 Hd1 eq_refl H2) as [-> Hd2].
    destruct (Hstep _ _ _ _ l3 Hd2 eq_refl H3) as [-> Hd3].
    destruct (Hstep _ _ _ _ (cols frame') Hd3 eq_refl H4) as [-> _].
    cbn. destruct frame'; cbn in *. congruence.
Qed.

Lemma step_untagged tags func c c' :
  tagged ot tags c.1 = false -> group_step tags func ot c c' -> c' = c.
Proof. unfold group_step. now intros ->. Qed.

Lemma step_tagged tags func c c' :
  tagged ot tags c.1 = true -> group_step tags func ot c c' ->
  exists vs, func (values c.2) = Ok vs /\ c' = (c.1, {| dtype := dtype c.2; values := vs |}).
Proof. unfold group_step. now intros ->. Qed.

Lemma step4_id c c' : step4 c c' -> c' = c.
Proof.
  unfold step4, group_step. destruct (tagged ot ["m"] c.1); [|auto].
  intros (vs & [= <-] & ->). now destruct c as [n []].
Qed.

Lemma chain_retyped c0 c1 c2 c3 c4 :
  step1 c0 c1 -> step2 c1 c2 -> step3 c2 c3 -> step4 c3 c4 -> retyped env p ot c0 c4.
Proof.
  intros H1 H2 H3 H4. apply step4_id in H4. subst c4.
  pose proof (group_step_name _ _ _ _ _ H1) as N1.
  pose proof (group_step_name _ _ _ _ _ H2) as N2.
  pose proof (group_step_name _ _ _ _ _ H3) as N3.
  pose proof (tagged_exclusive ot c0.1) as Hex.
  pose proof (tagged_union ot c0.1) as Hun.
  unfold retyped.
  destruct (tagged ot ["i"; "u"; "f"] c0.1) eqn:T1;
  destruct (tagged ot ["O"; "S"; "U"] c0.1) eqn:T2;
  destruct (tagged ot ["M"] c0.1) eqn:T3;
  destruct (tagged ot ["m"] c0.1) eqn:T4; try contradiction; clear Hex.
  - (* numeric *)
    apply step_tagged in H1 as (vs & Hvs & ->); [|exact T1].
    apply step_untagged in H2; [|exact T2]. subst c2.
    apply step_untagged in H3; [|exact T3]. subst c3.
    cbn. repeat split; try discriminate.
    + intros _. eapply to_numeric_Ok; [exact Hpol|exact Hvs].
    + cbn in Hun. congruence.
  - (* text *)
    apply step_untagged in H1; [|exact T1]. subst c1.
    apply step_tagged in H2 as (vs & [= <-] & ->); [|exact T2].
    apply step_untagged in H3; [|exact T3]. subst c3.
    cbn. repeat split; try discriminate. cbn in Hun. congruence.
  - (* datetime *)
    apply step_untagged in H1; [|exact T1]. subst c1.
    apply step_untagged in H2; [|exact T2]. subst c2.
    apply step_tagged in H3 as (vs & Hvs & ->); [|exact T3].
    cbn. repeat split; try discriminate.
    + intros _. eapply convert_column_Ok; [exact Hpol|exact Hvs].
    + cbn in Hun. congruence.
  - (* duration *)
    apply step_untagged in H1; [|exact T1]. subst c1.
    apply step_untagged in H2; [|exact T2]. subst c2.
    apply step_untagged in H3; [|exact T3]. subst c3.
    repeat split; try discriminate.
  - apply step_untagged in H1; [|exact T1]. subst c1.
    apply step_untagged in H2; [|exact T2]. subst c2.
    apply step_untagged in H3; [|exact T3]. subst c3.
    repeat split; try discriminate.
Qed.

Lemma retype_Ok_retyped frame frame' :
  dom ot ⊆ list_to_set (columns frame) ->
  retype env errors ot frame = Ok frame' ->
  nrows frame' = nrows frame /\
  Forall2 (retyped env p ot) (cols frame) (cols frame').
Proof.
  intros Hdom H. apply retype_chain in H as (Hn & l1 & l2 & l3 & H1 & H2 & H3 & H4); [|exact Hdom].
  split; [exact Hn|].
  pose proof (Forall2_compose _ _ _ _ _ (Forall2_compose _ _ _ _ _
                (Forall2_compose _ _ _ _ _ H1 H2) H3) H4) as H.
  eapply Forall2_impl; [exact H|].
  intros c0 c4 (c3 & (c2 & (c1 & A1 & A2) & A3) & A4).
  eapply chain_retyped; eassumption.
Qed.

Lemma astype_group_Ok frame :
  dom ot ⊆ list_to_set (columns frame) ->
  exists frame', retype_group env ["O"; "S"; "U"] (astype_str env) ot frame = Ok frame'.
Proof.
  intros Hdom.
  destruct (retype_group _ _ (astype_str env) ot frame) as [f|e] eqn:H; [eauto|].
  apply retype_group_Raise in H as (c & _ & _ & H); [|exact Hdom]. discriminate.
Qed.

Lemma timedelta_group_Ok frame :
  dom ot ⊆ list_to_set (columns frame) ->
  exists frame', retype_group env ["m"] (apply_cast_to_timedelta env) ot frame = Ok frame'.
Proof.
  intros Hdom.
  destruct (retype_group _ _ (apply_cast_to_timedelta env) ot frame) as [f|e] eqn:H; [eauto|].
  apply retype_group_Raise in H as (c & _ & _ & H); [|exact Hdom]. discriminate.
Qed.

Lemma retype_Raise frame e :
  dom ot ⊆ list_to_set (columns frame) ->
  retype env errors ot frame = Raise e ->
  p = policy_raise /\ Exists (fun c => parse_error_of env ot c e) (cols frame).
Proof.
  intros Hdom. unfold retype, mbind, result_mbind, result_bind.
  destruct (retype_group _ _ (to_numeric env errors) ot frame) as [f1|e1] eqn:H1.
  2: { intros [= <-].
       apply retype_group_Raise in H1 as (c & Hin & Ht & Hc); [|exact Hdom].
       apply (to_numeric_Raise _ _ p) in Hc as (Hp & Hex); [|exact Hpol].
       split; [exact Hp|].
       apply Exists_exists. exists c. split; [exact Hin|]. left. auto. }
  pose proof (retype_group_columns _ _ _ _ _ _ Hdom H1) as C1.
  apply retype_group_Ok in H1 as [N1 H1]; [|exact Hdom].
  assert (dom ot ⊆ list_to_set (columns f1)) as Hdom1 by now rewrite C1.
  destruct (retype_group _ _ (astype_str env) ot f1) as [f2|e2] eqn:H2.
  2: { destruct (astype_group_Ok f1 Hdom1) as [f2 Hf2]. congruence. }
  pose proof (retype_group_columns _ _ _ _ _ _ Hdom1 H2) as C2.
  apply retype_group_Ok in H2 as [N2 H2]; [|exact Hdom1].
  assert (dom ot ⊆ list_to_set (columns f2)) as Hdom2 by now rewrite C2.
  destruct (retype_group _ _ (to_datetime env errors) ot f2) as [f3|e3] eqn:H3.
  2: { intros [= <-].
       apply retype_group_Raise in H3 as (c2 & Hin2 & Ht & Hc); [|exact Hdom2].
       apply (convert_column_Raise _ _ p) in Hc as (Hp & Hex); [|exact Hpol].
       split; [exact Hp|].
       destruct (Forall2_elem_of_r _ _ _ _ H2 Hin2) as (c1 & Hin1 & S2).
       destruct (Forall2_elem_of_r _ _ _ _ H1 Hin1) as (c0 & Hin0 & S1).
       pose proof (group_step_name _ _ _ _ _ S1) as E1.
       pose proof (group_step_name _ _ _ _ _ S2) as E2.
       pose proof (tagged_exclusive ot c0.1) as Hx.
       rewrite E2, E1 in Ht. rewrite Ht in Hx.
       destruct (tagged ot ["i"; "u"; "f"] c0.1) eqn:T1;
         destruct (tagged ot ["O"; "S"; "U"] c0.1) eqn:T2;
         destruct (tagged ot ["m"] c0.1) eqn:T4; try contradiction.
       apply step_untagged in S1; [|exact T1]. subst c1.
       apply step_untagged in S2; [|exact T2]. subst c2.
       apply Exists_exists. exists c0. split; [exact Hin0|]. right. auto. }
  pose proof (retype_group_columns _ _ _ _ _ _ Hdom2 H3) as C3.
  assert (dom ot ⊆ list_to_set (columns f3)) as Hdom3 by now rewrite C3.
  intros H4. destruct (timedelta_group_Ok f3 Hdom3) as [f4 Hf4]. congruence.
Qed.

Lemma retype_raises frame :
  dom ot ⊆ list_to_set (columns frame) ->
  p = policy_raise ->
  Exists (fails_to_parse env ot) (cols frame) ->
  exists e, retype env errors ot frame = Raise e.
Proof.
  intros Hdom Hp Hex.
  destruct (retype env errors ot frame) as [frame'|e] eqn:H; [|eauto].
  exfalso.
  apply retype_Ok_retyped in H as [_ H]; [|exact Hdom].
  apply Exists_exists in Hex as (c & Hin & Hf).
  destruct (Forall2_elem_of_l _ _ _ _ H Hin) as (c' & _ & _ & Hnum & _ & Hdt & _).
  rewrite Hp in Hnum, Hdt. cbn in Hnum, Hdt.
  assert (forall (cell : pyval -> option pyval) col col',
            Exists (fun v => cell v = None) col ->
            Forall2 (fun v v' => cell v = Some v') col col' -> False) as Hno.
  { intros cell col col' He HF. induction HF as [|v v' col col' Hv _ IH].
    - inversion He.
    - inversion He; subst; [congruence|auto]. }
  destruct Hf as [[Ht He]|[Ht He]].
  + destruct (Hnum Ht) as (cells & Hc & _). apply (Hno _ _ _ He Hc).
  + apply (Hno _ _ _ He (Hdt Ht)).
Qed.

End Retype.

Lemma DataFrame_of_records_empty env rows :
  empty (DataFrame_of_records env rows) = true -> cols (DataFrame_of_records env rows) = [].
Proof.
  unfold empty, DataFrame_of_records. cbn. intros [H|H]%orb_true_iff.
  - apply Nat.eqb_eq in H. destruct rows; [reflexivity|discriminate].
  - apply Nat.eqb_eq in H. now apply length_zero_iff_nil in H.
Qed.

(** ** The error policy of the decoder *)




(** The cells of [n] under the three policies: ["12"] beside ["x"], which
    is no number. *)
Example retyping_coerce :
  match decode_response (Samples.env Samples.silent_widget)
          (Samples.with_errors "coerce" (Samples.args Samples.scenario)) Samples.mixed_response with
  | Ok res => Some (frame_values (data res))
  | Raise _ => None
  end
  = Some (2%nat, [("n", [PyFloat (float_of_Z 12); NaN]); ("s", [PyStr "5"; PyStr "b"])]).
Proof. vm_compute. reflexivity. Qed.

Example retyping_ignore :
  match decode_response (Samples.env Samples.silent_widget)
          (Samples.with_errors "ignore" (Samples.args Samples.scenario)) Samples.mixed_response with
  | Ok res => Some (frame_values (data res))
  | Raise _ => None
  end
  = Some (2%nat, [("n", [PyStr "12"; PyStr "x"]); ("s", [PyStr "5"; PyStr "b"])]).
Proof. vm_compute. reflexivity. Qed.

Example retyping_raise :
  decode_response (Samples.env Samples.silent_widget)
    (Samples.with_errors "raise" (Samples.args Samples.scenario)) Samples.mixed_response
  = Raise (ValueError ("Unable to parse string " ++ Samples.dquote ++ "x" ++ Samples.dquote
                       ++ " at position 1")).
Proof. vm_compute. reflexivity. Qed.

(** ** Not-a-number cells *)

(** X3.  A cell that is a NaN float is sent as the text ["nan"]; under
    policy ['coerce'] a numeric-tagged column of such texts comes back as
    NaN values, whether pandas reads ["nan"] as a number or not. *)
Theorem nan_column_round_trip env n :
  (parse_numeric env "nan" = Some NaN \/ parse_numeric env "nan" = None) ->
  mapM (cast_to_serializable env) (replicate n NaN) = Ok (replicate n (PyStr "nan")) /\
  to_numeric env "coerce" (replicate n (PyStr "nan")) = Ok (replicate n NaN).
Proof.
  intros Hnan. split.
  - induction n as [|n IH]; cbn; [reflexivity|]. cbn in IH. now rewrite IH.
  - unfold to_numeric, convert_column. cbn [policy_of String.eqb Ascii.eqb Bool.eqb].
    assert (map (fun v => default NaN (numeric_cell env v)) (replicate n (PyStr "nan"))
            = replicate n NaN) as Hmap.
    { induction n as [|n IH]; cbn; [reflexivity|]. rewrite IH.
      destruct Hnan as [-> | ->]; reflexivity. }
    assert (Forall (fun v => is_float v = true) (replicate n NaN)) as Hfl.
    { apply Forall_forall. now intros v [-> _]%elem_of_replicate. }
    destruct (first_failure _ 0 _) as [[i v]|]; cbn; rewrite Hmap;
      now rewrite (promote_floats env _ _ Hfl).
Qed.

(** Two NaN cells. *)
Lemma nan_column_round_trip_witness :
  mapM (cast_to_serializable (Samples.env Samples.silent_widget)) (replicate 2 NaN)
    = Ok (replicate 2 (PyStr "nan")) /\
  to_numeric (Samples.env Samples.silent_widget) "coerce" (replicate 2 (PyStr "nan"))
    = Ok (replicate 2 NaN).
Proof.
  apply (nan_column_round_trip (Samples.env Samples.silent_widget) 2).
  left. reflexivity.
Defined.

(** ** Lists, keys and rows *)

Lemma dumps_loads_record (r : record) :
  Forall (fun kv => json_safe kv.2) r ->
  exists members, dumps_record r = Ok (JObj members) /\
                  map (fun kv => (kv.1, loads_scalar kv.2)) members = r.
Proof.
  intros H. unfold dumps_record.
  match goal with |- context [mapM ?g r] => set (d := g) end.
  assert (exists ms, mapM d r = Ok ms /\ map (fun kv => (kv.1, loads_scalar kv.2)) ms = r)
    as (ms & -> & Hms).
  { induction H as [|[k v] r (j & Hj & Hl) _ (ms & Hms & Hr)]; cbn.
    - exists []. split; reflexivity.
    - exists ((k, j) :: ms). unfold d at 1. cbn in *. rewrite Hj, Hms.
      split; [reflexivity|]. cbn. now rewrite Hl, Hr. }
  eauto.
Qed.

Lemma dumps_loads_rows (rows : list record) :
  Forall (Forall (fun kv => json_safe kv.2)) rows ->
  exists doc, simplejson_dumps rows = Ok doc /\ records_of_json doc = rows.
Proof.
  intros H. unfold simplejson_dumps.
  assert (exists items, mapM dumps_record rows = Ok items /\
                        records_of_json (JArr items) = rows) as (items & -> & Hi).
  { induction H as [|r rows Hr _ (items & Hitems & Hrows)]; cbn.
    - exists []. split; reflexivity.
    - destruct (dumps_loads_record r Hr) as (ms & Hms & Hl).
      exists (JObj ms :: items). rewrite Hms, Hitems. split; [reflexivity|].
      cbn in *. now rewrite Hl, Hrows. }
  eauto.
Qed.

Lemma filter_all {A} (P : A -> Prop) `{forall x, Decision (P x)} (l : list A) :
  Forall P l -> filter P l = l.
Proof.
  induction 1 as [|x l Hx _ IH]; [reflexivity|].
  rewrite filter_cons_True by exact Hx. now rewrite IH.
Qed.

Lemma filter_none {A} (P : A -> Prop) `{forall x, Decision (P x)} (l : list A) :
  Forall (fun x => ~ P x) l -> filter P l = [].
Proof.
  induction 1 as [|x l Hx _ IH]; [reflexivity|].
  rewrite filter_cons_False by exact Hx. exact IH.
Qed.

Lemma unique_first_elem_of x l : x ∈ unique_first l -> x ∈ l.
Proof.
  induction l as [|a l IH]; cbn; [auto|].
  intros [->|Hin]%elem_of_cons; [left|].
  apply list_elem_of_filter in Hin as [_ Hin]. right. auto.
Qed.

Lemma unique_first_app l1 l2 :
  unique_first (l1 ++ l2)%list =
  (unique_first l1 ++ filter (fun x => x ∉ l1) (unique_first l2))%list.
Proof.
  induction l1 as [|a l1 IH]; cbn.
  - symmetry. apply filter_all. apply Forall_forall. intros x _. apply not_elem_of_nil.
  - f_equal. rewrite IH, filter_app. f_equal.
    rewrite list_filter_filter. apply list_filter_iff.
    intros x. rewrite not_elem_of_cons. tauto.
Qed.

Lemma unique_first_NoDup l : NoDup l -> unique_first l = l.
Proof.
  induction 1 as [|a l Ha _ IH]; cbn; [reflexivity|].
  rewrite IH. f_equal. apply filter_all. apply Forall_forall. intros x Hx ->. contradiction.
Qed.

Lemma unique_first_replicate n l :
  NoDup l -> unique_first (concat (replicate (S n) l)) = l.
Proof.
  intros Hnd. cbn. rewrite unique_first_app, (unique_first_NoDup l Hnd).
  rewrite filter_none; [apply app_nil_r|].
  apply Forall_forall. intros x Hx%unique_first_elem_of Hn. apply Hn. clear Hn.
  induction n as [|n IH]; cbn in Hx; [now apply elem_of_nil in Hx|].
  apply elem_of_app in Hx as [Hx|Hx]; auto.
Qed.

Lemma map_nth_seq {A} (l : list A) d :
  map (fun i => nth i l d) (seq 0 (length l)) = l.
Proof.
  induction l as [|a l IH]; cbn; [reflexivity|].
  f_equal. rewrite <- seq_shift, map_map. exact IH.
Qed.

Lemma frame_dtypes_dom df : dom (frame_dtypes df) ⊆ list_to_set (columns df).
Proof.
  intros name Hin. apply elem_of_dom in Hin as [t Ht].
  apply frame_dtypes_Some in Ht as (s & Hs & _).
  apply elem_of_list_to_set. unfold columns. apply list_elem_of_fmap. exists (name, s). auto.
Qed.

Lemma Forall2_with_elem_of {A B} (R : A -> B -> Prop) l l' :
  Forall2 R l l' -> Forall2 (fun x y => x ∈ l /\ R x y) l l'.
Proof.
  induction 1 as [|x y l l' Hxy _ IH]; constructor.
  - split; [left|exact Hxy].
  - eapply Forall2_impl; [exact IH|]. cbn. intros a b [Ha Hab]. split; [now right|exact Hab].
Qed.

Lemma coerced_back (cell : pyval -> option pyval) null vs rs vs' :
  Forall2 (fun v r => cell r = Some v) vs rs ->
  Forall2 (fun r v' => match cell r with Some x => v' = x | None => v' = null end) rs vs' ->
  vs' = vs.
Proof.
  intros H. revert vs'. induction H as [|v r vs rs Hr _ IH]; intros vs' H'; inversion H'; subst.
  - reflexivity.
  - rewrite Hr in *. f_equal; [congruence|]. now apply IH.
Qed.

Lemma tagged_lookup (ot : gmap string string) tags name k :
  ot !! name = Some k -> tagged ot tags name = bool_decide (k ∈ tags).
Proof. unfold tagged. now intros ->. Qed.

(** ** Warnings and default grid options *)

Lemma after_warning_warnings a w :
  warnings (after_warning a w) =
  if width_truthy (width a) then deprecation :: warnings w else warnings w.
Proof. unfold after_warning. destruct (width_truthy (width a)); reflexivity. Qed.

Lemma after_walk_warnings a w : warnings (after_walk a w) = warnings w.
Proof.
  unfold after_walk. destruct (allow_unsafe_jscode a); [|reflexivity].
  destruct (caller_gridOptions w); reflexivity.
Qed.

Lemma prepare_warnings env a w :
  warnings (prepare env a w).2 =
  if width_truthy (width a) then deprecation :: warnings w else warnings w.
Proof.
  rewrite prepare_eq.
  destruct (encode_rows env (dataframe a)); cbn [snd]; [validation_cases env a|];
    rewrite ?after_walk_warnings; apply after_warning_warnings.
Qed.

(** X4.  Lines 140-143: a call adds the deprecation warning for [width]
    exactly when [width] is given and not zero, once, and adds no other
    warning - whether the call returns or raises. *)
Theorem width_warns_once env a w :
  warnings (AgGrid env a w).2 =
  match width a with
  | Some z => if (z =? 0) then warnings w else deprecation :: warnings w
  | None => warnings w
  end.
Proof.
  assert (warnings (AgGrid env a w).2 = warnings (prepare env a w).2) as ->.
  { rewrite AgGrid_eq. destruct (prepare env a w) as [[p|e] w1]; [|reflexivity].
    cbn zeta. destruct (_component_func env p) as [v|[]]; reflexivity. }
  rewrite prepare_warnings. unfold width_truthy.
  destruct (width a) as [z|]; [|reflexivity]. now destruct (z =? 0).
Qed.

(** X5.  Lines 152-155: when the caller passes [gridOptions], the extra
    keyword arguments are never read: the call behaves the same, result
    and world, whatever they are. *)
Theorem kwargs_unused_with_gridOptions env a w g kwargs :
  caller_gridOptions w = Some g ->
  AgGrid env (Samples.with_kwargs kwargs a) w = AgGrid env a w.
Proof.
  intros Hg.
  assert (prepare env (Samples.with_kwargs kwargs a) w = prepare env a w) as Hp.
  { rewrite !prepare_eq. cbn [dataframe theme data_return_mode update_mode
                               Samples.with_kwargs].
    assert (forall rd th drm um,
              payload_of env (Samples.with_kwargs kwargs a) w rd th drm um
              = payload_of env a w rd th drm um) as Hpay.
    { intros. unfold payload_of, sent_gridOptions. rewrite Hg. reflexivity. }
    destruct (encode_rows env (dataframe a)); [|reflexivity].
    cbn zeta.
    destruct (check_theme (theme a)); [|reflexivity].
    destruct (resolve_data_return_mode env (data_return_mode a)) as [drm|]; [|reflexivity].
    destruct (resolve_update_mode env drm (update_mode a)); [|reflexivity].
    now rewrite Hpay. }
  rewrite !AgGrid_eq, Hp. reflexivity.
Qed.

(** Column defaults passed along with grid options. *)
Lemma kwargs_unused_with_gridOptions_witness :
  AgGrid (Samples.env Samples.silent_widget)
    (Samples.with_kwargs [("editable", PyBool true)] (Samples.args Samples.scenario))
    (Samples.holding Samples.options_with_code)
  = AgGrid (Samples.env Samples.silent_widget) (Samples.args Samples.scenario)
      (Samples.holding Samples.options_with_code).
Proof.
  apply (kwargs_unused_with_gridOptions (Samples.env Samples.silent_widget)
           (Samples.args Samples.scenario) (Samples.holding Samples.options_with_code)
           Samples.options_with_code [("editable", PyBool true)]).
  reflexivity.
Defined.

(** ** Type tags of repeated column names *)

Lemma frame_dtypes_has_every_column df : dom (frame_dtypes df) = list_to_set (columns df).
Proof.
  apply set_eq. intros name. split.
  - apply frame_dtypes_dom.
  - intros Hin%elem_of_list_to_set. apply elem_of_dom.
    unfold frame_dtypes, dict. rewrite zip_columns_kinds.
    destruct (list_to_map _ !! name) eqn:Hl; [eauto|].
    apply not_elem_of_list_to_map in Hl. exfalso. apply Hl.
    rewrite fmap_reverse, elem_of_reverse, <- list_fmap_compose.
    unfold columns in Hin. erewrite list_fmap_ext; [exact Hin|]. now intros i [].
Qed.

(** X6.  Line 150: the tag map has an entry for every column name and for
    nothing else; where a name is carried by several columns, its tag is
    the kind of the last of them. *)
Theorem duplicate_column_names_keep_last_tag df before name s after :
  cols df = (before ++ (name, s) :: after)%list ->
  name ∉ after.*1 ->
  frame_dtypes df !! name = Some (kind (dtype s)) /\
  dom (frame_dtypes df) = list_to_set (columns df).
Proof.
  intros Hcols Hlast. split; [|apply frame_dtypes_has_every_column].
  unfold frame_dtypes, dict. rewrite zip_columns_kinds, Hcols.
  rewrite fmap_app, fmap_cons, reverse_app, reverse_cons. cbn [fst snd].
  rewrite <- app_assoc. rewrite list_to_map_app.
  apply lookup_union_Some_raw. right. split.
  - apply not_elem_of_list_to_map. rewrite fmap_reverse, elem_of_reverse, <- list_fmap_compose.
    erewrite list_fmap_ext; [exact Hlast|]. now intros i [].
  - cbn. apply lookup_insert_eq.
Qed.

(** Two columns named [x], a signed-int one and then an object one. *)
Lemma duplicate_column_names_keep_last_tag_witness :
  frame_dtypes Samples.twice_named !! "x" = Some "O" /\
  dom (frame_dtypes Samples.twice_named) = list_to_set (columns Samples.twice_named).
Proof.
  apply (duplicate_column_names_keep_last_tag Samples.twice_named
           [("x", {| dtype := dt_int 64; values := [PyInt 1] |})]
           "x" {| dtype := dt_object; values := [PyStr "a"] |} []).
  - reflexivity.
  - apply not_elem_of_nil.
Defined.

(** ** The rows on the wire *)

(** *** Ordered dictionaries *)

Lemma dict_set_fresh {V} k (v : V) d :
  k ∉ d.*1 -> dict_set k v d = (d ++ [(k, v)])%list.
Proof.
  induction d as [|[k' v'] d IH]; cbn; [reflexivity|].
  intros Hk. apply not_elem_of_cons in Hk as [Hne Hk].
  destruct (String.eqb k' k) eqn:Heq.
  - apply String.eqb_eq in Heq. congruence.
  - now rewrite IH.
Qed.

Lemma dict_items_NoDup {V} (l : list (string * V)) : NoDup l.*1 -> dict_items l = l.
Proof.
  unfold dict_items.
  assert (forall (acc : list (string * V)), NoDup ((acc ++ l)%list).*1 ->
            fold_left (fun d kv => dict_set kv.1 kv.2 d) l acc = (acc ++ l)%list) as H.
  { induction l as [|[k v] l IH]; intros acc Hnd; cbn.
    - now rewrite app_nil_r.
    - rewrite dict_set_fresh.
      + rewrite IH; rewrite <- app_assoc; [reflexivity|exact Hnd].
      + rewrite fmap_app in Hnd. apply NoDup_app in Hnd as (_ & Hd & _).
        intros Hin. apply (Hd k Hin). left. }
  intros Hnd. now apply (H []).
Qed.

Lemma row_at_NoDup df i :
  NoDup (columns df) ->
  row_at df i = map (fun c => (c.1, nth i (values c.2) NaN)) (cols df).
Proof.
  intros Hnd. unfold row_at. apply dict_items_NoDup.
  replace ((map (fun c : string * Series => (c.1, nth i (values c.2) NaN)) (cols df)).*1)
    with (columns df); [exact Hnd|].
  unfold columns. induction (cols df) as [|c l IH]; cbn; [reflexivity|]. now rewrite IH.
Qed.

Lemma row_at_keys df i : NoDup (columns df) -> map fst (row_at df i) = columns df.
Proof.
  intros Hnd. rewrite (row_at_NoDup df i Hnd). unfold columns.
  induction (cols df) as [|c l IH]; cbn; [reflexivity|]. now rewrite IH.
Qed.

Lemma to_dict_records_columns df :
  cols df <> [] -> to_dict_records df = map (row_at df) (seq 0 (nrows df)).
Proof. unfold to_dict_records. now destruct (cols df). Qed.

Lemma to_dict_records_length df :
  length (to_dict_records df) = match cols df with [] => 0%nat | _ => nrows df end.
Proof.
  unfold to_dict_records. destruct (cols df); [reflexivity|].
  now rewrite length_map, length_seq.
Qed.

Lemma to_dict_records_row df row :
  row ∈ to_dict_records df -> exists i, (i < nrows df)%nat /\ row = row_at df i.
Proof.
  unfold to_dict_records. destruct (cols df).
  - intros H. now apply elem_of_nil in H.
  - intros (i & <- & Hi)%list_elem_of_In%in_map_iff. apply in_seq in Hi.
    exists i. split; [lia|reflexivity].
Qed.

Lemma record_cell df row kv :
  NoDup (columns df) -> full_columns df -> row ∈ to_dict_records df -> kv ∈ row ->
  exists c, c ∈ cols df /\ kv.1 = c.1 /\ kv.2 ∈ values c.2.
Proof.
  intros Hnd Hlen (i & Hi & ->)%to_dict_records_row Hkv.
  rewrite (row_at_NoDup df i Hnd) in Hkv.
  apply list_elem_of_In, in_map_iff in Hkv as (c & <- & Hc).
  apply list_elem_of_In in Hc. exists c. split; [exact Hc|]. split; [reflexivity|]. cbn.
  unfold full_columns in Hlen. rewrite Forall_forall in Hlen. specialize (Hlen _ Hc).
  apply list_elem_of_In, nth_In. lia.
Qed.

Lemma cell_record df c r :
  NoDup (columns df) -> full_columns df -> c ∈ cols df -> r ∈ values c.2 ->
  exists row, row ∈ to_dict_records df /\ (c.1, r) ∈ row.
Proof.
  intros Hnd Hlen Hc Hr. unfold full_columns in Hlen. rewrite Forall_forall in Hlen.
  specialize (Hlen _ Hc).
  apply list_elem_of_In, (In_nth _ _ NaN) in Hr as (i & Hi & Hnth).
  exists (row_at df i). split.
  - rewrite to_dict_records_columns by (intros E; rewrite E in Hc; now apply elem_of_nil in Hc).
    apply list_elem_of_In, in_map_iff. exists i.
    split; [reflexivity|]. apply in_seq. lia.
  - rewrite (row_at_NoDup df i Hnd). apply list_elem_of_In, in_map_iff. exists c.
    split; [now rewrite Hnth|]. now apply list_elem_of_In.
Qed.

(** *** What unification does to a column *)

Lemma float_of_Z_finite z :
  - 2 ^ 64 < z < 2 ^ 64 -> float_is_finite (float_of_Z z) = true.
Proof.
  intros Hz.
  assert (forall s p, Zpos p < 2 ^ 64 -> float_is_finite (float_of_pos s p) = true) as H.
  { intros s p Hp. unfold float_of_pos.
    assert (Z.log2 (Zpos p) < 64) as Hl by (apply Z.log2_lt_pow2; lia).
    destruct (_ <=? 0); [reflexivity|]. cbv zeta.
    destruct (_ =? 2 ^ 53).
    - destruct (971 <? _) eqn:E; [|reflexivity]. apply Z.ltb_lt in E. lia.
    - destruct (971 <? _) eqn:E; [|reflexivity]. apply Z.ltb_lt in E. lia. }
  destruct z as [|p|p]; cbn; [reflexivity| |]; apply H; lia.
Qed.

(** [float_of_Z] against the rounding of the Standard Library. *)
Example float_of_Z_agrees :
  map float_of_Z [0; 1; -1; 12; 2 ^ 53 + 1; 2 ^ 53 + 3; 2 ^ 63 - 1; 2 ^ 64 - 1; 10 ^ 30; 10 ^ 309]
  = map (fun z => binary_normalize 53 1024 z 0 false)
        [0; 1; -1; 12; 2 ^ 53 + 1; 2 ^ 53 + 3; 2 ^ 63 - 1; 2 ^ 64 - 1; 10 ^ 30; 10 ^ 309].
Proof. vm_compute. reflexivity. Qed.

(** A column comes out of the unification as it was, or with every cell
    made complex, or with every cell made a float; the last two only when
    it holds neither text nor any other object. *)
Lemma maybe_convert_objects_cases env col :
  maybe_convert_objects env col = col \/
  (existsb is_text_or_object col = false /\ existsb is_complex col = true /\
   maybe_convert_objects env col = map to_complex col) \/
  (existsb is_text_or_object col = false /\ existsb is_complex col = false /\
   maybe_convert_objects env col = map to_float col).
Proof.
  unfold maybe_convert_objects, to_widest.
  destruct (existsb is_text_or_object col); [now left|].
  destruct (existsb is_bool col); [now left|].
  destruct (existsb is_wide col).
  - destruct (forallb is_uint64 col); [now left|].
    destruct (convert_objects_wide env col); [|now left].
    destruct (existsb is_complex col); [right; left|right; right]; auto.
  - destruct (existsb is_complex col); [right; left; auto|].
    destruct (_ || _); [right; right; auto|now left].
Qed.

Lemma maybe_convert_objects_length env col :
  length (maybe_convert_objects env col) = length col.
Proof.
  destruct (maybe_convert_objects_cases env col) as [->|[(_ & _ & ->)|(_ & _ & ->)]];
    rewrite ?length_map; reflexivity.
Qed.

Lemma existsb_false_elem_of {A} (f : A -> bool) l x :
  existsb f l = false -> x ∈ l -> f x = false.
Proof.
  intros H Hin. destruct (f x) eqn:Hx; [|reflexivity].
  assert (existsb f l = true) as H'; [|congruence].
  apply existsb_exists. exists x. split; [now apply list_elem_of_In|exact Hx].
Qed.

Lemma dumps_plain_number r :
  is_text_or_object r = false -> is_complex r = false -> exists j, dumps_scalar r = Ok j.
Proof. destruct r; cbn; try discriminate; eauto. Qed.

Lemma dumps_to_complex r j :
  is_text_or_object r = false -> dumps_scalar (to_complex r) = Ok j -> False.
Proof. destruct r; cbn; discriminate. Qed.

Lemma dumps_to_float r :
  is_text_or_object r = false -> is_complex r = false ->
  exists j, dumps_scalar (to_float r) = Ok j.
Proof. destruct r; cbn; try discriminate; eauto. Qed.

(** The unified column serializes exactly when the column does. *)
Lemma maybe_convert_objects_dumps env col :
  Forall (fun r => exists j, dumps_scalar r = Ok j) col <->
  Forall (fun r => exists j, dumps_scalar r = Ok j) (maybe_convert_objects env col).
Proof.
  destruct (maybe_convert_objects_cases env col)
    as [->|[(Htext & Hcx & ->)|(Htext & Hcx & ->)]]; [reflexivity| |].
  - apply existsb_exists in Hcx as (x & Hx%list_elem_of_In & Hcx).
    split; intros H; exfalso; rewrite Forall_forall in H.
    + destruct (H x Hx) as [j Hj]. destruct x; cbn in *; discriminate.
    + assert (to_complex x ∈ map to_complex col) as Hin
        by (apply list_elem_of_In, in_map, list_elem_of_In, Hx).
      destruct (H _ Hin) as [j Hj].
      exact (dumps_to_complex x j (existsb_false_elem_of _ _ _ Htext Hx) Hj).
  - rewrite !Forall_forall. split; intros H.
    + intros r' (r & <- & Hr%list_elem_of_In)%list_elem_of_In%in_map_iff.
      apply dumps_to_float; eapply existsb_false_elem_of; eassumption.
    + intros r Hr. apply dumps_plain_number; eapply existsb_false_elem_of; eassumption.
Qed.

(** *** The encoder, column by column *)

Lemma applymap_Ok env func df jf :
  applymap env func df = Ok jf ->
  nrows jf = nrows df /\
  Forall2 (fun c cj => cj.1 = c.1 /\
             exists rs, Forall2 (fun v r => func v = Ok r) (values c.2) rs /\
                        cj.2 = Series_of env rs)
          (cols df) (cols jf).
Proof.
  unfold applymap. destruct (mapM _ (cols df)) as [cs|e] eqn:Hm; [|discriminate].
  intros [= <-]. split; [reflexivity|]. cbn.
  apply mapM_Ok_Forall2 in Hm. eapply Forall2_impl; [exact Hm|].
  intros c cj. cbn. destruct (mapM func (values c.2)) as [vs|] eqn:Hvs; [|discriminate].
  intros [= <-]. split; [reflexivity|]. exists vs. split; [|reflexivity].
  now apply mapM_Ok_Forall2 in Hvs.
Qed.

Lemma applymap_Raise env func df e :
  applymap env func df = Raise e ->
  exists c v, c ∈ cols df /\ v ∈ values c.2 /\ func v = Raise e.
Proof.
  unfold applymap. destruct (mapM _ (cols df)) as [cs|e'] eqn:Hm; [discriminate|].
  intros [= ->]. apply mapM_Raise in Hm as (c & Hc & Hm).
  destruct (mapM func (values c.2)) as [vs|e'] eqn:Hvs; [discriminate|].
  injection Hm as ->. apply mapM_Raise in Hvs as (v & Hv & Hf). eauto.
Qed.

Lemma applymap_columns env func df jf :
  applymap env func df = Ok jf -> columns jf = columns df.
Proof.
  intros [_ HF]%applymap_Ok. unfold columns.
  eapply Forall2_names; [|exact HF]. now intros c c' [H _].
Qed.

Lemma encoded_full_columns env func df jf :
  full_columns df -> applymap env func df = Ok jf -> full_columns jf.
Proof.
  intros Hlen [Hn HF]%applymap_Ok. unfold full_columns in *. rewrite Hn. clear Hn.
  induction HF as [|c cj l lj (_ & rs & Hcells & Hcj) _ IH]; [constructor|].
  apply Forall_cons in Hlen as [Hl Hlen]. constructor; [|now apply IH].
  rewrite Hcj. cbn. rewrite maybe_convert_objects_length, <- Hl. symmetry.
  eapply Forall2_length. exact Hcells.
Qed.

Lemma simplejson_dumps_Ok rows doc :
  simplejson_dumps rows = Ok doc ->
  exists items, doc = JArr items /\
    Forall2 (fun row item => exists members, item = JObj members /\
               Forall2 (fun kv m => m.1 = kv.1 /\ dumps_scalar kv.2 = Ok m.2) row members)
            rows items.
Proof.
  unfold simplejson_dumps. destruct (mapM dumps_record rows) as [items|] eqn:Hm; [|discriminate].
  intros [= <-]. exists items. split; [reflexivity|].
  apply mapM_Ok_Forall2 in Hm. eapply Forall2_impl; [exact Hm|].
  intros row item. unfold dumps_record.
  destruct (mapM _ row) as [members|] eqn:Hr; [|discriminate].
  intros [= <-]. exists members. split; [reflexivity|].
  apply mapM_Ok_Forall2 in Hr. eapply Forall2_impl; [exact Hr|].
  intros kv m. cbn. destruct (dumps_scalar kv.2); [|discriminate]. now intros [= <-].
Qed.

Lemma simplejson_dumps_Raise rows e :
  simplejson_dumps rows = Raise e ->
  exists row kv, row ∈ rows /\ kv ∈ row /\ dumps_scalar kv.2 = Raise e.
Proof.
  unfold simplejson_dumps. destruct (mapM dumps_record rows) as [items|e'] eqn:Hm; [discriminate|].
  intros [= ->]. apply mapM_Raise in Hm as (row & Hrow & Hm).
  unfold dumps_record in Hm. destruct (mapM _ row) as [members|e'] eqn:Hr; [discriminate|].
  injection Hm as ->. apply mapM_Raise in Hr as (kv & Hkv & Hd).
  exists row, kv. split; [exact Hrow|]. split; [exact Hkv|].
  destruct (dumps_scalar kv.2); congruence.
Qed.

Lemma cast_result env v r :
  cast_to_serializable env v = Ok r ->
  (exists s, r = PyStr s) \/
  (r = v /\ is_Number v = true /\ np_isnan v = Ok false /\ np_isinf v = Ok false).
Proof.
  destruct (callable (getattr_isoformat v)) eqn:Hc.
  - destruct (getattr_isoformat v) as [[text|t]|] eqn:Hg; try discriminate.
    rewrite (cast_isoformat env v text Hg). intros [= <-]. eauto.
  - rewrite (cast_not_callable env v Hc).
    destruct (is_Number v) eqn:Hn; [|intros [= <-]; eauto].
    destruct (np_isnan v) as [[]|e]; [intros [= <-]; eauto| |discriminate].
    destruct (np_isinf v) as [[]|e]; [intros [= <-]; eauto| |discriminate].
    intros [= <-]. right. repeat split; reflexivity.
Qed.

Lemma cast_dumps_no_null env v r j :
  cast_to_serializable env v = Ok r -> dumps_scalar r = Ok j -> no_null j = true.
Proof.
  intros [[s ->]|(-> & Hn & Hnan & Hinf)]%cast_result.
  - now intros [= <-].
  - destruct v as [|b|z|f|re im|s|o]; cbn in *; try discriminate; try (now intros [= <-]).
    injection Hnan as Hnan. injection Hinf as Hinf.
    unfold float_is_finite. rewrite Hnan, Hinf. now intros [= <-].
Qed.

(** What [cast_to_serializable] hands on, once made a float, is finite. *)
Lemma cast_to_float_no_null env v r j :
  cast_to_serializable env v = Ok r ->
  is_text_or_object r = false -> is_complex r = false ->
  dumps_scalar (to_float r) = Ok j -> no_null j = true.
Proof.
  intros [[s ->]|(-> & Hn & Hnan & Hinf)]%cast_result; [discriminate|].
  destruct v as [|b|z|f|re im|s|o]; cbn in *; try discriminate.
  - intros _ _. rewrite float_of_Z_finite by (destruct b; lia). now intros [= <-].
  - intros _ _. destruct (fits_int64_or_uint64 z) eqn:Hz; [|discriminate].
    unfold fits_int64_or_uint64 in Hz. apply andb_true_iff in Hz as [H1 H2].
    apply Z.leb_le in H1. apply Z.ltb_lt in H2.
    rewrite float_of_Z_finite by lia. now intros [= <-].
  - intros _ _. injection Hnan as Hnan. injection Hinf as Hinf.
    unfold float_is_finite. rewrite Hnan, Hinf. now intros [= <-].
Qed.

Lemma sendable_sound env v :
  sendable v = true ->
  exists r j, cast_to_serializable env v = Ok r /\ dumps_scalar r = Ok j.
Proof.
  unfold sendable. destruct (callable (getattr_isoformat v)) eqn:Hc.
  - intros _. destruct (getattr_isoformat v) as [[text|t]|] eqn:Hg; try discriminate.
    rewrite (cast_isoformat env v text Hg). cbn. eauto.
  - rewrite (cast_not_callable env v Hc). cbn [orb].
    destruct v as [|b|z|f|re im|s|o]; cbn; eauto.
    + intros ->. eauto.
    + destruct (float_is_nan f); [eauto|]. destruct (float_is_inf f) eqn:Hi; [eauto|].
      eexists _, _. split; reflexivity.
    + unfold float_is_finite.
      destruct (float_is_nan re), (float_is_nan im); cbn; eauto;
        destruct (float_is_inf re), (float_is_inf im); cbn; eauto; discriminate.
    + intros ->%negb_true_iff. eauto.
Qed.

Lemma sendable_complete env v r j :
  cast_to_serializable env v = Ok r -> dumps_scalar r = Ok j -> sendable v = true.
Proof.
  unfold sendable. destruct (callable (getattr_isoformat v)) eqn:Hc; [reflexivity|].
  rewrite (cast_not_callable env v Hc). cbn [orb].
  destruct v as [|b|z|f|re im|s|o]; cbn; auto.
  - destruct (fits_int64_or_uint64 z); [reflexivity|discriminate].
  - unfold float_is_finite.
    destruct (float_is_nan re), (float_is_nan im); cbn; auto;
      destruct (float_is_inf re), (float_is_inf im); cbn; auto.
    intros [= <-]. discriminate.
  - destruct (obj_is_Number o); [discriminate|reflexivity].
Qed.

Lemma cast_raises_TypeError env v e :
  cast_to_serializable env v = Raise e -> exists msg, e = TypeError msg.
Proof.
  destruct (callable (getattr_isoformat v)) eqn:Hc.
  - destruct (getattr_isoformat v) as [[text|t]|] eqn:Hg; try discriminate.
    now rewrite (cast_isoformat env v text Hg).
  - rewrite (cast_not_callable env v Hc).
    destruct (is_Number v); [|discriminate].
    destruct v as [|b|z|f|re im|s|o]; cbn; try discriminate;
      try (intros [= <-]; unfold no_ufunc_loop; eauto).
    + destruct (fits_int64_or_uint64 z); [discriminate|intros [= <-]; unfold no_ufunc_loop; eauto].
    + destruct (float_is_nan f); [discriminate|]. destruct (float_is_inf f); discriminate.
    + destruct (float_is_nan re || float_is_nan im); [discriminate|].
      destruct (float_is_inf re || float_is_inf im); discriminate.
Qed.

Lemma dumps_raises_TypeError v e : dumps_scalar v = Raise e -> exists msg, e = TypeError msg.
Proof. destruct v; cbn; try discriminate; intros [= <-]; eauto. Qed.

(** The rows of the encoded table serialize exactly when every cell of
    the table is cast to something that does. *)
Lemma encoded_rows_dump env df jf :
  NoDup (columns df) -> full_columns df ->
  applymap env (cast_to_serializable env) df = Ok jf ->
  (exists doc, simplejson_dumps (to_dict_records jf) = Ok doc) <->
  Forall (fun c => Forall (fun v => exists r j, cast_to_serializable env v = Ok r /\
                                                dumps_scalar r = Ok j) (values c.2))
         (cols df).
Proof.
  intros Hnd Hlen Hj.
  pose proof (encoded_full_columns _ _ _ _ Hlen Hj) as Hfull.
  pose proof (applymap_columns _ _ _ _ Hj) as Hcols.
  assert (NoDup (columns jf)) as Hndj by now rewrite Hcols.
  apply applymap_Ok in Hj as [Hn HF].
  assert ((exists doc, simplejson_dumps (to_dict_records jf) = Ok doc) <->
          Forall (fun cj => Forall (fun r => exists j, dumps_scalar r = Ok j) (values cj.2))
                 (cols jf)) as ->.
  { split.
    - intros [doc (items & -> & Hitems)%simplejson_dumps_Ok].
      apply Forall_forall. intros cj Hcj. apply Forall_forall. intros r Hr.
      destruct (cell_record jf cj r Hndj Hfull Hcj Hr) as (row & Hrow & Hkv).
      destruct (Forall2_elem_of_l _ _ _ _ Hitems Hrow) as (item & _ & members & _ & Hm).
      destruct (Forall2_elem_of_l _ _ _ _ Hm Hkv) as (m & _ & _ & Hd). eauto.
    - intros Hall.
      destruct (simplejson_dumps (to_dict_records jf)) as [doc|e] eqn:Hd; [eauto|].
      exfalso. apply simplejson_dumps_Raise in Hd as (row & kv & Hrow & Hkv & Hd).
      destruct (record_cell jf row kv Hndj Hfull Hrow Hkv) as (cj & Hcj & _ & Hr).
      rewrite Forall_forall in Hall. specialize (Hall _ Hcj).
      rewrite Forall_forall in Hall. destruct (Hall _ Hr) as [j Hj]. congruence. }
  clear -HF. induction HF as [|c cj l lj (_ & rs & Hcells & Hcj) _ IH].
  - split; constructor.
  - rewrite !Forall_cons, IH, Hcj. cbn.
    rewrite <- maybe_convert_objects_dumps.
    assert (Forall (fun r => exists j, dumps_scalar r = Ok j) rs <->
            Forall (fun v => exists r j, cast_to_serializable env v = Ok r /\
                                         dumps_scalar r = Ok j) (values c.2)) as ->;
      [|reflexivity].
    clear -Hcells. induction Hcells as [|v r vs rs Hv _ IH].
    + split; constructor.
    + rewrite !Forall_cons, IH. split; intros [H1 H2]; (split; [|exact H2]).
      * destruct H1 as [j Hj]. eauto.
      * destruct H1 as (r' & j & Hr' & Hj). exists j. congruence.
Qed.



Lemma prepare_row_data env a w p w1 :
  prepare env a w = (Ok p, w1) -> encode_rows env (dataframe a) = Ok (p_row_data p).
Proof.
  rewrite prepare_eq.
  destruct (encode_rows env (dataframe a)); [|discriminate].
  destruct (check_theme (theme a)); [|discriminate].
  destruct (resolve_data_return_mode env (data_return_mode a)) as [drm|]; [|discriminate].
  destruct (resolve_update_mode env drm (update_mode a)); [|discriminate].
  intros [= <- _]. reflexivity.
Qed.

(** X8.  Lines 150, 171-173 and 204-221, for a table with unique column
    names: in every call that reaches the boundary, the rows of the payload
    are an array of objects, one per index position when the table has a
    column and none when it has no column; the keys of every object are the
    column names in column order, and the tag map of the payload has
    exactly these names as its keys. *)
Theorem payload_rows_are_one_object_per_row env a w p w1 :
  NoDup (columns (dataframe a)) ->
  prepare env a w = (Ok p, w1) ->
  exists items, p_row_data p = JArr items /\
    length items = match cols (dataframe a) with
                   | [] => 0%nat
                   | _ => nrows (dataframe a)
                   end /\
    Forall (fun item => exists members, item = JObj members /\
                          members.*1 = columns (dataframe a) /\
                          dom (p_frame_dtypes p) = list_to_set members.*1) items.
Proof.
  intros Hnd Hp.
  pose proof (prepare_frame_dtypes _ _ _ _ _ Hp) as Htags.
  apply prepare_row_data in Hp. revert Hp. generalize (p_row_data p). intros doc.
  set (df := dataframe a) in *. unfold encode_rows.
  destruct (applymap _ _ df) as [jf|] eqn:Hj; [|discriminate].
  pose proof (applymap_columns _ _ _ _ Hj) as Hcols.
  apply applymap_Ok in Hj as [Hn HF].
  intros (items & -> & Hitems)%simplejson_dumps_Ok.
  exists items. split; [reflexivity|]. split.
  - rewrite <- (Forall2_length _ _ _ Hitems), to_dict_records_length, Hn.
    apply Forall2_length in HF. destruct (cols df), (cols jf); cbn in HF; congruence.
  - apply Forall_forall. intros item Hitem.
    destruct (Forall2_elem_of_r _ _ _ _ Hitems Hitem) as (row & Hrow & members & -> & Hm).
    exists members. split; [reflexivity|].
    assert (members.*1 = columns df) as Hkeys.
    { rewrite <- Hcols. apply to_dict_records_row in Hrow as (i & _ & ->).
      rewrite <- (row_at_keys jf i) by now rewrite Hcols.
      clear -Hm. induction Hm as [|kv m row ms [Hk _] _ IH]; cbn; [reflexivity|].
      f_equal; [exact Hk|exact IH]. }
    split; [exact Hkeys|]. rewrite Htags, Hkeys. apply frame_dtypes_has_every_column.
Qed.

(** The scenario table: two objects with the keys [id], [name], [t]. *)
Lemma payload_rows_are_one_object_per_row_witness :
  exists p w1,
    prepare (Samples.env Samples.silent_widget) (Samples.args Samples.scenario) Samples.fresh
      = (Ok p, w1) /\
    exists items, p_row_data p = JArr items /\ length items = 2%nat /\
      Forall (fun item => exists members, item = JObj members /\
                            members.*1 = ["id"; "name"; "t"] /\
                            dom (p_frame_dtypes p) = list_to_set members.*1) items.
Proof.
  do 2 eexists. split; [vm_compute; reflexivity|].
  eapply (payload_rows_are_one_object_per_row (Samples.env Samples.silent_widget)
            (Samples.args Samples.scenario) Samples.fresh).
  - compute_done.
  - vm_compute. reflexivity.
Defined.

(** X9.  Lines 157-173 on a well-formed table: the encoded document holds
    no [null].  Every missing value ([None], NaN, [NaT]) has been turned
    into text by [cast_to_serializable], so the [ignore_nan] replacement of
    [simplejson.dumps] never applies. *)
Theorem encoded_rows_hold_no_null env df doc :
  wf_frame df ->
  encode_rows env df = Ok doc ->
  no_null doc = true.
Proof.
  intros [Hnd Hlen]. unfold encode_rows.
  destruct (applymap _ _ df) as [jf|] eqn:Hj; [|discriminate].
  pose proof (encoded_full_columns _ _ _ _ Hlen Hj) as Hfull.
  pose proof (applymap_columns _ _ _ _ Hj) as Hcols.
  assert (NoDup (columns jf)) as Hndj by now rewrite Hcols.
  apply applymap_Ok in Hj as [Hn HF].
  intros (items & -> & Hitems)%simplejson_dumps_Ok. cbn.
  apply forallb_forall. intros item Hitem%list_elem_of_In.
  destruct (Forall2_elem_of_r _ _ _ _ Hitems Hitem) as (row & Hrow & members & -> & Hm).
  cbn. apply forallb_forall. intros m Hin%list_elem_of_In.
  destruct (Forall2_elem_of_r _ _ _ _ Hm Hin) as (kv & Hkv & _ & Hd).
  destruct (record_cell jf row kv Hndj Hfull Hrow Hkv) as (cj & Hcj & _ & Hr).
  destruct (Forall2_elem_of_r _ _ _ _ HF Hcj) as (c & Hc & _ & rs & Hcells & Ecj).
  rewrite Ecj in Hr. cbn in Hr.
  destruct (maybe_convert_objects_cases env rs)
    as [E|[(Htext & Hcx & E)|(Htext & Hcx & E)]]; rewrite E in Hr.
  - destruct (Forall2_elem_of_r _ _ _ _ Hcells Hr) as (v & Hv & Hcast).
    eapply cast_dumps_no_null; eassumption.
  - apply list_elem_of_In, in_map_iff in Hr as (r & Er & Hr%list_elem_of_In).
    rewrite <- Er in Hd. exfalso.
    exact (dumps_to_complex r _ (existsb_false_elem_of _ _ _ Htext Hr) Hd).
  - apply list_elem_of_In, in_map_iff in Hr as (r & Er & Hr%list_elem_of_In).
    rewrite <- Er in Hd.
    destruct (Forall2_elem_of_r _ _ _ _ Hcells Hr) as (v & Hv & Hcast).
    eapply cast_to_float_no_null; [exact Hcast| | |exact Hd];
      eapply existsb_false_elem_of; eassumption.
Qed.

(** The scenario table. *)
Lemma encoded_rows_hold_no_null_witness :
  exists doc,
    encode_rows (Samples.env Samples.silent_widget) Samples.scenario = Ok doc /\
    no_null doc = true.
Proof.
  eexists. split; [vm_compute; reflexivity|].
  apply (encoded_rows_hold_no_null (Samples.env Samples.silent_widget) Samples.scenario).
  - split; [compute_done|]. repeat constructor.
  - vm_compute. reflexivity.
Defined.

(** ** The message for an invalid update mode *)

(** X10.  Lines 195-202: when the table encodes, the theme is valid and
    [data_return_mode] names the member [drm], an [update_mode] that names
    no member - neither a member itself nor a text that [str.upper] turns
    into a member's name - raises a [ValueError] whose message shows [drm],
    the data-return mode, and the boundary is not called. *)
Theorem invalid_update_mode_shows_data_return_mode env a w row_data th drm :
  encode_rows env (dataframe a) = Ok row_data ->
  check_theme (theme a) = Ok th ->
  names_member env DataReturnMode_members (data_return_mode a) drm ->
  (forall um, ~ names_member env GridUpdateMode_members (update_mode a) um) ->
  (AgGrid env a w).1 = Raise (ValueError (format_DataReturnMode env drm ++ " is not valid.")) /\
  boundary_calls (AgGrid env a w).2 = boundary_calls w.
Proof.
  intros Henc Hth Hd Hno. apply AgGrid_raise_in_prepare.
  apply resolve_data_return_mode_Ok in Hd.
  rewrite prepare_eq, Henc, Hth. cbn zeta. rewrite Hd.
  destruct (resolve_update_mode env drm (update_mode a)) as [um|e] eqn:Hu.
  - apply resolve_update_mode_Ok in Hu. now apply Hno in Hu.
  - apply resolve_update_mode_Raise in Hu. now subst e.
Qed.

(** [update_mode="bogus"] beside [data_return_mode="filtered"], whose
    member an integer enumeration prints as [1]. *)
Lemma invalid_update_mode_shows_data_return_mode_witness :
  (AgGrid (Samples.env Samples.silent_widget)
     (Samples.with_modes (ModeStr "bogus") (ModeStr "filtered") (Samples.args Samples.scenario))
     Samples.fresh).1 = Raise (ValueError "1 is not valid.") /\
  boundary_calls
    (AgGrid (Samples.env Samples.silent_widget)
       (Samples.with_modes (ModeStr "bogus") (ModeStr "filtered") (Samples.args Samples.scenario))
       Samples.fresh).2 = [].
Proof.
  refine (invalid_update_mode_shows_data_return_mode (Samples.env Samples.silent_widget)
            (Samples.with_modes (ModeStr "bogus") (ModeStr "filtered")
               (Samples.args Samples.scenario))
            Samples.fresh _ "light" FILTERED _ _ _ _).
  - vm_compute. reflexivity.
  - reflexivity.
  - reflexivity.
  - intros um Hf. vm_compute in Hf. discriminate.
Defined.

(** ** The decoded table *)

Lemma unique_first_is_NoDup l : NoDup (unique_first l).
Proof.
  induction l as [|a l IH]; cbn; constructor.
  - intros Hin. apply list_elem_of_filter in Hin as [Hne _]. now apply Hne.
  - now apply NoDup_filter.
Qed.

Lemma fst_map_pair {A B} (g : A -> B) (l : list A) : (map (fun x => (x, g x)) l).*1 = l.
Proof. induction l as [|x l IH]; cbn; [reflexivity|]. now rewrite IH. Qed.

Lemma DataFrame_of_records_wf env rows : wf_frame (DataFrame_of_records env rows).
Proof.
  split.
  - unfold columns, DataFrame_of_records. cbn.
    rewrite fst_map_pair. apply unique_first_is_NoDup.
  - cbn. apply Forall_forall. intros c Hc.
    apply list_elem_of_In, in_map_iff in Hc as (name & <- & _). cbn.
    now rewrite maybe_convert_objects_length, length_map.
Qed.

Lemma DataFrame_of_records_columns env rows :
  columns (DataFrame_of_records env rows) = unique_first (concat (map (map fst) rows)).
Proof.
  unfold columns, DataFrame_of_records. cbn. apply fst_map_pair.
Qed.

Lemma retype_group_shape env tags func ot frame frame' :
  (forall col col', func col = Ok col' -> length col' = length col) ->
  retype_group env tags func ot frame = Ok frame' ->
  nrows frame' = nrows frame /\ Forall2 same_shape (cols frame) (cols frame').
Proof.
  intros Hlen. unfold retype_group.
  case_bool_decide as Hsel.
  - intros [= <-]. split; [reflexivity|].
    induction (cols frame); constructor; [split; reflexivity|assumption].
  - unfold loc_apply. case_bool_decide; [|discriminate].
    destruct (mapM _ (cols frame)) as [cs|e] eqn:Hm; [|discriminate].
    intros [= <-]. split; [reflexivity|]. cbn.
    apply mapM_Ok_Forall2 in Hm.
    eapply Forall2_impl; [exact Hm|]. cbn. intros c c'.
    case_bool_decide.
    + destruct (func (values c.2)) as [vs|] eqn:Hf; [|discriminate].
      intros [= <-]. split; [reflexivity|]. cbn. now apply Hlen.
    + intros [= <-]. split; reflexivity.
Qed.

Lemma same_shape_trans l1 l2 l3 :
  Forall2 same_shape l1 l2 -> Forall2 same_shape l2 l3 -> Forall2 same_shape l1 l3.
Proof.
  intros H12 H23.
  eapply Forall2_impl; [exact (Forall2_compose _ _ _ _ _ H12 H23)|].
  intros c c'' (c' & [N1 L1] & [N2 L2]). split; congruence.
Qed.

Lemma retype_shape env errors ot frame frame' :
  retype env errors ot frame = Ok frame' ->
  nrows frame' = nrows frame /\ Forall2 same_shape (cols frame) (cols frame').
Proof.
  unfold retype, mbind, result_mbind, result_bind.
  destruct (retype_group _ _ (to_numeric env errors) ot frame) as [f1|] eqn:H1; [|discriminate].
  destruct (retype_group _ _ (astype_str env) ot f1) as [f2|] eqn:H2; [|discriminate].
  destruct (retype_group _ _ (to_datetime env errors) ot f2) as [f3|] eqn:H3; [|discriminate].
  intros H4.
  apply retype_group_shape in H1 as [N1 S1];
    [|intros col col'; apply to_numeric_length].
  apply retype_group_shape in H2 as [N2 S2];
    [|intros col col' [= <-]; apply length_map].
  apply retype_group_shape in H3 as [N3 S3];
    [|intros col col'; apply convert_column_length].
  apply retype_group_shape in H4 as [N4 S4];
    [|intros col col' [= <-]; reflexivity].
  split; [congruence|].
  eauto using same_shape_trans.
Qed.

Lemma same_shape_wf frame frame' :
  wf_frame frame -> nrows frame' = nrows frame ->
  Forall2 same_shape (cols frame) (cols frame') ->
  wf_frame frame' /\ columns frame' = columns frame.
Proof.
  intros [Hnd Hlen] Hn HS.
  assert (columns frame' = columns frame) as Hc.
  { unfold columns. eapply Forall2_names; [|exact HS]. now intros c c' [H _]. }
  split; [|exact Hc]. split; [now rewrite Hc|].
  rewrite Hn. clear Hn Hc Hnd.
  induction HS as [|c c' l l' [_ Hl] _ IH]; [constructor|].
  apply Forall_cons in Hlen as [Hc Hlen]. constructor; [congruence|now apply IH].
Qed.

(** X11.  Lines 235-277: whenever the decoder returns, the returned table
    has one row per record of the response and one column per key of the
    records, in order of first appearance; it is well-formed; and the
    selection is the response's.  Retyping changes cells, never the shape. *)
Theorem decoded_table_keeps_rows_and_columns env a r res :
  decode_response env a r = Ok res ->
  nrows (data res) = length (rowData r) /\
  columns (data res) = unique_first (concat (map (map fst) (rowData r))) /\
  wf_frame (data res) /\
  selected_rows res = selectedRows r.
Proof.
  unfold decode_response, mbind, result_mbind, result_bind.
  pose proof (DataFrame_of_records_wf env (rowData r)) as Hwf.
  pose proof (DataFrame_of_records_columns env (rowData r)) as Hcols.
  set (frame := DataFrame_of_records env (rowData r)) in *.
  assert (nrows frame = length (rowData r)) as Hn by reflexivity.
  destruct (negb (empty frame)); [destruct (try_to_convert_back_to_original_types a)|].
  - destruct (retype env _ _ frame) as [frame'|] eqn:Hre; [|discriminate].
    intros [= <-]. cbn [data selected_rows].
    apply retype_shape in Hre as [Hn' HS].
    destruct (same_shape_wf _ _ Hwf Hn' HS) as [Hwf' Hc'].
    repeat split; try apply Hwf'; congruence.
  - intros [= <-]. cbn [data selected_rows]. repeat split; try apply Hwf; assumption.
  - intros [= <-]. cbn [data selected_rows]. repeat split; try apply Hwf; assumption.
Qed.

(** The response with a malformed numeric cell, under ['coerce']. *)
Lemma decoded_table_keeps_rows_and_columns_witness :
  exists res,
    decode_response (Samples.env Samples.silent_widget) (Samples.args Samples.scenario)
      Samples.mixed_response = Ok res /\
    nrows (data res) = 2%nat /\
    columns (data res) = ["n"; "s"] /\
    wf_frame (data res) /\
    selected_rows res = [].
Proof.
  eexists. split; [vm_compute; reflexivity|].
  apply (decoded_table_keeps_rows_and_columns (Samples.env Samples.silent_widget)
           (Samples.args Samples.scenario) Samples.mixed_response).
  vm_compute. reflexivity.
Defined.

(** What [pd.DataFrame] keeps of the cells of a column: a cell that is text
    stays the text it was. *)
Lemma maybe_convert_objects_text env col i s :
  col !! i = Some (PyStr s) -> maybe_convert_objects env col !! i = Some (PyStr s).
Proof.
  intros Hi. unfold maybe_convert_objects.
  assert (existsb is_text_or_object col = true) as ->; [|exact Hi].
  apply existsb_exists. exists (PyStr s).
  split; [|reflexivity]. apply list_elem_of_In. eapply list_elem_of_lookup_2, Hi.
Qed.

Lemma elem_of_unique_first x l : x ∈ l -> x ∈ unique_first l.
Proof.
  induction l as [|a l IH]; cbn; [auto|].
  intros [->|Hin]%elem_of_cons; [left|].
  destruct (decide (x = a)) as [->|Hne]; [left|right].
  apply list_elem_of_filter. auto.
Qed.

Lemma record_get_key name (row : record) v :
  record_get name row = Some v -> name ∈ row.*1.
Proof.
  unfold record_get. destruct (List.find _ row) as [kv|] eqn:Hf; [|discriminate].
  intros _. apply find_some in Hf as [Hin Heq]. apply String.eqb_eq in Heq. subst name.
  apply list_elem_of_fmap. exists kv. split; [reflexivity|now apply list_elem_of_In].
Qed.

(** X12.  Lines 239-240 and 276-277: with
    [try_to_convert_back_to_original_types] off, a call that is answered
    never raises: it returns the table [pd.DataFrame] builds from the
    response's rows together with the response's selection, with no
    conversion applied - whatever the echoed tags (tags naming columns the
    rows do not have included) and the error-policy string are.  So a cell
    that was sent back as text is that text in the result, at its row and
    under its name, also under a numeric tag. *)
Theorem conversion_off_returns_rebuilt_table env a w p w1 r :
  prepare env a w = (Ok p, w1) ->
  answers env p r ->
  try_to_convert_back_to_original_types a = false ->
  exists res,
    (AgGrid env a w).1 = Ok res /\
    data res = DataFrame_of_records env (rowData r) /\
    selected_rows res = selectedRows r /\
    (forall i row name s,
        rowData r !! i = Some row -> record_get name row = Some (PyStr s) ->
        exists cells, (name, cells) ∈ cols (data res) /\
                      values cells !! i = Some (PyStr s)).
Proof.
  intros Hp Ha Hoff.
  exists {| data := DataFrame_of_records env (rowData r); selected_rows := selectedRows r |}.
  split; [|split; [reflexivity|split; [reflexivity|]]].
  - rewrite (AgGrid_answered env a w p w1 r Hp Ha).
    unfold decode_response. rewrite Hoff. now destruct (negb _).
  - cbn [data]. intros i row name s Hi Hget.
    eexists. split.
    + unfold DataFrame_of_records. cbn [cols]. apply list_elem_of_In, in_map_iff.
      exists name. split; [reflexivity|]. apply list_elem_of_In, elem_of_unique_first.
      apply list_elem_of_In, in_concat. exists (row.*1).
      split; [|apply list_elem_of_In; eapply record_get_key, Hget].
      apply in_map_iff. exists row. split; [reflexivity|].
      apply list_elem_of_In. eapply list_elem_of_lookup_2, Hi.
    + cbn. apply maybe_convert_objects_text.
      rewrite map_fmap, list_lookup_fmap, Hi. cbn. now rewrite Hget.
Qed.

(** The malformed numeric cell comes back as the text it was. *)
Lemma conversion_off_returns_rebuilt_table_witness :
  exists res,
    (AgGrid (Samples.env (Samples.answering Samples.mixed_response))
       (Samples.without_conversion (Samples.args Samples.scenario)) Samples.fresh).1 = Ok res /\
    data res = DataFrame_of_records (Samples.env (Samples.answering Samples.mixed_response))
                 (rowData Samples.mixed_response) /\
    selected_rows res = selectedRows Samples.mixed_response /\
    (forall i row name s,
        rowData Samples.mixed_response !! i = Some row ->
        record_get name row = Some (PyStr s) ->
        exists cells, (name, cells) ∈ cols (data res) /\
                      values cells !! i = Some (PyStr s)).
Proof.
  refine (conversion_off_returns_rebuilt_table
            (Samples.env (Samples.answering Samples.mixed_response))
            (Samples.without_conversion (Samples.args Samples.scenario)) Samples.fresh
            _ _ Samples.mixed_response _ _ _).
  - vm_compute. reflexivity.
  - left. reflexivity.
  - reflexivity.
Defined.

(** With conversion off the numeric-tagged column [n] keeps its texts. *)
Example conversion_off_keeps_text :
  match (AgGrid (Samples.env (Samples.answering Samples.mixed_response))
           (Samples.without_conversion (Samples.args Samples.scenario)) Samples.fresh).1 with
  | Ok res => Some (frame_values (data res))
  | Raise _ => None
  end = Some (2%nat, [("n", [PyStr "12"; PyStr "x"]); ("s", [PyInt 5; PyStr "b"])]).
Proof. vm_compute. reflexivity. Qed.

Lemma select_tags_none tags (ot : gmap string string) :
  (forall name, tagged ot tags name = false) -> select_tags tags ot = ∅.
Proof.
  intros Hno. apply map_empty. intros name.
  destruct (select_tags tags ot !! name) eqn:Hl; [|reflexivity].
  assert (is_Some (select_tags tags ot !! name)) as Hs by eauto.
  apply select_tags_lookup in Hs. rewrite Hno in Hs. discriminate.
Qed.

Lemma tagged_subset (ot : gmap string string) tags tags' name :
  tags ⊆ tags' -> tagged ot tags' name = false -> tagged ot tags name = false.
Proof.
  unfold tagged. intros Hsub. destruct (ot !! name) as [t|]; [|reflexivity].
  intros H%bool_decide_eq_false. apply bool_decide_eq_false. auto.
Qed.



(** ** Round trip *)

(** *** Columns that unification leaves alone *)

Lemma forallb_Forall {A} (f : A -> bool) l :
  forallb f l = true -> Forall (fun x => f x = true) l.
Proof. rewrite forallb_forall, Forall_forall. intros H x Hx. now apply H, list_elem_of_In. Qed.

Lemma maybe_convert_objects_uniform env col :
  uniform col = true -> maybe_convert_objects env col = col.
Proof.
  unfold uniform. rewrite !orb_true_iff.
  intros [[[[H|H]|H]|H]|H]; apply forallb_Forall in H as HF; unfold maybe_convert_objects.
  - destruct (existsb is_text_or_object col); [reflexivity|].
    rewrite (existsb_false_Forall is_bool is_str) by (auto; now intros []).
    rewrite (existsb_false_Forall is_wide is_str) by (auto; now intros []).
    rewrite (existsb_false_Forall is_complex is_str) by (auto; now intros []).
    rewrite (existsb_false_Forall is_float is_str) by (auto; now intros []).
    rewrite (existsb_false_Forall is_None is_str) by (auto; now intros []).
    reflexivity.
  - rewrite (existsb_false_Forall is_text_or_object is_bool) by (auto; now intros []).
    destruct (existsb is_bool col); [reflexivity|].
    rewrite (existsb_false_Forall is_wide is_bool) by (auto; now intros []).
    rewrite (existsb_false_Forall is_complex is_bool) by (auto; now intros []).
    rewrite (existsb_false_Forall is_float is_bool) by (auto; now intros []).
    rewrite (existsb_false_Forall is_None is_bool) by (auto; now intros []).
    reflexivity.
  - rewrite (existsb_false_Forall is_text_or_object is_int64) by (auto; now intros []).
    rewrite (existsb_false_Forall is_bool is_int64) by (auto; now intros []).
    rewrite (existsb_false_Forall is_wide is_int64)
      by (auto; intros []; cbn; try discriminate; now intros ->).
    rewrite (existsb_false_Forall is_complex is_int64) by (auto; now intros []).
    rewrite (existsb_false_Forall is_float is_int64) by (auto; now intros []).
    rewrite (existsb_false_Forall is_None is_int64) by (auto; now intros []).
    reflexivity.
  - rewrite (existsb_false_Forall is_text_or_object is_uint64) by (auto; now intros []).
    rewrite (existsb_false_Forall is_bool is_uint64) by (auto; now intros []).
    rewrite H.
    rewrite (existsb_false_Forall is_complex is_uint64) by (auto; now intros []).
    rewrite (existsb_false_Forall is_float is_uint64) by (auto; now intros []).
    rewrite (existsb_false_Forall is_None is_uint64) by (auto; now intros []).
    now destruct (existsb is_wide col).
  - rewrite (existsb_false_Forall is_text_or_object is_float) by (auto; now intros []).
    rewrite (existsb_false_Forall is_bool is_float) by (auto; now intros []).
    rewrite (existsb_false_Forall is_wide is_float) by (auto; now intros []).
    rewrite (existsb_false_Forall is_complex is_float) by (auto; now intros []).
    rewrite (existsb_false_Forall is_None is_float) by (auto; now intros []).
    destruct (existsb is_float col); [|reflexivity]. cbn.
    eapply map_id_Forall; [|exact HF]. now intros [].
Qed.

Lemma promote_integers env input col :
  forallb is_int64 col || forallb is_uint64 col = true -> promote env input col = col.
Proof.
  assert (forall l, Forall (fun v => is_int v = true) l -> map to_int l = l) as Hid.
  { intros l. apply map_id_Forall. now intros []. }
  rewrite orb_true_iff. intros [H|H]; apply forallb_Forall in H as HF; unfold promote.
  - rewrite (existsb_false_Forall is_text_or_object is_int64) by (auto; now intros []).
    rewrite (existsb_false_Forall is_wide is_int64)
      by (auto; intros []; cbn; try discriminate; now intros ->).
    rewrite (existsb_false_Forall is_complex is_int64) by (auto; now intros []).
    rewrite (existsb_false_Forall is_float is_int64) by (auto; now intros []).
    destruct (existsb is_int col); [|reflexivity]. apply Hid.
    eapply Forall_impl; [exact HF|]. now intros [].
  - rewrite (existsb_false_Forall is_text_or_object is_uint64) by (auto; now intros []).
    rewrite H.
    rewrite (existsb_false_Forall is_complex is_uint64) by (auto; now intros []).
    rewrite (existsb_false_Forall is_float is_uint64) by (auto; now intros []).
    destruct (existsb is_wide col); [reflexivity|].
    destruct (existsb is_int col); [|reflexivity]. apply Hid.
    eapply Forall_impl; [exact HF|]. now intros [].
Qed.

Lemma Forall2_both {X Y} (P Q : X -> Y -> Prop) (xs : list X) (ys : list Y) :
  Forall2 P xs ys -> Forall2 Q xs ys -> Forall2 (fun a b => P a b /\ Q a b) xs ys.
Proof.
  intros HP. induction HP as [|a b xs ys Hab _ IH]; intros HQ; inversion HQ; subst.
  - constructor.
  - constructor; [split; assumption|]. now apply IH.
Qed.

Lemma Forall2_map_eq {A B} (f : A -> B) l l' :
  Forall2 (fun x y => f y = f x) l l' -> map f l' = map f l.
Proof. induction 1 as [|x y l l' Hxy _ IH]; cbn; [reflexivity|]. now rewrite Hxy, IH. Qed.

(** *** One cell and one column through the encoder *)

Lemma cell_typed_encodes env k v :
  cell_typed env k v ->
  exists r, cast_to_serializable env v = Ok r /\ json_safe r /\ taken_back env k r v /\
            (k <> "M" -> r = v).
Proof.
  unfold cell_typed, taken_back, json_safe.
  repeat case_bool_decide.
  - intros (z & -> & Hz). exists (PyInt z). subst k. cbn.
    assert (fits_int64_or_uint64 z = true) as ->.
    { unfold int64_range in Hz. unfold fits_int64_or_uint64.
      apply andb_true_iff in Hz as [H1 H2]. apply Z.leb_le in H1. apply Z.ltb_lt in H2.
      apply andb_true_iff. split; [apply Z.leb_le|apply Z.ltb_lt]; lia. }
    split; [reflexivity|]. split; [eauto|]. split; [|reflexivity].
    repeat split; try reflexivity; intros; set_solver.
  - intros (z & -> & Hz). exists (PyInt z). subst k. cbn.
    assert (fits_int64_or_uint64 z = true) as ->.
    { unfold uint64_range in Hz. unfold fits_int64_or_uint64.
      apply andb_true_iff in Hz as [H1 H2]. apply Z.leb_le in H1. apply Z.ltb_lt in H2.
      apply andb_true_iff. split; [apply Z.leb_le|apply Z.ltb_lt]; lia. }
    split; [reflexivity|]. split; [eauto|]. split; [|reflexivity].
    repeat split; try reflexivity; intros; set_solver.
  - intros (f & -> & Hf). exists (PyFloat f). subst k.
    assert (cast_to_serializable env (PyFloat f) = Ok (PyFloat f)) as ->.
    { destruct f; cbn in *; try discriminate; reflexivity. }
    split; [reflexivity|]. split.
    + exists (JFloat f). cbn. now rewrite Hf.
    + split; [|reflexivity]. repeat split; try reflexivity; intros; set_solver.
  - intros (b & ->). exists (PyBool b). subst k. cbn.
    split; [reflexivity|]. split; [eauto|]. split; [|reflexivity].
    repeat split; try reflexivity; intros; set_solver.
  - intros (s & ->). exists (PyStr s). cbn.
    split; [reflexivity|]. split; [eauto|]. split; [|reflexivity].
    repeat split; try reflexivity; intros; subst; set_solver.
  - intros (o & iso & -> & Hiso & Hp). exists (PyStr iso). subst k.
    split; [now apply cast_isoformat|]. split; [cbn; eauto|]. split; [|congruence].
    repeat split; try assumption; intros; set_solver.
  - contradiction.
Qed.

Lemma mapM_typed_cells env k vs :
  Forall (cell_typed env k) vs ->
  exists rs, mapM (cast_to_serializable env) vs = Ok rs /\
             Forall2 (fun v r => json_safe r /\ taken_back env k r v) vs rs /\
             (k <> "M" -> rs = vs).
Proof.
  induction 1 as [|v vs Hv _ (rs & Hrs & HF & He)]; cbn.
  - exists []. split; [reflexivity|]. split; [constructor|reflexivity].
  - destruct (cell_typed_encodes env k v Hv) as (r & Hr & Hs & Hb & Hrv).
    exists (r :: rs). rewrite Hr, Hrs. split; [reflexivity|].
    split; [constructor; auto|]. intros Hk. now rewrite (Hrv Hk), (He Hk).
Qed.

(** What the cells of a typed column are sent as is of one kind. *)
Lemma typed_cells_uniform env k vs rs :
  Forall (cell_typed env k) vs ->
  Forall2 (fun v r => cast_to_serializable env v = Ok r) vs rs ->
  uniform rs = true.
Proof.
  intros Ht Hc. unfold uniform.
  assert (forall (f : pyval -> bool),
            (forall v r, cell_typed env k v -> cast_to_serializable env v = Ok r -> f r = true) ->
            forallb f rs = true) as Hall.
  { intros f Hf. clear -Ht Hc Hf. induction Hc as [|v r vs rs Hv _ IH]; [reflexivity|].
    apply Forall_cons in Ht as [Hvt Ht]. cbn. now rewrite (Hf v r Hvt Hv), IH. }
  unfold cell_typed in *.
  destruct (bool_decide (k = "i")) eqn:K1.
  { rewrite (Hall is_int64), !orb_true_r; [reflexivity|].
    intros v r (z & -> & Hz) Hr. cbn in Hr.
    destruct (fits_int64_or_uint64 z); [|discriminate]. injection Hr as <-. exact Hz. }
  destruct (bool_decide (k = "u")) eqn:K2.
  { rewrite (Hall is_uint64), !orb_true_r; [reflexivity|].
    intros v r (z & -> & Hz) Hr. cbn in Hr.
    destruct (fits_int64_or_uint64 z); [|discriminate]. injection Hr as <-. exact Hz. }
  destruct (bool_decide (k = "f")) eqn:K3.
  { rewrite (Hall is_float), !orb_true_r; [reflexivity|].
    intros v r (f & -> & Hf) Hr.
    destruct f; cbn in *; try discriminate; now injection Hr as <-. }
  destruct (bool_decide (k = "b")) eqn:K4.
  { rewrite (Hall is_bool), ?orb_true_r; [reflexivity|].
    intros v r (b & ->) Hr. cbn in Hr. now injection Hr as <-. }
  destruct (bool_decide (k ∈ ["O"; "S"; "U"])) eqn:K5.
  { rewrite (Hall is_str); [reflexivity|].
    intros v r (s & ->) Hr. cbn in Hr. now injection Hr as <-. }
  destruct (bool_decide (k = "M")) eqn:K6.
  { rewrite (Hall is_str); [reflexivity|].
    intros v r (o & iso & -> & Hiso & _) Hr.
    rewrite (cast_isoformat env _ iso) in Hr by exact Hiso. now injection Hr as <-. }
  destruct vs; [inversion Hc; reflexivity|]. now apply Forall_cons in Ht as [[] _].
Qed.

(** How a column of the encoded table relates to the typed column it
    comes from: the cells are what [cast_to_serializable] made of them,
    unification has changed nothing, and outside the datetime columns the
    cells are the original ones. *)
Lemma applymap_typed env df :
  Forall (column_typed env) (cols df) ->
  exists jf, applymap env (cast_to_serializable env) df = Ok jf /\
             nrows jf = nrows df /\
             Forall2 (fun c cj => encoded_column env c cj /\
                                  uniform (values cj.2) = true /\
                                  (kind (dtype c.2) <> "M" -> values cj.2 = values c.2))
                     (cols df) (cols jf).
Proof.
  intros Ht. unfold applymap.
  match goal with |- context [mapM ?g (cols df)] => set (enc := g) end.
  assert (exists cs, mapM enc (cols df) = Ok cs /\
            Forall2 (fun c cj => encoded_column env c cj /\
                                 uniform (values cj.2) = true /\
                                 (kind (dtype c.2) <> "M" -> values cj.2 = values c.2))
                    (cols df) cs) as (cs & -> & HF).
  { induction Ht as [|c l Hc _ (cs & Hcs & HF)]; cbn.
    - exists []. split; [reflexivity|constructor].
    - destruct (mapM_typed_cells env _ _ Hc) as (rs & Hrs & Hcells & Hsame).
      assert (uniform rs = true) as Hu.
      { eapply typed_cells_uniform; [exact Hc|]. now apply mapM_Ok_Forall2. }
      exists ((c.1, Series_of env rs) :: cs). unfold enc at 1. rewrite Hrs, Hcs.
      split; [reflexivity|]. constructor; [|exact HF].
      assert (values (Series_of env rs) = rs) as Hv.
      { unfold Series_of. cbn. now apply maybe_convert_objects_uniform. }
      unfold encoded_column. cbn [fst snd]. rewrite !Hv.
      split; [split; [reflexivity|exact Hcells]|]. split; [exact Hu|exact Hsame]. }
  eexists. split; [reflexivity|]. split; [reflexivity|exact HF].
Qed.

Lemma encoded_wf env df jf :
  wf_frame df -> nrows jf = nrows df ->
  Forall2 (encoded_column env) (cols df) (cols jf) ->
  wf_frame jf /\ columns jf = columns df.
Proof.
  intros [Hnd Hlen] Hn HF.
  assert (columns jf = columns df) as Hc.
  { unfold columns. eapply Forall2_names; [|exact HF]. now intros c c' [H _]. }
  split; [|exact Hc]. split; [now rewrite Hc|].
  rewrite Hn. clear Hn Hc Hnd.
  induction HF as [|c cj l lj [_ Hcells] _ IH]; [constructor|].
  apply Forall_cons in Hlen as [Hl Hlen]. constructor; [|now apply IH].
  rewrite <- Hl. symmetry. eapply Forall2_length. exact Hcells.
Qed.

Lemma encoded_rows_safe env df jf :
  wf_frame jf ->
  Forall2 (encoded_column env) (cols df) (cols jf) ->
  Forall (Forall (fun kv => json_safe kv.2)) (to_dict_records jf).
Proof.
  intros [Hnd Hlen] HF.
  apply Forall_forall. intros row Hrow. apply Forall_forall. intros kv Hkv.
  destruct (record_cell jf row kv Hnd Hlen Hrow Hkv) as (cj & Hcj & _ & Hr).
  destruct (Forall2_elem_of_r _ _ _ _ HF Hcj) as (c & _ & _ & Hcells).
  destruct (Forall2_elem_of_r _ _ _ _ Hcells Hr) as (v & _ & Hs & _). exact Hs.
Qed.

(** *** The table rebuilt from the echoed rows *)

Lemma to_dict_records_keys df :
  NoDup (columns df) -> cols df <> [] ->
  concat (map (map fst) (to_dict_records df)) = concat (replicate (nrows df) (columns df)).
Proof.
  intros Hnd Hne. rewrite (to_dict_records_columns df Hne), map_map. f_equal.
  generalize 0%nat. induction (nrows df) as [|n IH]; intros k; cbn; [reflexivity|].
  now rewrite (row_at_keys df k Hnd), IH.
Qed.

Lemma record_get_row_at df i name s :
  NoDup (columns df) -> (name, s) ∈ cols df ->
  record_get name (row_at df i) = Some (nth i (values s) NaN).
Proof.
  intros Hnd. rewrite (row_at_NoDup df i Hnd). revert Hnd.
  unfold columns, record_get. induction (cols df) as [|[n0 s0] l IH]; cbn.
  - intros _ Hin. now apply elem_of_nil in Hin.
  - intros [Hn0 Hnd]%NoDup_cons Hin.
    destruct (String.eqb n0 name) eqn:Heq.
    + apply String.eqb_eq in Heq. subst n0. cbn.
      apply elem_of_cons in Hin as [[= <-]|Hin]; [reflexivity|].
      exfalso. apply Hn0. apply list_elem_of_fmap. exists (name, s). auto.
    + apply elem_of_cons in Hin as [[= -> ->]|Hin].
      * rewrite String.eqb_refl in Heq. discriminate.
      * now apply IH.
Qed.

Lemma DataFrame_of_to_dict_records env df :
  wf_frame df -> (0 < nrows df)%nat -> cols df <> [] ->
  DataFrame_of_records env (to_dict_records df) =
    {| nrows := nrows df;
       cols := map (fun c => (c.1, Series_of env (values c.2))) (cols df) |}.
Proof.
  intros [Hnd Hlen] Hpos Hne. unfold DataFrame_of_records.
  rewrite (to_dict_records_keys df Hnd Hne).
  destruct (nrows df) as [|n] eqn:Hn; [lia|].
  rewrite (unique_first_replicate n _ Hnd). rewrite <- Hn.
  f_equal.
  - rewrite to_dict_records_length. now destruct (cols df).
  - unfold columns. rewrite map_fmap, <- list_fmap_compose. apply list_fmap_ext.
    intros j [name s] Hj. cbn. f_equal. f_equal.
    apply list_elem_of_lookup_2 in Hj as Hin.
    rewrite (to_dict_records_columns df Hne), map_map.
    erewrite map_ext; [|intros i; rewrite (record_get_row_at df i name s Hnd Hin); reflexivity].
    cbn. unfold full_columns in Hlen. rewrite Forall_forall in Hlen.
    specialize (Hlen _ Hin). cbn in Hlen.
    rewrite Hn, <- Hlen. apply map_nth_seq.
Qed.

Lemma group_step_dtype tags func ot c c' :
  group_step tags func ot c c' -> dtype c'.2 = dtype c.2.
Proof.
  unfold group_step. destruct (tagged ot tags c.1).
  - now intros (vs & _ & ->).
  - now intros ->.
Qed.

(** The decoder leaves the dtype a column was built with. *)
Lemma retype_dtypes env errors ot frame frame' :
  dom ot ⊆ list_to_set (columns frame) ->
  retype env errors ot frame = Ok frame' ->
  Forall2 (fun c c' => dtype c'.2 = dtype c.2) (cols frame) (cols frame').
Proof.
  intros Hdom Hre. unfold retype, mbind, result_mbind, result_bind in Hre.
  destruct (retype_group _ _ (to_numeric env errors) ot frame) as [f1|] eqn:H1; [|discriminate].
  pose proof (retype_group_columns _ _ _ _ _ _ Hdom H1) as C1.
  apply retype_group_Ok in H1 as [_ H1]; [|exact Hdom].
  assert (dom ot ⊆ list_to_set (columns f1)) as Hdom1 by now rewrite C1.
  destruct (retype_group _ _ (astype_str env) ot f1) as [f2|] eqn:H2; [|discriminate].
  pose proof (retype_group_columns _ _ _ _ _ _ Hdom1 H2) as C2.
  apply retype_group_Ok in H2 as [_ H2]; [|exact Hdom1].
  assert (dom ot ⊆ list_to_set (columns f2)) as Hdom2 by now rewrite C2.
  destruct (retype_group _ _ (to_datetime env errors) ot f2) as [f3|] eqn:H3; [|discriminate].
  pose proof (retype_group_columns _ _ _ _ _ _ Hdom2 H3) as C3.
  apply retype_group_Ok in H3 as [_ H3]; [|exact Hdom2].
  assert (dom ot ⊆ list_to_set (columns f3)) as Hdom3 by now rewrite C3.
  apply retype_group_Ok in Hre as [_ H4]; [|exact Hdom3].
  pose proof (Forall2_compose _ _ _ _ _ (Forall2_compose _ _ _ _ _
                (Forall2_compose _ _ _ _ _ H1 H2) H3) H4) as H.
  eapply Forall2_impl; [exact H|].
  intros c0 c4 (c3 & (c2 & (c1 & A1 & A2) & A3) & A4).
  apply group_step_dtype in A1, A2, A3, A4. congruence.
Qed.

(** One column through encoding, the echo and retyping under ['coerce']. *)
Lemma column_round_trip env (ot : gmap string string) c cj c' :
  ot !! c.1 = Some (kind (dtype c.2)) ->
  column_typed env c ->
  encoded_column env c cj ->
  uniform (values cj.2) = true ->
  retyped env policy_coerce ot (cj.1, Series_of env (values cj.2)) c' ->
  (c'.1, values c'.2) = (c.1, values c.2).
Proof.
  intros Hk Htyped [Hname Hcells] Hu (Hn' & Hnum & Htext & Hdt & Hrest).
  assert (values (Series_of env (values cj.2)) = values cj.2) as Hv.
  { unfold Series_of. cbn. now apply maybe_convert_objects_uniform. }
  cbn [fst snd] in *. rewrite ?Hv in *.
  rewrite Hname in *. f_equal; [exact Hn'|].
  rewrite (tagged_lookup _ _ _ _ Hk) in Hnum.
  rewrite (tagged_lookup _ _ _ _ Hk) in Htext.
  rewrite (tagged_lookup _ _ _ _ Hk) in Hdt.
  rewrite (tagged_lookup _ _ _ _ Hk) in Hrest.
  unfold column_typed in Htyped.
  set (k := kind (dtype c.2)) in *.
  destruct (decide (k ∈ ["i"; "u"; "f"])) as [K1|K1].
  { destruct (Hnum (bool_decide_eq_true_2 _ K1)) as (cells & Hconv & ->). cbn in Hconv.
    assert (cells = values c.2) as ->.
    { eapply coerced_back; [|exact Hconv].
      eapply Forall2_impl; [exact Hcells|]. cbn. intros v r [_ (Hb & _)]. auto. }
    assert (forall (f : pyval -> bool),
              (forall v, cell_typed env k v -> f v = true) -> forallb f (values c.2) = true)
      as Hall.
    { intros f Hf. clear -Htyped Hf. induction Htyped as [|v vs Hv _ IH]; [reflexivity|].
      cbn. now rewrite (Hf v Hv), IH. }
    rewrite !elem_of_cons, elem_of_nil in K1. unfold cell_typed in Hall.
    destruct K1 as [K|[K|[K|[]]]]; rewrite K in Hall; cbn in Hall.
    - apply promote_integers. rewrite (Hall is_int64); [reflexivity|].
      now intros v (z & -> & Hz).
    - apply promote_integers. rewrite (Hall is_uint64), orb_true_r; [reflexivity|].
      now intros v (z & -> & Hz).
    - apply promote_floats. apply forallb_Forall, Hall. now intros v (f & -> & _). }
  destruct (decide (k ∈ ["O"; "S"; "U"])) as [K2|K2].
  { rewrite (Htext (bool_decide_eq_true_2 _ K2)).
    clear -Hcells K2. induction Hcells as [|v r vs rs [_ (_ & Hb & _)] _ IH]; cbn; [reflexivity|].
    now rewrite (Hb K2), IH. }
  destruct (decide (k = "M")) as [K3|K3].
  { assert (k ∈ ["M"]) as K3' by (rewrite K3; left).
    specialize (Hdt (bool_decide_eq_true_2 _ K3')). cbn in Hdt.
    eapply coerced_back; [|exact Hdt].
    eapply Forall2_impl; [exact Hcells|]. cbn. intros v r [_ (_ & _ & Hb & _)]. auto. }
  assert (k ∉ ["i"; "u"; "f"; "O"; "S"; "U"; "M"]) as K4.
  { intros H. rewrite !elem_of_cons, elem_of_nil in H.
    rewrite !elem_of_cons, elem_of_nil in K1, K2. tauto. }
  rewrite (Hrest (bool_decide_eq_false_2 _ K4)). cbn [fst snd]. rewrite Hv.
  clear -Hcells K4. induction Hcells as [|v r vs rs [_ (_ & _ & _ & Hb)] _ IH]; [reflexivity|].
  now rewrite (Hb K4), IH.
Qed.




(** The scenario of the specification, evaluated. *)
Example scenario_round_trip :
  match (AgGrid (Samples.env echo_widget) (Samples.args Samples.scenario) Samples.fresh).1 with
  | Ok res => Some (frame_values (data res), selected_rows res)
  | Raise _ => None
  end
  = Some ((2%nat, [("id", [PyInt 1; PyInt 2]);
                   ("name", [PyStr "a"; PyStr "b"]);
                   ("t", [Samples.Timestamp "2020-01-01T00:00:00";
                          Samples.Timestamp "2021-01-01T00:00:00"])]), []).
Proof. vm_compute. reflexivity. Qed.

(** A duration column comes back as its ISO 8601 text. *)
Example duration_round_trip :
  match (AgGrid (Samples.env echo_widget) (Samples.args Samples.spans) Samples.fresh).1 with
  | Ok res => Some (frame_values (data res))
  | Raise _ => None
  end = Some (1%nat, [("d", [PyStr "P1DT0H0M0S"])]).
Proof. vm_compute. reflexivity. Qed.
